(** * FDA product-specific guidance scraper: update detection and retrieval

    A shallow embedding of [common.py], [find_updated_ais.py] and
    [download_all_pdfs.py]:
    the classification of an active-ingredient record
    ([ai_is_of_interest]), the creation of the run directory
    ([create_output_directory]), the two variants of
    [download_specific_guidance_pdf], the retrying retrieval client
    ([download_single_pdf], [http_session]) and the [main] procedure.

    Python values are a small sum type, strings are [string] (one
    character per code point below 256), dictionaries are [gmap], and the
    side effects (file system, network, standard output, the download
    ledger) are threaded through a state-and-exception monad in which a
    raised exception keeps the changes made before it. *)

From Stdlib Require Import ZArith String Ascii List Lia DecimalString DecimalZ.
From stdpp Require Import base gmap sets list strings.

Local Open Scope string_scope.
Local Open Scope Z_scope.

(** ** Python values and exceptions *)

(** The objects a scraped table cell (or a missing key) can hold.
    [VOther] stands for an object of any other type, a float for example
    (pandas yields floats for a numeric column with empty cells); it is
    carried as the text [str()] returns for it, and two such objects are
    taken to be the same dictionary key when their texts agree. *)
Inductive value :=
| VInt (n : Z)
| VStr (s : string)
| VNone
| VOther (text : string).

#[global] Instance value_eq_dec : EqDecision value.
Proof. solve_decision. Defined.

#[global] Instance value_countable : Countable value.
Proof.
  refine (inj_countable'
    (λ v, match v with
          | VInt n => inl (inl n)
          | VStr s => inl (inr s)
          | VNone => inr (inl ())
          | VOther t => inr (inr t)
          end)
    (λ x, match x with
          | inl (inl n) => VInt n
          | inl (inr s) => VStr s
          | inr (inl _) => VNone
          | inr (inr t) => VOther t
          end) _).
  by intros [].
Defined.

(** The exception classes of [requests.exceptions] that the code names,
    all subclasses of [RequestException]; [ConnectTimeout] inherits from
    both [ConnectionError] and [Timeout], [ReadTimeout] from [Timeout]. *)
Inductive request_error :=
| HTTPError
| ConnectionError
| ConnectTimeout
| ReadTimeout
| OtherRequestException.

#[global] Instance request_error_eq_dec : EqDecision request_error.
Proof. solve_decision. Defined.

Inductive exn :=
| AttributeError
| ValueError
| TypeError
| OverflowError
| IndexError
| NameError (name : string)
| OSError
| FileExistsError
| RequestsError (e : request_error)
| Exception_ (msg : string)
| OutOfFuel. (* not a Python exception: a bounded loop ran out of steps *)

#[global] Instance exn_eq_dec : EqDecision exn.
Proof. solve_decision. Defined.

(** A computation that returns or raises. *)
Inductive result (A : Type) :=
| Ok (a : A)
| Raise (e : exn).
Arguments Ok {A} a.
Arguments Raise {A} e.

Definition rbind {A B} (r : result A) (k : A → result B) : result B :=
  match r with
  | Ok a => k a
  | Raise e => Raise e
  end.

Declare Scope result_scope.
Delimit Scope result_scope with result.
Notation "'let?' x := r 'in' k" := (rbind r (λ x, k))
  (at level 10, x pattern, r at level 100, k at level 200) : result_scope.

(** ** Built-in string operations *)

(** [str.isspace] on one character (code points below 256). *)
Definition is_whitespace (c : ascii) : bool :=
  let n := nat_of_ascii c in
  ((9 <=? n)%nat && (n <=? 13)%nat)
  || ((28 <=? n)%nat && (n <=? 32)%nat)
  || (n =? 133)%nat || (n =? 160)%nat.

(** The characters [int()] passes over around a number: those of
    [is_whitespace] without the four separators 28 to 31. *)
Definition is_int_space (c : ascii) : bool :=
  let n := nat_of_ascii c in
  ((9 <=? n)%nat && (n <=? 13)%nat)
  || (n =? 32)%nat || (n =? 133)%nat || (n =? 160)%nat.

Fixpoint lstrip_with (space : ascii → bool) (s : string) : string :=
  match s with
  | String c s' => if space c then lstrip_with space s' else s
  | EmptyString => EmptyString
  end.

Fixpoint rstrip_with (space : ascii → bool) (s : string) : string :=
  match s with
  | String c s' =>
      match rstrip_with space s' with
      | EmptyString => if space c then EmptyString else String c EmptyString
      | r => String c r
      end
  | EmptyString => EmptyString
  end.

(** [s.strip()] *)
Definition str_strip (s : string) : string :=
  rstrip_with is_whitespace (lstrip_with is_whitespace s).

(** [sub in s] *)
Fixpoint str_contains (sub s : string) : bool :=
  String.prefix sub s ||
  match s with
  | String _ s' => str_contains sub s'
  | EmptyString => false
  end.

(** [s.split(sep)] for a non-empty separator: [piece] is the piece being
    read, [skip] the number of characters of a matched separator still to
    pass over. *)
Fixpoint split_from (sep s : string) (skip : nat) (piece : string) : list string :=
  match s with
  | EmptyString => [piece]
  | String c s' =>
      match skip with
      | S k => split_from sep s' k piece
      | O =>
          if String.prefix sep s
          then piece :: split_from sep s' (String.length sep - 1) EmptyString
          else split_from sep s' 0 (piece +:+ String c EmptyString)
      end
  end.

Definition str_split (sep s : string) : list string := split_from sep s 0 EmptyString.

(** [str(n)] for an integer. *)
Definition str_of_Z (n : Z) : string := NilZero.string_of_int (Z.to_int n).

(** [str(v)] *)
Definition py_str (v : value) : string :=
  match v with
  | VInt n => str_of_Z n
  | VStr s => s
  | VNone => "None"
  | VOther text => text
  end.

Definition digit_of (c : ascii) : option Z :=
  let n := nat_of_ascii c in
  if ((48 <=? n)%nat && (n <=? 57)%nat)%bool then Some (Z.of_nat n - 48) else None.

(** The digits of an integer literal, single underscores allowed between
    two digits; [after_digit] tells whether the previous character was a
    digit. *)
Fixpoint parse_digits (s : string) (acc : Z) (after_digit : bool) : option Z :=
  match s with
  | EmptyString => if after_digit then Some acc else None
  | String c s' =>
      match digit_of c with
      | Some d => parse_digits s' (10 * acc + d) true
      | None =>
          if (Ascii.eqb c "_" && after_digit)%bool
          then parse_digits s' acc false
          else None
      end
  end.

(** [int(s)] for a string: surrounding whitespace, an optional sign, then
    the digits; anything else is a [ValueError]. (The limit CPython 3.11
    puts on the number of digits is left out.) *)
Definition py_int (s : string) : result Z :=
  let opt :=
    match rstrip_with is_int_space (lstrip_with is_int_space s) with
    | String "+" r => parse_digits r 0 false
    | String "-" r => Z.opp <$> parse_digits r 0 false
    | t => parse_digits t 0 false
    end in
  match opt with
  | Some n => Ok n
  | None => Raise ValueError
  end.

(** [v.split(sep)] on an arbitrary object: only strings have the method. *)
Definition py_split (v : value) (sep : string) : result (list string) :=
  match v with
  | VStr s => Ok (str_split sep s)
  | _ => Raise AttributeError
  end.

(** ** [datetime.date] *)

Record date := mkdate { year : Z; month : Z; day : Z }.

Definition is_leap (y : Z) : bool :=
  (y mod 4 =? 0) && (negb (y mod 100 =? 0) || (y mod 400 =? 0)).

Definition days_in_month (y m : Z) : Z :=
  if m =? 2 then (if is_leap y then 29 else 28)
  else if (m =? 4) || (m =? 6) || (m =? 9) || (m =? 11) then 30
  else 31.

(** An integer that fits the C [int] the arguments of [datetime.date] are
    converted to. *)
Definition fits_c_int (n : Z) : bool := (- 2 ^ 31 <=? n) && (n <? 2 ^ 31).

(** [datetime.date(year, month, day)] on integers: an argument that does
    not fit a C [int] is an [OverflowError] of the conversion; the range
    checks come after it. *)
Definition datetime_date (y m d : Z) : result date :=
  if negb (fits_c_int y && fits_c_int m && fits_c_int d) then Raise OverflowError
  else if negb ((1 <=? y) && (y <=? 9999)) then Raise ValueError
  else if negb ((1 <=? m) && (m <=? 12)) then Raise ValueError
  else if negb ((1 <=? d) && (d <=? days_in_month y m)) then Raise ValueError
  else Ok (mkdate y m d).

(** [d1 >= d2]: dates compare as (year, month, day) triples. *)
Definition date_ge (d1 d2 : date) : bool :=
  if year d1 =? year d2 then
    if month d1 =? month d2 then day d2 <=? day d1
    else month d2 <? month d1
  else year d2 <? year d1.

(** [l[i]] on a list: [IndexError] out of range. *)
Definition list_item {A} (l : list A) (i : nat) : result A :=
  match l !! i with
  | Some x => Ok x
  | None => Raise IndexError
  end.

(** [l[-1]] *)
Definition list_last_item {A} (l : list A) : result A :=
  match last l with
  | Some x => Ok x
  | None => Raise IndexError
  end.

(** ['{:02d}'.format(n)] *)
Definition format_02d (n : Z) : string :=
  if (0 <=? n) && (n <? 10) then "0" +:+ str_of_Z n else str_of_Z n.

(** ** The environment and the state of a run *)

Inductive node :=
| Dir
| File (content : string).

#[global] Instance node_eq_dec : EqDecision node.
Proof. solve_decision. Defined.

(** One attempt of the transport layer (urllib3) to reach a URL: a
    response with its status and body, or a failure, with the exception
    that requests raises when no retry follows and whether the retry
    policy may try again. *)
Inductive attempt :=
| Response (status : Z) (content : string)
| Failure (e : request_error) (retryable : bool).

(** What the run reads from outside: the clock, the command line, the
    network ([transport url n] is the outcome of the attempt made for
    [url] when [n] attempts were made before it) and the table scraper
    ([pandas.io.html.read_html], one list of row dictionaries per table
    found). *)
Record env := {
  today : date;
  argv : list string;
  transport : string → nat → attempt;
  read_html : string → result (list (list (gmap string value)));
}.

(** A line written by [print]. *)
Inductive output :=
| Text (s : string)
| ErrorText (e : exn)
| Formatted (format : string) (args : list value).

(** What the run changes: the file system (paths as written, relative to
    the execution location), the standard output, the GET requests
    issued, the number of transport attempts made, and the dictionary
    object [downloaded_rld_pdfs], which [main] creates and
    [download_specific_guidance_pdf] mutates through its reference. *)
Record world := {
  fs : gmap string node;
  stdout : list output;
  requests_made : list string;
  attempts : nat;
  downloaded_rld_pdfs : gmap value bool;
}.

Definition with_fs (f : gmap string node) (w : world) : world :=
  {| fs := f; stdout := stdout w; requests_made := requests_made w;
     attempts := attempts w; downloaded_rld_pdfs := downloaded_rld_pdfs w |}.
Definition with_stdout (o : list output) (w : world) : world :=
  {| fs := fs w; stdout := o; requests_made := requests_made w;
     attempts := attempts w; downloaded_rld_pdfs := downloaded_rld_pdfs w |}.
Definition with_requests_made (r : list string) (w : world) : world :=
  {| fs := fs w; stdout := stdout w; requests_made := r;
     attempts := attempts w; downloaded_rld_pdfs := downloaded_rld_pdfs w |}.
Definition with_attempts (n : nat) (w : world) : world :=
  {| fs := fs w; stdout := stdout w; requests_made := requests_made w;
     attempts := n; downloaded_rld_pdfs := downloaded_rld_pdfs w |}.
Definition with_downloaded_rld_pdfs (d : gmap value bool) (w : world) : world :=
  {| fs := fs w; stdout := stdout w; requests_made := requests_made w;
     attempts := attempts w; downloaded_rld_pdfs := d |}.

(** Statements: a state transformer that returns or raises; the state
    reached is kept in both cases. *)
Definition M (A : Type) : Type := world → result A * world.

Definition ret {A} (a : A) : M A := λ w, (Ok a, w).
Definition raise {A} (e : exn) : M A := λ w, (Raise e, w).
Definition bind {A B} (m : M A) (k : A → M B) : M B :=
  λ w, match m w with
       | (Ok a, w') => k a w'
       | (Raise e, w') => (Raise e, w')
       end.
Definition lift {A} (r : result A) : M A := λ w, (r, w).

Declare Scope M_scope.
Delimit Scope M_scope with M.
Notation "'let*' x := m 'in' k" := (bind m (λ x, k))
  (at level 10, x pattern, m at level 100, k at level 200) : M_scope.
Notation "m ;; k" := (bind m (λ _, k))
  (at level 100, k at level 200, right associativity) : M_scope.

(** The classes named in [except] clauses. *)
Inductive exn_class :=
| CHTTPError
| CConnectionError
| CTimeout
| CRequestException
| CValueError
| CIndexError.

Definition isinstance_exn (e : exn) (c : exn_class) : bool :=
  match c, e with
  | CHTTPError, RequestsError HTTPError => true
  | CConnectionError, RequestsError (ConnectionError | ConnectTimeout) => true
  | CTimeout, RequestsError (ConnectTimeout | ReadTimeout) => true
  | CRequestException, RequestsError _ => true
  | CValueError, ValueError => true
  | CIndexError, IndexError => true
  | _, _ => false
  end.

(** [try: body except C1 as e: h1(e) except C2 as e: h2(e) ...]: the first
    clause whose class the exception belongs to handles it. *)
Definition try_except {A} (body : M A) (clauses : list (exn_class * (exn → M A))) : M A :=
  λ w, match body w with
       | (Raise e, w') =>
           match find (λ cl, isinstance_exn e (fst cl)) clauses with
           | Some cl => snd cl e w'
           | None => (Raise e, w')
           end
       | r => r
       end.

Definition print (o : output) : M unit :=
  λ w, (Ok tt, with_stdout (stdout w ++ [o]) w).

(** *** File system *)

(** [os.path.isdir(path)] *)
Definition isdir (path : string) : M bool :=
  λ w, (Ok (bool_decide (fs w !! path = Some Dir)), w).

(** [os.mkdir(path)], for a name in the execution location: refused when
    anything already bears the name. *)
Definition mkdir (path : string) : M unit :=
  λ w, match fs w !! path with
       | Some _ => (Raise FileExistsError, w)
       | None => (Ok tt, with_fs (<[path := Dir]> (fs w)) w)
       end.

Fixpoint str_join (sep : string) (l : list string) : string :=
  match l with
  | [] => EmptyString
  | [x] => x
  | x :: l' => x +:+ sep +:+ str_join sep l'
  end.

(** Whether [open(path, 'wb')] succeeds: the last segment names a file,
    the directory before it exists (no segment before it: the execution
    location) and the path is not itself a directory. *)
Definition can_open_wb (f : gmap string node) (path : string) : bool :=
  let segments := str_split "/" path in
  let base := default EmptyString (last segments) in
  let parent := str_join "/" (removelast segments) in
  negb (bool_decide (base ∈ [EmptyString; "."; ".."]))
  && (bool_decide (length segments = 1%nat) || bool_decide (f !! parent = Some Dir))
  && negb (bool_decide (f !! path = Some Dir)).

(** [with open(path, 'wb') as f: body; f.write(content)] *)
Definition open_wb_write (path : string) (body : M unit) (content : string) : M unit :=
  (let* ok := (λ w, (Ok (can_open_wb (fs w) path), w)) in
   if ok : bool then
     (λ w, (Ok tt, with_fs (<[path := File EmptyString]> (fs w)) w));;
     body;;
     (λ w, (Ok tt, with_fs (<[path := File content]> (fs w)) w))
   else raise OSError)%M.

(** [open(path, 'r')] followed by a read of the whole file. *)
Definition open_r_read (path : string) : M string :=
  λ w, match fs w !! path with
       | Some (File content) => (Ok content, w)
       | _ => (Raise OSError, w)
       end.

Definition DQUOTE : string := String (ascii_of_nat 34) EmptyString.
Definition LF : ascii := ascii_of_nat 10.
Definition CR : ascii := ascii_of_nat 13.

(** [fp.readlines()] in text mode: a line ends at a line feed, a carriage
    return or the pair of them, read as one line feed, and keeps it. *)
Fixpoint readlines_from (s : string) (line : string) : list string :=
  match s with
  | EmptyString => if bool_decide (line = EmptyString) then [] else [line]
  | String c s' =>
      if Ascii.eqb c LF then (line +:+ String LF EmptyString) :: readlines_from s' EmptyString
      else if Ascii.eqb c CR then
        match s' with
        | String c' s'' =>
            if Ascii.eqb c' LF
            then (line +:+ String LF EmptyString) :: readlines_from s'' EmptyString
            else (line +:+ String LF EmptyString) :: readlines_from s' EmptyString
        | EmptyString => [line +:+ String LF EmptyString]
        end
      else readlines_from s' (line +:+ String c EmptyString)
  end.

Definition readlines (content : string) : list string := readlines_from content EmptyString.

(** *** The requests library *)

(** A session: the retry budget of the adapter mounted on it, the
    backoff factor, and whether a response hook calls
    [raise_for_status]. *)
Record session := {
  retry_total : nat;
  backoff_factor : Z;
  assert_status_hook : bool;
}.

(** The session behind the module-level [requests.get]: no retry, no hook. *)
Definition default_session : session :=
  {| retry_total := 0; backoff_factor := 0; assert_status_hook := false |}.

Record response := { status_code : Z; content : string }.

Section Runtime.
Context (E : env).

Definition transport_attempt (url : string) : M attempt :=
  λ w, (Ok (transport E url (attempts w)), with_attempts (S (attempts w)) w).

(** The adapter: one attempt, then one more for each retry left while
    the failures are retryable ([Retry(total=n)]; the waiting between
    attempts is not modelled). *)
Fixpoint adapter_send (url : string) (retries : nat) : M response :=
  (let* a := transport_attempt url in
   match a with
   | Response status body => ret {| status_code := status; content := body |}
   | Failure e retryable =>
       match retries with
       | S retries' =>
           if retryable then adapter_send url retries' else raise (RequestsError e)
       | O => raise (RequestsError e)
       end
   end)%M.

(** [response.raise_for_status()] *)
Definition raise_for_status (r : response) : M unit :=
  if (400 <=? status_code r) && (status_code r <? 600)
  then raise (RequestsError HTTPError) else ret tt.

(** [http.get(url, timeout=t)]: requests refuses a URL that is not a
    string before anything is sent. A timeout shows as a failed
    attempt of the transport; without one an attempt may wait for
    ever, which is not modelled. *)
Definition session_get (http : session) (url : value) (timeout : option Z) : M response :=
  match url with
  | VStr u =>
      ((λ w, (Ok tt, with_requests_made (requests_made w ++ [u]) w));;
       let* r := adapter_send u (retry_total http) in
       (if assert_status_hook http then raise_for_status r else ret tt);;
       ret r)%M
  | _ => raise (RequestsError OtherRequestException)
  end.
End Runtime.

(** ** Constants (defined in both files) *)

Definition PSG_GENERIC_DRUG_DEVELOPMENT_URL : string :=
  "https://www.fda.gov/drugs/guidances-drugs/product-specific-guidances-generic-drug-development".

(** [PSG_WITH_LETTER_URL_FORMATTER.format(letter=letter)] *)
Definition PSG_WITH_LETTER_URL (letter : string) : string :=
  "https://www.accessdata.fda.gov/scripts/cder/psg/index.cfm?event=Home.Letter&searchLetter="
  +:+ letter +:+ "#letterSearchBar".

Definition PDF_URL_KEY : string := "URL".
Definition RLD_KEY : string := "RLD or RS Number".
Definition DATE_RECOMMENDED_KEY : string := "Date Recommended".

(** [d.get(key)]: the value, or [None] when the key is missing. *)
Definition dict_get (key : string) (d : gmap string value) : value :=
  default VNone (d !! key).

(** [d[key]] on a [defaultdict(bool)]: a missing key is first entered
    with [False]. *)
Definition defaultdict_getitem (key : value) : M bool :=
  λ w, match downloaded_rld_pdfs w !! key with
       | Some b => (Ok b, w)
       | None => (Ok false, with_downloaded_rld_pdfs (<[key := false]> (downloaded_rld_pdfs w)) w)
       end.

(** [d[key] = b] *)
Definition defaultdict_setitem (key : value) (b : bool) : M unit :=
  λ w, (Ok tt, with_downloaded_rld_pdfs (<[key := b]> (downloaded_rld_pdfs w)) w).

(** ** common.py *)

Module common.
Section common.
Context (E : env).

(** ['{}-{:02d}-{:02d}-run-{}'.format(year, month, day, run_number)] *)
Definition directory_name_format (year month day run_number : Z) : string :=
  str_of_Z year +:+ "-" +:+ format_02d month +:+ "-" +:+ format_02d day
  +:+ "-run-" +:+ str_of_Z run_number.

(** ['{}-{:02d}-{:02d}-run-1'.format(year, month, day)] *)
Definition directory_name_format_1 (year month day : Z) : string :=
  str_of_Z year +:+ "-" +:+ format_02d month +:+ "-" +:+ format_02d day +:+ "-run-1".

(** Lines 45-47: the [while] loop, which only reads the file system;
    [fuel] bounds the number of iterations. *)
Fixpoint while_isdir (f : gmap string node) (year month day : Z)
    (fuel : nat) (run_number : Z) (directory_name : string) : option (Z * string) :=
  if bool_decide (f !! directory_name = Some Dir) then
    match fuel with
    | S fuel' =>
        let run_number := run_number + 1 in
        while_isdir f year month day fuel' run_number
          (directory_name_format year month day run_number)
    | O => None
    end
  else Some (run_number, directory_name).

Definition create_output_directory : M string :=
  (let today := today E in
   let year := year today in
   let month := month today in
   let day := day today in
   let run_number := 1 in
   let directory_name := directory_name_format_1 year month day in
   let* present := isdir directory_name in
   let* directory_name :=
     if negb present then
       mkdir directory_name;; ret directory_name
     else
       let* found :=
         (λ w, (Ok (while_isdir (fs w) year month day (S (size (fs w)))
                      run_number directory_name), w)) in
       match found with
       | Some (_, directory_name) => mkdir directory_name;; ret directory_name
       | None => raise OutOfFuel
       end in
   print (Text ("Created working directory: " +:+ directory_name));;
   ret directory_name)%M.

(** [Retry(total=5, backoff_factor=1)] on the adapter mounted for both
    schemes, and the hook that raises on an error status. *)
Definition http_session : session :=
  {| retry_total := 5; backoff_factor := 1; assert_status_hook := true |}.

Definition download_single_pdf (url : value) (write_directory : string) : M unit :=
  (let http := http_session in
   let* filename := lift (let? segments := py_split url "/" in list_last_item segments)%result in
   try_except
     (let* response := session_get E http url (Some 5) in
      open_wb_write (write_directory +:+ "/" +:+ filename)
        (print (Text ("Writing to file: " +:+ write_directory +:+ "/" +:+ filename)))
        (content response))
     [ (CHTTPError, λ errh, print (ErrorText errh));
       (CConnectionError, λ errc, print (ErrorText errc));
       (CTimeout, λ errt, print (ErrorText errt));
       (CRequestException, λ err, print (ErrorText err)) ])%M.

(** The name [filename] of line 80 is bound nowhere in the function or
    the module: evaluating it raises [NameError]. *)
Definition download_specific_guidance_pdf (active_ingredient : gmap string value)
    (write_directory : string) : M unit :=
  (let rld_value := dict_get RLD_KEY active_ingredient in
   let* seen := defaultdict_getitem rld_value in
   if negb seen then
     let pdf_url := dict_get PDF_URL_KEY active_ingredient in
     download_single_pdf pdf_url write_directory;;
     defaultdict_setitem rld_value true;;
     let* filename := raise (NameError "filename") in
     print (Text ("Created " +:+ write_directory +:+ "/" +:+ filename +:+ " PDF file"))
   else ret tt)%M.
End common.
End common.

(** ** find_updated_ais.py *)

Module find_updated_ais.
Section find_updated_ais.
Context (E : env).

(** Lines 82-109, the same text as in common.py. *)
Definition create_output_directory : M string := common.create_output_directory E.

Definition get_rld_search_numbers : M (list string) :=
  (let* rld_file_name := lift (list_item (argv E) 1) in
   let* text := open_r_read rld_file_name in
   ret (map str_strip (readlines text)))%M.

(** Lines 139-154 on the text of the page: the values of [year] and
    [month] when the block is left, and the exception that ended it, if
    any. *)
Definition parse_content_current (resp_text : string) : value * value * option exn :=
  let failed e := (VNone, VNone, Some e) in
  let chunks_part_1 := str_split "Content current as of" resp_text in
  match chunks_part_1 !! 1%nat with
  | None => failed IndexError
  | Some c1 =>
  let chunks_part_2 := str_split "</time>" c1 in
  match chunks_part_2 !! 0%nat with
  | None => failed IndexError
  | Some c2 =>
  let chunks_part_3 := str_split (DQUOTE +:+ ">") c2 in
  match chunks_part_3 !! 1%nat with
  | None => failed IndexError
  | Some c3 =>
  let chunks_part_4 := str_split ("=" +:+ DQUOTE) c3 in
  match chunks_part_4 !! 1%nat with
  | None => failed IndexError
  | Some iso_datetime =>
  let year_month_day_and_time := str_split "T" iso_datetime in
  match year_month_day_and_time !! 0%nat with
  | None => failed IndexError
  | Some ymd =>
  match str_split "-" ymd with
  | [year; month; _] =>
      match py_int year with
      | Raise e => (VStr year, VStr month, Some e)
      | Ok y =>
          match py_int month with
          | Raise e => (VInt y, VStr month, Some e)
          | Ok m => (VInt y, VInt m, None)
          end
      end
  | _ => failed ValueError
  end end end end end end.

Definition get_content_current_year_and_month : M (value * value) :=
  (let* response :=
     session_get E default_session (VStr PSG_GENERIC_DRUG_DEVELOPMENT_URL) None in
   let resp_text := content response in
   let '(year, month, raised) := parse_content_current resp_text in
   match raised with
   | Some e =>
       try_except (raise e)
         [ (CValueError, λ _, print (Text "Failed to get content current year and month"));
           (CIndexError, λ _, print (Text "Failed to get content current year and month")) ]
   | None => ret tt
   end;;
   ret (year, month))%M.

(** Lines 176-181: the tag of the raw RLD value. *)
Definition rld_arg_type_of (rld_value : value) : string :=
  match rld_value with
  | VInt _ => "int"
  | VStr _ => "str"
  | _ => "other"
  end.

(** Lines 183-188: the tokens of the raw RLD value. *)
Definition rld_values_of (rld_value : value) : list string :=
  match rld_value with
  | VStr s =>
      if str_contains " " s
      then map str_strip (str_split " " s)
      else [py_str rld_value]
  | _ => [py_str rld_value]
  end.

(** Lines 190-192: the loop over the tokens. *)
Definition any_of_interest (rld_values rld_search_numbers : list string) : bool :=
  fold_left
    (λ is_of_interest rld_value,
       if bool_decide (rld_value ∈ rld_search_numbers) then true else is_of_interest)
    rld_values false.

(** Lines 197-199: the date a record was recommended on. *)
Definition ai_updated_date_of (unparsed_month_year : value) : result date :=
  (let? parts := py_split unparsed_month_year "/" in
   match parts with
   | [month; year] =>
       let? y := py_int year in
       let? m := py_int month in
       datetime_date y m 1
   | _ => Raise ValueError
   end)%result.

(** Lines 197-200: the condition [ai_updated_date >= current_content_updated_date]. *)
Definition ai_updated_since (unparsed_month_year : value)
    (current_content_updated_date : date) : result bool :=
  (let? ai_updated_date := ai_updated_date_of unparsed_month_year in
   Ok (date_ge ai_updated_date current_content_updated_date))%result.

Definition ai_is_of_interest (active_ingredient : gmap string value)
    (current_content_updated_date : date) (rld_search_numbers : list string)
  : result (bool * string) :=
  let rld_value := dict_get RLD_KEY active_ingredient in
  let rld_arg_type := rld_arg_type_of rld_value in
  let rld_values := rld_values_of rld_value in
  let is_of_interest := any_of_interest rld_values rld_search_numbers in
  if negb is_of_interest then Ok (is_of_interest, rld_arg_type)
  else
    (let? updated :=
       ai_updated_since (dict_get DATE_RECOMMENDED_KEY active_ingredient)
         current_content_updated_date in
     let is_of_interest := if updated : bool then true else is_of_interest in
     Ok (is_of_interest, rld_arg_type))%result.

Definition download_specific_guidance_pdf (active_ingredient : gmap string value)
    (write_directory : string) : M unit :=
  (let rld_value := dict_get RLD_KEY active_ingredient in
   let* seen := defaultdict_getitem rld_value in
   if negb seen then
     let pdf_url := dict_get PDF_URL_KEY active_ingredient in
     let* filename :=
       lift (let? segments := py_split pdf_url "/" in list_last_item segments)%result in
     let* response :=
       session_get E default_session (dict_get PDF_URL_KEY active_ingredient) None in
     open_wb_write (write_directory +:+ "/" +:+ filename) (ret tt) (content response);;
     defaultdict_setitem rld_value true;;
     print (Text ("Created " +:+ write_directory +:+ "/" +:+ filename +:+ " PDF file"))
   else ret tt)%M.

(** [datetime.date(year=y, month=m, day=1)] on the two values the page
    parser returned. The arguments are converted in order, the year
    first: one that is not an integer is a [TypeError], an integer that
    does not fit a C [int] an [OverflowError]. *)
Definition date_of_values (y m : value) : result date :=
  match y with
  | VInt y =>
      if fits_c_int y then
        match m with
        | VInt m => datetime_date y m 1
        | _ => Raise TypeError
        end
      else Raise OverflowError
  | _ => Raise TypeError
  end.

Definition ascii_uppercase : list string :=
  ["A"; "B"; "C"; "D"; "E"; "F"; "G"; "H"; "I"; "J"; "K"; "L"; "M";
   "N"; "O"; "P"; "Q"; "R"; "S"; "T"; "U"; "V"; "W"; "X"; "Y"; "Z"].

(** Lines 52-58: the records of every table of every letter page. *)
Fixpoint read_active_ingredients (letters : list string)
    (active_ingredients : list (gmap string value)) : M (list (gmap string value)) :=
  match letters with
  | [] => ret active_ingredients
  | letter :: letters' =>
      (print (Text ("Looking at active ingredients beginning with " +:+ letter));;
       let* psg_tables := lift (read_html E (PSG_WITH_LETTER_URL letter)) in
       read_active_ingredients letters' (active_ingredients ++ concat psg_tables))%M
  end.

(** The two tallies, [rld_type_counter] and [rld_type_lists]. *)
Record tally := {
  rld_type_counter : gmap string Z;
  rld_type_lists : gmap string (list value);
}.

Definition count (t : tally) (rld_type : string) (rld : value) : tally :=
  {| rld_type_counter :=
       <[rld_type := default 0 (rld_type_counter t !! rld_type) + 1]> (rld_type_counter t);
     rld_type_lists :=
       <[rld_type := (default [] (rld_type_lists t !! rld_type) ++ [rld])%list]>
         (rld_type_lists t) |}.

(** Lines 61-71: the loop over the records. *)
Fixpoint process_active_ingredients (active_ingredients : list (gmap string value))
    (current_updated_date : date) (rld_search_numbers : list string)
    (directory_name : string) (t : tally) : M tally :=
  match active_ingredients with
  | [] => ret t
  | active_ingredient :: rest =>
      (let* (is_of_interest, rld_type) :=
         lift (ai_is_of_interest active_ingredient current_updated_date rld_search_numbers) in
       let t := count t rld_type (dict_get RLD_KEY active_ingredient) in
       (if is_of_interest : bool
        then download_specific_guidance_pdf active_ingredient directory_name
        else ret tt);;
       process_active_ingredients rest current_updated_date rld_search_numbers
         directory_name t)%M
  end.

Definition main : M unit :=
  (let* directory_name := create_output_directory in
   if bool_decide (length (argv E) < 2)%nat then
     print (Text "An input RLD identifiers file is required to use this script.")
   else
     let* rld_search_numbers := get_rld_search_numbers in
     let* (current_year, current_month) := get_content_current_year_and_month in
     if bool_decide (current_year = VNone) || bool_decide (current_month = VNone) then
       raise (Exception_ "Could not identify content current year and month.")
     else
       let* current_updated_date := lift (date_of_values current_year current_month) in
       print (Text ("Content current year: " +:+ py_str current_year));;
       print (Text ("Content current month: " +:+ py_str current_month));;
       (λ w, (Ok tt, with_downloaded_rld_pdfs ∅ w));;
       let* active_ingredients := read_active_ingredients ascii_uppercase [] in
       let* t :=
         process_active_ingredients active_ingredients current_updated_date
           rld_search_numbers directory_name
           {| rld_type_counter := ∅; rld_type_lists := ∅ |} in
       let counter k := VInt (default 0 (rld_type_counter t !! k)) in
       let values k := default [] (rld_type_lists t !! k) in
       print (Formatted "\nRLD int count: {}" [counter "int"]);;
       print (Formatted "RLD string count: {}" [counter "str"]);;
       print (Formatted "RLD other count: {}" [counter "other"]);;
       print (Formatted "\nRLD int list: {}" (values "int"));;
       print (Formatted "\nRLD string list: {}" (values "str"));;
       print (Formatted "RLD other list: {}" (values "other")))%M.
End find_updated_ais.
End find_updated_ais.

(** ** download_all_pdfs.py *)

Module download_all_pdfs.
Section download_all_pdfs.
Context (E : env).

(** Lines 15-22: the records of the first table of every letter page. *)
Fixpoint read_active_ingredients (letters : list string)
    (active_ingredients : list (gmap string value)) : M (list (gmap string value)) :=
  match letters with
  | [] => ret active_ingredients
  | letter :: letters' =>
      (print (Text ("Looking at active ingredients beginning with " +:+ letter));;
       let* psg_tables := lift (read_html E (PSG_WITH_LETTER_URL letter)) in
       let* first_table := lift (list_item psg_tables 0) in
       read_active_ingredients letters' (active_ingredients ++ first_table))%M
  end.

(** Lines 25-28: one download for every record. *)
Fixpoint download_active_ingredients (active_ingredients : list (gmap string value))
    (directory_name : string) : M unit :=
  match active_ingredients with
  | [] => ret tt
  | active_ingredient :: rest =>
      (let url := dict_get PDF_URL_KEY active_ingredient in
       print (Formatted "Downloading from {}" [url]);;
       common.download_single_pdf E url directory_name;;
       download_active_ingredients rest directory_name)%M
  end.

Definition main : M unit :=
  (let* directory_name := common.create_output_directory E in
   let* active_ingredients :=
     read_active_ingredients find_updated_ais.ascii_uppercase [] in
   download_active_ingredients active_ingredients directory_name)%M.
End download_all_pdfs.
End download_all_pdfs.

(** * Definitions used in the statements *)

(** The number of occurrences of a character in a string. *)
Fixpoint count_char (c : ascii) (s : string) : nat :=
  match s with
  | EmptyString => 0%nat
  | String c' s' => ((if Ascii.eqb c c' then 1 else 0) + count_char c s')%nat
  end.

(** What [adapter_send] returns when [n] attempts were made before it, and
    the number of attempts made after it. *)
Fixpoint send_outcome (E : env) (url : string) (retries n : nat) : result response * nat :=
  match transport E url n with
  | Response status body => (Ok {| status_code := status; content := body |}, S n)
  | Failure e retryable =>
      match retries with
      | S retries' =>
          if retryable then send_outcome E url retries' (S n)
          else (Raise (RequestsError e), S n)
      | O => (Raise (RequestsError e), S n)
      end
  end.

(** The same for [session_get] on a string. *)
Definition get_outcome (E : env) (http : session) (url : string) (n : nat)
  : result response * nat :=
  match send_outcome E url (retry_total http) n with
  | (Ok r, n') =>
      if assert_status_hook http && (400 <=? status_code r) && (status_code r <? 600)
      then (Raise (RequestsError HTTPError), n') else (Ok r, n')
  | (Raise e, n') => (Raise e, n')
  end.

(** The last segment of a URL, the name of the file written for it. *)
Definition url_filename (url : string) : string :=
  default EmptyString (last (str_split "/" url)).

(** ** Sample records, environments and states *)

Definition guidance_url : string :=
  "https://www.accessdata.fda.gov/drugsatfda_docs/psg/PSG_012345.pdf".

(** A record with two RLD numbers in its raw value. *)
Definition record_12345 (date_recommended : value) : gmap string value :=
  <[RLD_KEY := VStr "12345 67890"]>
    (<[DATE_RECOMMENDED_KEY := date_recommended]>
       (<[PDF_URL_KEY := VStr guidance_url]> ∅)).

(** The state at the start of a run, over a given file system. *)
Definition fresh_run (fs : gmap string node) : world :=
  {| fs := fs; stdout := []; requests_made := []; attempts := 0;
     downloaded_rld_pdfs := ∅ |}.

(** A start in a location where the first run directory of 1 May 2024
    exists. *)
Definition run_1_present : world := fresh_run {["2024-05-01-run-1" := Dir]}.

(** A start in a location where the first run directory of 1 May 2024
    exists and a regular file bears the name of the fifth. *)
Definition run_5_is_a_file : world :=
  fresh_run {["2024-05-01-run-1" := Dir; "2024-05-01-run-5" := File "notes"]}.

(** A start in a location that holds the RLD file only. *)
Definition rld_file_present : world :=
  fresh_run {["rlds.txt" := File "12345"]}.

(** No network: every attempt fails with a connection error. *)
Definition offline (today : date) (argv : list string) : env :=
  {| today := today; argv := argv;
     transport := λ _ _, Failure ConnectionError true;
     read_html := λ _, Raise OSError |}.

(** A network that answers every attempt with the same response, and
    letter pages without tables. *)
Definition online (today : date) (argv : list string) (status : Z) (body : string) : env :=
  {| today := today; argv := argv;
     transport := λ _ _, Response status body;
     read_html := λ _, Ok [] |}.

(** A page of the index with the fence the parser looks for. *)
Definition index_page : string :=
  "<h2>Content current as of:</h2> <p class=" +:+ DQUOTE +:+ "x" +:+ DQUOTE
  +:+ "><time datetime=" +:+ DQUOTE +:+ "2024-02-15T00:00:00Z" +:+ DQUOTE
  +:+ " </time></p>".

(** A run in which the page of the letter A lists one record. *)
Definition one_record_run : env :=
  {| today := mkdate 2024 5 1;
     argv := ["find_updated_ais.py"; "rlds.txt"];
     transport := λ _ _, Response 200 index_page;
     read_html := λ url,
       if bool_decide (url = PSG_WITH_LETTER_URL "A")
       then Ok [[record_12345 (VStr "03/2024")]] else Ok [] |}.

(** ** Notions and samples of the further properties *)

(** A string that does not begin with a space character of [space] is
    left alone by [lstrip_with]; one that is empty or begins with none
    keeps its first character through [rstrip_with]. *)
Definition starts_clean (space : ascii → bool) (s : string) : Prop :=
  match s with
  | String c _ => space c = false
  | EmptyString => True
  end.

(** Every character of a string is in a class. *)
Fixpoint all_chars (P : ascii → bool) (s : string) : bool :=
  match s with
  | EmptyString => true
  | String c s' => P c && all_chars P s'
  end.

(** A string that is empty or whose last character is no space character
    of [space]. *)
Fixpoint ends_clean (space : ascii → bool) (s : string) : Prop :=
  match s with
  | EmptyString => True
  | String c EmptyString => space c = false
  | String _ s' => ends_clean space s'
  end.

(** [token] is [s] without the white space at its two ends. *)
Definition stripped_of (space : ascii → bool) (s token : string) : Prop :=
  ∃ lead trail,
    s = lead +:+ token +:+ trail
    ∧ all_chars space lead = true ∧ all_chars space trail = true
    ∧ starts_clean space token ∧ ends_clean space token.

(** A start in a location whose RLD file has two padded lines, the
    first ended by a carriage return and a line feed. *)
Definition two_line_rld_file : world :=
  fresh_run {["rlds.txt" := File (" 021234 " +:+ String CR (String LF "N021235"))]}.

(** A network that answers every attempt with a page that does not hold
    the date. *)
Definition page_without_date : env :=
  online (mkdate 2024 5 1) ["find_updated_ais.py"; "rlds.txt"] 404 "<html>Not found</html>".



(** A path directly inside [directory]. *)
Definition directly_inside (directory path : string) : Prop :=
  ∃ name, path = directory +:+ "/" +:+ name ∧ count_char "/" name = 0%nat.

(** How one state of the run follows another after downloads into
    [directory] for some of the records [active_ingredients]: what is
    marked in the ledger stays marked, the GET requests issued are for
    URLs of the records, at most one each and each with one attempt, and
    the file system changes only at paths directly inside the directory
    that are not directories. *)
Definition follows (directory : string) (active_ingredients : list (gmap string value))
    (w w' : world) : Prop :=
  (∀ key, downloaded_rld_pdfs w !! key = Some true →
          downloaded_rld_pdfs w' !! key = Some true)
  ∧ (∃ urls, requests_made w' = (requests_made w ++ urls)%list
             ∧ (length urls ≤ length active_ingredients)%nat
             ∧ (attempts w' = attempts w + length urls)%nat
             ∧ ∀ url : string, url ∈ urls →
                 ∃ active_ingredient, active_ingredient ∈ active_ingredients
                   ∧ dict_get PDF_URL_KEY active_ingredient = VStr url)
  ∧ (∀ path, ¬ directly_inside directory path → fs w' !! path = fs w !! path)
  ∧ (∀ path, fs w !! path = Some Dir → fs w' !! path = Some Dir).

(** The count and the values a tally holds for a tag. *)
Definition tally_count (t : find_updated_ais.tally) (rld_type : string) : Z :=
  default 0 (find_updated_ais.rld_type_counter t !! rld_type).
Definition tally_values (t : find_updated_ais.tally) (rld_type : string) : list value :=
  default [] (find_updated_ais.rld_type_lists t !! rld_type).

(** The records whose raw RLD value has a given tag, in order. *)
Definition of_type (rld_type : string) (active_ingredients : list (gmap string value))
  : list (gmap string value) :=
  filter (λ ai, find_updated_ais.rld_arg_type_of (dict_get RLD_KEY ai) = rld_type)
    active_ingredients.

(** A start in a location where the first run name of 1 May 2024 is
    borne by a regular file. *)
Definition run_1_is_a_file : world := fresh_run {["2024-05-01-run-1" := File "notes"]}.

(** The tables the scraper finds on the page of a letter (none when it
    raises). *)
Definition tables_of (E : env) (letter : string) : list (list (gmap string value)) :=
  match read_html E (PSG_WITH_LETTER_URL letter) with
  | Ok psg_tables => psg_tables
  | Raise _ => []
  end.

(** The progress lines for a list of letters. *)
Definition looking_at (letters : list string) : list output :=
  map (λ letter, Text ("Looking at active ingredients beginning with " +:+ letter)) letters.

(** A run in which every letter page holds two tables of one record. *)
Definition two_tables_on_a_page : env :=
  {| today := mkdate 2024 5 1;
     argv := ["download_all_pdfs.py"];
     transport := λ _ _, Response 200 "%PDF-1.4";
     read_html := λ _, Ok [[record_12345 (VStr "03/2024")]; [{[RLD_KEY := VInt 21234]}]] |}.

(** A run in which the scraper raises on every letter page. *)
Definition no_pages (argv : list string) : env :=
  {| today := mkdate 2024 5 1; argv := argv;
     transport := λ _ _, Response 200 index_page;
     read_html := λ _, Raise ValueError |}.

(** A network on which the first two attempts fail with a connection
    error and every later one is answered. *)
Definition two_failures (status : Z) (body : string) : env :=
  {| today := mkdate 2024 5 1; argv := [];
     transport := λ _ n, if (n <? 2)%nat then Failure ConnectionError true
                         else Response status body;
     read_html := λ _, Ok [] |}.

(** The six lines that end a run of find_updated_ais.py over the given
    records. *)
Definition report (records : list (gmap string value)) : list output :=
  let counter k := VInt (Z.of_nat (length (of_type k records))) in
  let values k := map (dict_get RLD_KEY) (of_type k records) in
  [Formatted "\nRLD int count: {}" [counter "int"];
   Formatted "RLD string count: {}" [counter "str"];
   Formatted "RLD other count: {}" [counter "other"];
   Formatted "\nRLD int list: {}" (values "int");
   Formatted "\nRLD string list: {}" (values "str");
   Formatted "RLD other list: {}" (values "other")].

(** * Properties *)

Import find_updated_ais.

(** ** Facts about the built-ins *)

Lemma split_from_nonempty sep s skip piece : split_from sep s skip piece ≠ [].
Proof.
  revert skip piece. induction s as [|c s IH]; intros skip piece; [easy|].
  cbn [split_from]. destruct skip; [|apply IH].
  destruct (String.prefix sep (String c s)); [easy|apply IH].
Qed.

Lemma str_split_nonempty sep s : str_split sep s ≠ [].
Proof. apply split_from_nonempty. Qed.

Lemma prefix_char c c' s :
  String.prefix (String c EmptyString) (String c' s) = Ascii.eqb c c'.
Proof.
  simpl. destruct (ascii_dec c c') as [->|Hne].
  - rewrite Ascii.eqb_refl. by destruct s.
  - by apply Ascii.eqb_neq in Hne as ->.
Qed.

Lemma split_from_char_length c s piece :
  length (split_from (String c EmptyString) s 0 piece) = S (count_char c s).
Proof.
  revert piece. induction s as [|c' s IH]; intros piece; [done|].
  cbn [split_from count_char]. rewrite prefix_char.
  destruct (Ascii.eqb c c'); cbn [String.length Nat.sub length]; rewrite IH; lia.
Qed.

Lemma string_app_cons (x : ascii) (a b : string) : String x a +:+ b = String x (a +:+ b).
Proof. done. Qed.

Lemma string_app_assoc (a b c : string) : (a +:+ b) +:+ c = a +:+ (b +:+ c).
Proof. induction a as [|x a IH]; [done|]. by rewrite !string_app_cons, IH. Qed.

Lemma string_app_nil_r (a : string) : a +:+ EmptyString = a.
Proof. induction a as [|x a IH]; [done|]. by rewrite string_app_cons, IH. Qed.

Lemma lstrip_with_clean space s : starts_clean space (lstrip_with space s).
Proof.
  induction s as [|c s IH]; cbn; [done|].
  destruct (space c) eqn:Hc; [done|]. by cbn.
Qed.

Lemma lstrip_with_id space s : starts_clean space s → lstrip_with space s = s.
Proof. destruct s as [|c s]; cbn; [done|]. by intros ->. Qed.

Lemma rstrip_with_clean space s :
  starts_clean space s → starts_clean space (rstrip_with space s).
Proof.
  destruct s as [|c s]; cbn; [done|]. intros Hc.
  destruct (rstrip_with space s); [by rewrite Hc|done].
Qed.

Lemma rstrip_with_cons space c s :
  rstrip_with space (String c s)
  = match rstrip_with space s with
    | EmptyString => if space c then EmptyString else String c EmptyString
    | r => String c r
    end.
Proof. done. Qed.

Lemma rstrip_with_idemp space s :
  rstrip_with space (rstrip_with space s) = rstrip_with space s.
Proof.
  induction s as [|c s IH]; [done|]. rewrite rstrip_with_cons.
  destruct (rstrip_with space s) as [|c' r] eqn:Hr.
  - destruct (space c) eqn:Hc; [done|]. rewrite rstrip_with_cons. cbn. by rewrite Hc.
  - rewrite rstrip_with_cons, IH. done.
Qed.

Lemma str_strip_idemp s : str_strip (str_strip s) = str_strip s.
Proof.
  unfold str_strip.
  rewrite (lstrip_with_id is_whitespace (rstrip_with _ _)).
  - apply rstrip_with_idemp.
  - apply rstrip_with_clean, lstrip_with_clean.
Qed.

Lemma count_char_app c a b :
  count_char c (a +:+ b) = (count_char c a + count_char c b)%nat.
Proof.
  induction a as [|x a IH]; [done|]. rewrite string_app_cons. cbn [count_char].
  rewrite IH. lia.
Qed.

Lemma split_from_char_pieces c s piece :
  count_char c piece = 0%nat →
  Forall (λ x, count_char c x = 0%nat) (split_from (String c EmptyString) s 0 piece).
Proof.
  revert piece. induction s as [|c' s IH]; intros piece Hpiece.
  - by apply Forall_singleton.
  - cbn [split_from]. rewrite prefix_char.
    destruct (Ascii.eqb c c') eqn:Hc; cbn [String.length Nat.sub].
    + apply Forall_cons. split; [done|]. by apply IH.
    + apply IH. rewrite count_char_app. cbn [count_char]. rewrite Hc. lia.
Qed.

Lemma lstrip_with_lead space s :
  ∃ lead, s = lead +:+ lstrip_with space s ∧ all_chars space lead = true.
Proof.
  induction s as [|c s (lead & Hs & Hlead)]; [by exists EmptyString|].
  cbn [lstrip_with]. destruct (space c) eqn:Hc; [|by exists EmptyString].
  exists (String c lead). rewrite string_app_cons, <-Hs. cbn [all_chars].
  by rewrite Hc, Hlead.
Qed.

Lemma rstrip_with_trail space s :
  ∃ trail, s = rstrip_with space s +:+ trail ∧ all_chars space trail = true
           ∧ ends_clean space (rstrip_with space s).
Proof.
  induction s as [|c s (trail & Hs & Htrail & Hclean)]; [by exists EmptyString|].
  rewrite rstrip_with_cons. destruct (rstrip_with space s) as [|c' r] eqn:Hr.
  - change (EmptyString +:+ trail) with trail in Hs. subst trail.
    destruct (space c) eqn:Hc.
    + exists (String c s). cbn [all_chars]. by rewrite Hc, Htrail.
    + exists s. by cbn.
  - exists trail. rewrite string_app_cons, <-Hs. done.
Qed.

(** What [strip] returns is what is left of the string between a run of
    white space at each end, and neither begins nor ends with white
    space. *)
Lemma str_strip_stripped s : stripped_of is_whitespace s (str_strip s).
Proof.
  unfold str_strip.
  destruct (lstrip_with_lead is_whitespace s) as (lead & Hs & Hlead).
  destruct (rstrip_with_trail is_whitespace (lstrip_with is_whitespace s))
    as (trail & Hl & Htrail & Hclean).
  exists lead, trail. split; [by rewrite <-Hl|]. split; [done|]. split; [done|].
  split; [apply rstrip_with_clean, lstrip_with_clean|done].
Qed.

Lemma str_contains_char c s :
  str_contains (String c EmptyString) s = false ↔ count_char c s = 0%nat.
Proof.
  induction s as [|c' s IH]; [done|].
  cbn [str_contains count_char]. rewrite prefix_char, orb_false_iff, IH.
  destruct (Ascii.eqb c c'); cbn [Nat.add].
  - split; [intros [H _]; discriminate|intros H; discriminate].
  - split; [by intros [_ H]|by intros H].
Qed.

Lemma concat_cons_more sep x l :
  l ≠ [] → String.concat sep (x :: l) = x +:+ sep +:+ String.concat sep l.
Proof. by destruct l. Qed.

(** Joining the pieces of a split with the separator gives the string
    back. *)
Lemma split_from_char_concat c s piece :
  String.concat (String c EmptyString) (split_from (String c EmptyString) s 0 piece)
  = piece +:+ s.
Proof.
  revert piece. induction s as [|c' s IH]; intros piece.
  - by rewrite string_app_nil_r.
  - cbn [split_from]. rewrite prefix_char.
    destruct (Ascii.eqb_spec c c') as [<-|Hc]; cbn [String.length Nat.sub].
    + rewrite concat_cons_more by apply split_from_nonempty. by rewrite IH.
    + by rewrite IH, string_app_assoc.
Qed.

Lemma any_of_interest_from (rld_search_numbers rld_values : list string) (seed : bool) :
  fold_left
    (λ is_of_interest rld_value,
       if bool_decide (rld_value ∈ rld_search_numbers) then true else is_of_interest)
    rld_values seed = true
  ↔ seed = true ∨ ∃ t : string, t ∈ rld_values ∧ t ∈ rld_search_numbers.
Proof.
  revert seed. induction rld_values as [|v l IH]; intros seed; simpl.
  - split; [auto|]. intros [?|(t & Ht & _)]; [done|]. by apply elem_of_nil in Ht.
  - rewrite IH. case_bool_decide as Hv.
    + split; [|auto]. intros _. right. exists v. split; [apply elem_of_cons; auto|done].
    + split.
      * intros [?|(t & Ht & Hn)]; [auto|]. right. exists t.
        split; [apply elem_of_cons; auto|done].
      * intros [?|(t & Ht & Hn)]; [auto|]. right. exists t. split; [|done].
        apply elem_of_cons in Ht as [->|?]; done.
Qed.

Lemma any_of_interest_true (rld_values rld_search_numbers : list string) :
  any_of_interest rld_values rld_search_numbers = true
  ↔ ∃ t : string, t ∈ rld_values ∧ t ∈ rld_search_numbers.
Proof.
  unfold any_of_interest. rewrite any_of_interest_from.
  split; [intros [?|?]; done|auto].
Qed.

Lemma any_of_interest_false (rld_values rld_search_numbers : list string) :
  any_of_interest rld_values rld_search_numbers = false
  ↔ ∀ t : string, t ∈ rld_values → t ∉ rld_search_numbers.
Proof.
  rewrite <-not_true_iff_false, any_of_interest_true. split.
  - intros Hnone t Ht Hin. apply Hnone. by exists t.
  - intros Hnone (t & Ht & Hin). by apply (Hnone t).
Qed.

Lemma py_int_raise s e : py_int s = Raise e → e = ValueError.
Proof. unfold py_int. intros H. repeat case_match; congruence. Qed.

Lemma dict_get_Some (key : string) (d : gmap string value) v :
  d !! key = Some v → dict_get key d = v.
Proof. unfold dict_get. by intros ->. Qed.

Lemma dict_get_None (key : string) (d : gmap string value) :
  d !! key = None → dict_get key d = VNone.
Proof. unfold dict_get. by intros ->. Qed.

(** ** Identifier normalisation *)

(** C7. For every raw RLD value the tokens are a non-empty list and the
    tag is one of "int", "str" and "other"; no operation of the fragment
    can raise (the two functions are total). An integer is tagged "int"
    and has the one token [str(raw_rld)]. A string is tagged "str". When
    it contains a space, it is cut at every space into pieces that hold no
    space and that, joined with single spaces, give the string back; there
    is one token per piece, in order, so one more than there are spaces,
    and the token is the piece without the white space at its two ends
    (an empty piece stays, as an empty token). When it contains no space,
    the string itself is the one token, white space included. [None] and
    any other object are tagged "other" and have their [str()] text as
    the one token. The text "021234  N021235 " has the tokens "021234",
    "", "N021235" and ""; a tab next to a space is stripped, a tab in a
    string without a space is kept. *)
Theorem C7_normalize_total :
  (∀ raw_rld : value,
     let tokens := rld_values_of raw_rld in
     let kind := rld_arg_type_of raw_rld in
     tokens ≠ [] ∧ kind ∈ ["int"; "str"; "other"] ∧
     match raw_rld with
     | VInt n => kind = "int" ∧ tokens = [str_of_Z n]
     | VStr s =>
         kind = "str"
         ∧ (count_char " " s = 0%nat → tokens = [s])
         ∧ (count_char " " s ≠ 0%nat →
              ∃ pieces : list string,
                String.concat " " pieces = s
                ∧ Forall (λ piece, count_char " " piece = 0%nat) pieces
                ∧ Forall2 (stripped_of is_whitespace) pieces tokens
                ∧ length tokens = S (count_char " " s))
     | VNone => kind = "other" ∧ tokens = ["None"]
     | VOther text => kind = "other" ∧ tokens = [text]
     end)
  ∧ rld_values_of (VStr "021234  N021235 ")
    = ["021234"; EmptyString; "N021235"; EmptyString]
  ∧ rld_values_of (VStr ("021234" +:+ String "009" " N021235")) = ["021234"; "N021235"]
  ∧ rld_values_of (VStr ("021234" +:+ String "009" EmptyString))
    = ["021234" +:+ String "009" EmptyString]
  ∧ rld_values_of (VStr "021234") = ["021234"]
  ∧ rld_values_of (VInt 21234) = ["21234"]
  ∧ rld_values_of (VInt (-7)) = ["-7"]
  ∧ rld_values_of (VInt 0) = ["0"].
Proof.
  split; [|repeat split; by vm_compute].
  intros [n|s| |text]; cbn [rld_values_of rld_arg_type_of py_str].
  - split; [easy|]. split; [set_solver|done].
  - split; [|split; [set_solver|split; [done|]]].
    + destruct (str_contains " " s); [|easy].
      intros Hnil. apply map_eq_nil in Hnil. by apply str_split_nonempty in Hnil.
    + pose proof (str_contains_char " " s) as Hspace. split.
      * intros Hnone. by rewrite (proj2 Hspace Hnone).
      * intros Hsome. destruct (str_contains " " s); [|by destruct Hsome; apply Hspace].
        exists (str_split " " s). unfold str_split.
        split; [apply split_from_char_concat|].
        split; [by apply split_from_char_pieces|].
        split; [|rewrite length_map; apply split_from_char_length].
        apply Forall2_fmap_r, Forall_Forall2_diag, Forall_forall.
        intros piece _. apply str_strip_stripped.
  - split; [easy|]. split; [set_solver|done].
  - split; [easy|]. split; [set_solver|done].
Qed.

Example normalize_keeps_empty_tokens :
  rld_values_of (VStr "021234  N021235 ") = ["021234"; EmptyString; "N021235"; EmptyString]
  ∧ rld_values_of (VInt 21234) = ["21234"]
  ∧ rld_values_of (VStr " 021234") = [EmptyString; "021234"]
  ∧ rld_values_of (VStr "021234") = ["021234"].
Proof. repeat split; by vm_compute. Qed.

(** ** Classification *)

(** C1. When a token of the record's RLD value is in the interest list and
    the "Date Recommended" value parses to a date, [ai_is_of_interest]
    returns [True] with the tag of the RLD value, whatever that date and
    the reference date are: the comparison of the two never turns the
    match into [False]. *)
Theorem C1_token_match_sufficient (active_ingredient : gmap string value)
    (current_content_updated_date : date) (rld_search_numbers : list string) (d : date) :
  (∃ t : string, t ∈ rld_values_of (dict_get RLD_KEY active_ingredient)
                 ∧ t ∈ rld_search_numbers) →
  ai_updated_date_of (dict_get DATE_RECOMMENDED_KEY active_ingredient) = Ok d →
  ai_is_of_interest active_ingredient current_content_updated_date rld_search_numbers
  = Ok (true, rld_arg_type_of (dict_get RLD_KEY active_ingredient)).
Proof.
  intros Hmatch Hdate. apply any_of_interest_true in Hmatch.
  unfold ai_is_of_interest, ai_updated_since. rewrite Hmatch, Hdate. cbn.
  by destruct (date_ge _ _).
Qed.

Lemma C1_token_match_sufficient_witness :
  ai_is_of_interest (record_12345 (VStr "03/1999")) (mkdate 2024 2 1) ["12345"]
  = Ok (true, "str").
Proof.
  apply (C1_token_match_sufficient (record_12345 (VStr "03/1999")) (mkdate 2024 2 1)
           ["12345"] (mkdate 1999 3 1)).
  - exists "12345". split; [by vm_compute; left | by left].
  - by vm_compute.
Defined.

(** C5. For a record with a token in the interest list, the call raises,
    and nothing in it catches the exception: [AttributeError] when the
    "Date Recommended" key is absent (or its value is not a string),
    [ValueError] when the string does not split on "/" into exactly two
    parts, and [ValueError] when one of the two parts is not the text of
    an integer. *)
Theorem C5_malformed_date_propagates (active_ingredient : gmap string value)
    (current_content_updated_date : date) (rld_search_numbers : list string) :
  (∃ t : string, t ∈ rld_values_of (dict_get RLD_KEY active_ingredient)
                 ∧ t ∈ rld_search_numbers) →
  let outcome :=
    ai_is_of_interest active_ingredient current_content_updated_date rld_search_numbers in
  (active_ingredient !! DATE_RECOMMENDED_KEY = None → outcome = Raise AttributeError)
  ∧ (∀ v, active_ingredient !! DATE_RECOMMENDED_KEY = Some v → (∀ s, v ≠ VStr s) →
          outcome = Raise AttributeError)
  ∧ (∀ s, active_ingredient !! DATE_RECOMMENDED_KEY = Some (VStr s) →
          length (str_split "/" s) ≠ 2%nat → outcome = Raise ValueError)
  ∧ (∀ s month year, active_ingredient !! DATE_RECOMMENDED_KEY = Some (VStr s) →
          str_split "/" s = [month; year] →
          py_int month = Raise ValueError ∨ py_int year = Raise ValueError →
          outcome = Raise ValueError).
Proof.
  intros Hmatch outcome. apply any_of_interest_true in Hmatch.
  subst outcome. unfold ai_is_of_interest. rewrite Hmatch. cbn [negb].
  unfold ai_updated_since, ai_updated_date_of. repeat split.
  - intros Habsent. by rewrite (dict_get_None _ _ Habsent).
  - intros v Hv Hns. rewrite (dict_get_Some _ _ _ Hv).
    destruct v; try done. by destruct (Hns s).
  - intros s Hs Hlen. rewrite (dict_get_Some _ _ _ Hs). cbn [py_split rbind].
    destruct (str_split "/" s) as [|a [|b [|c l]]]; cbn in Hlen; done.
  - intros s mm yy Hs Hsplit Hbad. rewrite (dict_get_Some _ _ _ Hs).
    cbn [py_split rbind]. rewrite Hsplit.
    destruct (py_int yy) as [y|e] eqn:Hy; cbn [rbind].
    + destruct Hbad as [->|?]; done.
    + by rewrite (py_int_raise _ _ Hy).
Qed.

Lemma C5_malformed_date_propagates_witness :
  ai_is_of_interest (delete DATE_RECOMMENDED_KEY (record_12345 VNone)) (mkdate 2024 2 1) ["67890"]
  = Raise AttributeError
  ∧ ai_is_of_interest (record_12345 (VOther "nan")) (mkdate 2024 2 1) ["67890"]
    = Raise AttributeError
  ∧ ai_is_of_interest (record_12345 (VStr "03/07/2024")) (mkdate 2024 2 1) ["67890"]
    = Raise ValueError
  ∧ ai_is_of_interest (record_12345 (VStr "March/2024")) (mkdate 2024 2 1) ["67890"]
    = Raise ValueError.
Proof.
  assert (Hm : ∀ v, ∃ t : string,
             t ∈ rld_values_of (dict_get RLD_KEY (record_12345 v)) ∧ t ∈ ["67890"]).
  { intros v. exists "67890". split; [|by left]. vm_compute. right. by left. }
  assert (Hm' : ∃ t : string,
             t ∈ rld_values_of (dict_get RLD_KEY (delete DATE_RECOMMENDED_KEY (record_12345 VNone)))
             ∧ t ∈ ["67890"]).
  { exists "67890". split; [|by left]. vm_compute. right. by left. }
  split; [|split; [|split]].
  - by apply (C5_malformed_date_propagates _ (mkdate 2024 2 1) _ Hm').
  - apply (C5_malformed_date_propagates _ (mkdate 2024 2 1) _ (Hm (VOther "nan")))
      with (v := VOther "nan"); done.
  - apply (C5_malformed_date_propagates _ (mkdate 2024 2 1) _ (Hm (VStr "03/07/2024")))
      with (s := "03/07/2024"); [done|by vm_compute].
  - apply (C5_malformed_date_propagates _ (mkdate 2024 2 1) _ (Hm (VStr "March/2024")))
      with (s := "March/2024") (month := "March") (year := "2024");
      [done|by vm_compute|left; by vm_compute].
Defined.

(** C6. For a record none of whose tokens is in the interest list,
    [ai_is_of_interest] returns [(False, tag)] whatever the record holds
    under "Date Recommended": the date is not read, so an absent or
    malformed one raises nothing. *)
Theorem C6_no_match_short_circuit (active_ingredient : gmap string value)
    (current_content_updated_date : date) (rld_search_numbers : list string) :
  (∀ t : string, t ∈ rld_values_of (dict_get RLD_KEY active_ingredient) →
                 t ∉ rld_search_numbers) →
  ai_is_of_interest active_ingredient current_content_updated_date rld_search_numbers
  = Ok (false, rld_arg_type_of (dict_get RLD_KEY active_ingredient))
  ∧ ∀ date_recommended,
      ai_is_of_interest (<[DATE_RECOMMENDED_KEY := date_recommended]> active_ingredient)
        current_content_updated_date rld_search_numbers
      = ai_is_of_interest (delete DATE_RECOMMENDED_KEY active_ingredient)
          current_content_updated_date rld_search_numbers
      ∧ ai_is_of_interest (delete DATE_RECOMMENDED_KEY active_ingredient)
          current_content_updated_date rld_search_numbers
        = Ok (false, rld_arg_type_of (dict_get RLD_KEY active_ingredient)).
Proof.
  intros Hno. apply any_of_interest_false in Hno.
  assert (Hi : ∀ v, dict_get RLD_KEY (<[DATE_RECOMMENDED_KEY := v]> active_ingredient)
                    = dict_get RLD_KEY active_ingredient).
  { intros v. unfold dict_get. by rewrite lookup_insert_ne. }
  assert (Hd : dict_get RLD_KEY (delete DATE_RECOMMENDED_KEY active_ingredient)
               = dict_get RLD_KEY active_ingredient).
  { unfold dict_get. by rewrite lookup_delete_ne. }
  unfold ai_is_of_interest. split; [by rewrite Hno|].
  intros v. rewrite Hi, Hd, Hno. done.
Qed.

Lemma C6_no_match_short_circuit_witness :
  ai_is_of_interest (record_12345 (VStr "not a date")) (mkdate 2024 2 1) ["99999"]
  = Ok (false, "str").
Proof.
  refine (proj1 (C6_no_match_short_circuit (record_12345 (VStr "not a date"))
                   (mkdate 2024 2 1) ["99999"] _)).
  intros t Ht. vm_compute in Ht.
  apply elem_of_cons in Ht as [->|Ht]; [|apply elem_of_cons in Ht as [->|Ht]].
  - intros Hin. apply elem_of_cons in Hin as [?|Hin]; [done|by apply elem_of_nil in Hin].
  - intros Hin. apply elem_of_cons in Hin as [?|Hin]; [done|by apply elem_of_nil in Hin].
  - by apply elem_of_nil in Ht.
Defined.

(** ** Freshness *)

Lemma days_in_month_pos y m : 28 ≤ days_in_month y m.
Proof. unfold days_in_month. repeat case_match; lia. Qed.

Lemma fits_c_int_small n : - 10000 ≤ n ≤ 10000 → fits_c_int n = true.
Proof. intros Hn. unfold fits_c_int. apply andb_true_iff. lia. Qed.

Lemma datetime_date_first y m :
  1 ≤ y ≤ 9999 → 1 ≤ m ≤ 12 → datetime_date y m 1 = Ok (mkdate y m 1).
Proof.
  intros Hy Hm. unfold datetime_date.
  pose proof (days_in_month_pos y m).
  rewrite !fits_c_int_small by lia. cbn [andb negb].
  replace (1 <=? y) with true by lia. replace (y <=? 9999) with true by lia.
  replace (1 <=? m) with true by lia. replace (m <=? 12) with true by lia.
  replace (1 <=? days_in_month y m) with true by lia. done.
Qed.

Lemma date_ge_first y m ry rm :
  date_ge (mkdate y m 1) (mkdate ry rm 1) = true ↔ ry < y ∨ (ry = y ∧ rm ≤ m).
Proof.
  unfold date_ge. cbn [year month day].
  destruct (Z.eqb_spec y ry) as [->|Hy].
  - destruct (Z.eqb_spec m rm) as [->|Hm].
    + split; [lia|done].
    + rewrite Z.ltb_lt. lia.
  - rewrite Z.ltb_lt. lia.
Qed.

(** C8. A string that splits on "/" into a month in 1..12 and a year in
    1..9999, both the text of an integer, parses to the first day of that
    month, and the comparison with the reference date (day 1 of the
    reference month) returns [True] exactly when the reference year is
    smaller, or the years are equal and the reference month is not
    greater. "01/2024" and "12/2023" are not before December 2023,
    "11/2023" is. *)
Theorem C8_freshness_ordering :
  (∀ (s mm yyyy : string) (m y : Z),
     str_split "/" s = [mm; yyyy] → py_int mm = Ok m → py_int yyyy = Ok y →
     1 ≤ m ≤ 12 → 1 ≤ y ≤ 9999 →
     ai_updated_date_of (VStr s) = Ok (mkdate y m 1)
     ∧ ∀ ry rm : Z, ∃ b : bool,
         ai_updated_since (VStr s) (mkdate ry rm 1) = Ok b
         ∧ (b = true ↔ ry < y ∨ (ry = y ∧ rm ≤ m)))
  ∧ ai_updated_since (VStr "01/2024") (mkdate 2023 12 1) = Ok true
  ∧ ai_updated_since (VStr "11/2023") (mkdate 2023 12 1) = Ok false
  ∧ ai_updated_since (VStr "12/2023") (mkdate 2023 12 1) = Ok true.
Proof.
  split; [|by vm_compute].
  intros s mm yyyy m y Hs Hm Hy Hmr Hyr.
  assert (Hd : ai_updated_date_of (VStr s) = Ok (mkdate y m 1)).
  { unfold ai_updated_date_of. cbn [py_split rbind]. rewrite Hs, Hy, Hm. cbn [rbind].
    by apply datetime_date_first. }
  split; [done|]. intros ry rm.
  exists (date_ge (mkdate y m 1) (mkdate ry rm 1)).
  split; [|apply date_ge_first].
  unfold ai_updated_since. by rewrite Hd.
Qed.

Lemma C8_freshness_ordering_witness :
  ai_updated_date_of (VStr "03/2024") = Ok (mkdate 2024 3 1)
  ∧ ∃ b : bool, ai_updated_since (VStr "03/2024") (mkdate 2024 2 1) = Ok b
                ∧ (b = true ↔ 2024 < 2024 ∨ (2024 = 2024 ∧ 2 ≤ 3)).
Proof.
  destruct (proj1 C8_freshness_ordering "03/2024" "03" "2024" 3 2024) as [Hd Hc];
    [by vm_compute|by vm_compute|by vm_compute|lia|lia|].
  split; [exact Hd|exact (Hc 2024 2)].
Defined.

(** ** The run directory *)

Import common.

Lemma to_int_not_nil n : Z.to_int n ≠ Decimal.Pos Decimal.Nil ∧ Z.to_int n ≠ Decimal.Neg Decimal.Nil.
Proof.
  destruct n as [|p|p]; cbn; split; try discriminate;
    intros [= Hp]; by apply DecimalPos.Unsigned.to_uint_nonnil in Hp.
Qed.

Lemma str_of_Z_inj n n' : str_of_Z n = str_of_Z n' → n = n'.
Proof.
  unfold str_of_Z. intros Heq. apply DecimalZ.to_int_inj.
  apply (f_equal NilZero.int_of_string) in Heq.
  destruct (to_int_not_nil n), (to_int_not_nil n').
  rewrite !NilZero.isi in Heq by done. congruence.
Qed.

Lemma directory_name_format_inj y m d n n' :
  directory_name_format y m d n = directory_name_format y m d n' → n = n'.
Proof.
  unfold directory_name_format. intros Heq.
  do 6 apply String.app_inj in Heq. by apply str_of_Z_inj.
Qed.

Lemma directory_name_format_1_eq y m d :
  directory_name_format_1 y m d = directory_name_format y m d 1.
Proof. done. Qed.

(** The loop ends within as many steps as the directory has entries, on
    the first number from [n] on whose name is not that of a directory. *)
Lemma while_isdir_finds (f : gmap string node) y m d (fuel : nat) :
  ∀ (n : Z) (D : gset string),
    (size D ≤ fuel)%nat →
    (∀ k, n ≤ k → f !! directory_name_format y m d k = Some Dir →
          directory_name_format y m d k ∈ D) →
    ∃ N, n ≤ N
      ∧ while_isdir f y m d fuel n (directory_name_format y m d n)
        = Some (N, directory_name_format y m d N)
      ∧ (∀ k, n ≤ k < N → f !! directory_name_format y m d k = Some Dir)
      ∧ f !! directory_name_format y m d N ≠ Some Dir.
Proof.
  induction fuel as [|fuel IH]; intros n D Hsize HD.
  - exists n. cbn [while_isdir].
    assert (Hn : f !! directory_name_format y m d n ≠ Some Dir).
    { intros Hdir. apply HD in Hdir; [|lia].
      assert (size D = 0%nat) as HD0%size_empty_inv by lia. set_solver. }
    rewrite bool_decide_eq_false_2 by done.
    repeat split; [lia|lia|done].
  - cbn [while_isdir]. case_bool_decide as Hdir.
    + destruct (IH (n + 1) (D ∖ {[directory_name_format y m d n]})) as (N & HN & Hw & Hb & Hf).
      * assert (Hin : directory_name_format y m d n ∈ D) by (apply HD; [lia|done]).
        rewrite size_difference by set_solver. rewrite size_singleton.
        assert (size D ≠ 0)%nat; [|lia].
        intros HD0%size_empty_inv. set_solver.
      * intros k Hk Hkd. apply elem_of_difference. split; [apply HD; [lia|done]|].
        intros Heq%elem_of_singleton%directory_name_format_inj. lia.
      * exists N. repeat split; [lia|done| |done].
        intros k Hk. destruct (decide (k = n)) as [->|]; [done|]. apply Hb. lia.
    + exists n. repeat split; [lia|lia|done].
Qed.

(** What [create_output_directory] does on any file system: with N the
    smallest number from 1 on whose name is not that of a directory, it
    makes the directory of that name when the name is free, and fails in
    [os.mkdir] when a regular file bears it. The loop never runs out of
    steps. *)
Lemma create_output_directory_outcome (E : env) (w : world) :
  let name n := directory_name_format (year (today E)) (month (today E)) (day (today E)) n in
  ∃ N : Z,
    1 ≤ N
    ∧ (∀ k, 1 ≤ k < N → fs w !! name k = Some Dir)
    ∧ fs w !! name N ≠ Some Dir
    ∧ create_output_directory E w
      = match fs w !! name N with
        | None =>
            (Ok (name N),
             with_stdout (stdout w ++ [Text ("Created working directory: " +:+ name N)])%list
               (with_fs (<[name N := Dir]> (fs w)) w))
        | Some _ => (Raise FileExistsError, w)
        end.
Proof.
  intros name.
  destruct (while_isdir_finds (fs w) (year (today E)) (month (today E)) (day (today E))
              (S (size (fs w))) 1 (dom (fs w))) as (N & HN & Hloop & Hbelow & HNdir).
  { rewrite size_dom. lia. }
  { intros k _ Hk. apply elem_of_dom. by exists Dir. }
  fold (name N) in Hloop, HNdir. fold (name 1) in Hloop.
  unfold create_output_directory, bind, isdir, mkdir, print, ret.
  rewrite directory_name_format_1_eq. fold (name 1).
  case_bool_decide as Hfirst; cbn [negb].
  - exists N. rewrite Hloop. repeat split; [done|by intros k Hk; apply Hbelow|done|].
    by destruct (fs w !! name N).
  - cbn [while_isdir] in Hloop. fold (name 1) in Hloop.
    rewrite bool_decide_eq_false_2 in Hloop by done. injection Hloop as <- _.
    exists 1. repeat split; [lia|intros k Hk; lia|done|].
    by destruct (fs w !! name 1).
Qed.

(** C9. [create_output_directory] looks for the smallest N from 1 on for
    which the name YYYY-MM-DD-run-N of today's date is not an existing
    directory. When nothing bears that name, it creates the directory,
    returns the name and changes nothing else in the file system, so that
    no existing run directory is overwritten or used again; with
    YYYY-MM-DD-run-1 a directory and YYYY-MM-DD-run-2 not, N is 2. When a
    regular file bears that name, [os.mkdir] raises [FileExistsError] and
    the call leaves everything as it was. The copy of the function in
    find_updated_ais.py is the same. *)
Theorem C9_create_output_directory (E : env) (w : world) :
  let name n := directory_name_format (year (today E)) (month (today E)) (day (today E)) n in
  ∃ N : Z,
    1 ≤ N
    ∧ (∀ k, 1 ≤ k < N → fs w !! name k = Some Dir)
    ∧ fs w !! name N ≠ Some Dir
    ∧ find_updated_ais.create_output_directory E w = common.create_output_directory E w
    ∧ (fs w !! name N = None →
         ∃ w' : world,
           common.create_output_directory E w = (Ok (name N), w')
           ∧ fs w' = <[name N := Dir]> (fs w)
           ∧ (∀ path nd, fs w !! path = Some nd → fs w' !! path = Some nd))
    ∧ (∀ content : string,
         fs w !! name N = Some (File content) →
         common.create_output_directory E w = (Raise FileExistsError, w))
    ∧ (fs w !! name 1 = Some Dir → fs w !! name 2 ≠ Some Dir → N = 2).
Proof.
  intros name.
  destruct (create_output_directory_outcome E w) as (N & HN & Hbelow & HNdir & Hrun).
  change (∀ k, 1 ≤ k < N → fs w !! name k = Some Dir) in Hbelow.
  change (fs w !! name N ≠ Some Dir) in HNdir.
  change (directory_name_format _ _ _ N) with (name N) in Hrun.
  exists N. split; [done|]. split; [done|]. split; [done|]. split; [done|].
  split; [|split].
  - intros HNone. rewrite HNone in Hrun. eexists. split; [exact Hrun|]. split; [done|].
    intros path nd Hp. cbn [fs with_stdout with_fs].
    rewrite lookup_insert_ne; [done|]. intros <-. congruence.
  - intros content Hfile. by rewrite Hfile in Hrun.
  - intros H1 H2. destruct (decide (N = 1)) as [->|]; [congruence|].
    destruct (decide (N = 2)) as [|Hne]; [done|].
    assert (fs w !! name 2 = Some Dir) by (apply Hbelow; lia). congruence.
Qed.

Lemma C9_create_output_directory_witness :
  ∃ w', create_output_directory (offline (mkdate 2024 5 1) ["find_updated_ais.py"])
          run_5_is_a_file
        = (Ok "2024-05-01-run-2", w')
        ∧ fs w' = <["2024-05-01-run-2" := Dir]> (fs run_5_is_a_file).
Proof.
  destruct (C9_create_output_directory (offline (mkdate 2024 5 1) ["find_updated_ais.py"])
              run_5_is_a_file)
    as (N & _ & _ & _ & _ & Hfree & _ & Htwo).
  rewrite (Htwo eq_refl ltac:(by vm_compute)) in Hfree.
  destruct (Hfree eq_refl) as (w' & Hrun & Hfs & _).
  exists w'. split; [exact Hrun|exact Hfs].
Defined.

(** A regular file under the first run name of the day: no directory is
    made, by either copy of the function. *)
Lemma C9_counterexample :
  let E := offline (mkdate 2024 5 1) ["find_updated_ais.py"] in
  fs run_1_is_a_file !! "2024-05-01-run-1" = Some (File "notes")
  ∧ common.create_output_directory E run_1_is_a_file
    = (Raise FileExistsError, run_1_is_a_file)
  ∧ find_updated_ais.create_output_directory E run_1_is_a_file
    = (Raise FileExistsError, run_1_is_a_file)
  ∧ ¬ ∃ (directory_name : string) (w' : world),
        common.create_output_directory E run_1_is_a_file = (Ok directory_name, w').
Proof.
  cbn zeta. split; [by vm_compute|]. split; [by vm_compute|]. split; [by vm_compute|].
  intros (directory_name & w' & Hrun). by vm_compute in Hrun.
Qed.

(** ** Retrieval *)

Lemma adapter_send_outcome E url retries w :
  adapter_send E url retries w
  = (fst (send_outcome E url retries (attempts w)),
     with_attempts (snd (send_outcome E url retries (attempts w))) w).
Proof.
  revert w. induction retries as [|retries IH]; intros w;
    cbn [adapter_send send_outcome]; unfold bind, transport_attempt, ret, raise;
    destruct (transport E url (attempts w)) as [status body|e [|]]; try done.
  by rewrite IH.
Qed.

Lemma send_outcome_attempts E url retries n :
  (n < snd (send_outcome E url retries n) ≤ n + S retries)%nat.
Proof.
  revert n. induction retries as [|retries IH]; intros n; cbn [send_outcome];
    destruct (transport E url n) as [status body|e [|]]; cbn [snd]; try lia.
  specialize (IH (S n)). lia.
Qed.

Lemma send_outcome_raises E url retries n e :
  fst (send_outcome E url retries n) = Raise e → ∃ re, e = RequestsError re.
Proof.
  revert n. induction retries as [|retries IH]; intros n; cbn [send_outcome];
    destruct (transport E url n) as [status body|re [|]]; cbn [fst]; try done;
    try (intros [= <-]; by eexists).
  apply IH.
Qed.

(** When every attempt fails and may be retried, all of the retry budget
    is used: one attempt and then one per retry. *)
Lemma send_outcome_all_fail E url retries n :
  (∀ k, ∃ e, transport E url k = Failure e true) →
  ∃ e, send_outcome E url retries n = (Raise (RequestsError e), (n + S retries)%nat).
Proof.
  intros Hfail. revert n. induction retries as [|retries IH]; intros n; cbn [send_outcome];
    destruct (Hfail n) as [e ->].
  - exists e. f_equal. lia.
  - destruct (IH (S n)) as [e' ->]. exists e'. f_equal. lia.
Qed.

Lemma get_outcome_attempts E http url n :
  (n < snd (get_outcome E http url n) ≤ n + S (retry_total http))%nat.
Proof.
  unfold get_outcome. pose proof (send_outcome_attempts E url (retry_total http) n).
  destruct (send_outcome E url (retry_total http) n) as [[r|e] n']; [|done].
  by case_match.
Qed.

Lemma get_outcome_raises E http url n e :
  fst (get_outcome E http url n) = Raise e → ∃ re, e = RequestsError re.
Proof.
  unfold get_outcome. pose proof (send_outcome_raises E url (retry_total http) n) as Hs.
  destruct (send_outcome E url (retry_total http) n) as [[r|e'] n'].
  - case_match; [|done]. intros [= <-]. by eexists.
  - intros [= <-]. by apply Hs.
Qed.

Lemma session_get_outcome E http url timeout w :
  session_get E http (VStr url) timeout w
  = (fst (get_outcome E http url (attempts w)),
     with_attempts (snd (get_outcome E http url (attempts w)))
       (with_requests_made (requests_made w ++ [url]) w)).
Proof.
  unfold session_get, bind, get_outcome. rewrite adapter_send_outcome.
  cbn [attempts with_requests_made].
  destruct (send_outcome E url (retry_total http) (attempts w)) as [[r|e] n']; [|done].
  cbn [fst snd]. unfold raise_for_status, raise, ret.
  destruct (assert_status_hook http); [|done]. cbn [andb].
  by destruct ((400 <=? status_code r) && (status_code r <? 600)).
Qed.

Lemma url_filename_item url : list_last_item (str_split "/" url) = Ok (url_filename url).
Proof.
  unfold list_last_item, url_filename.
  destruct (last (str_split "/" url)) eqn:Hlast; [done|].
  apply last_None in Hlast. by apply str_split_nonempty in Hlast.
Qed.

(** [download_single_pdf] on a string, from the outcome of the GET. *)
Lemma download_single_pdf_string E url write_directory w :
  let path := write_directory +:+ "/" +:+ url_filename url in
  let outcome := get_outcome E http_session url (attempts w) in
  download_single_pdf E (VStr url) write_directory w =
  match fst outcome with
  | Raise e =>
      (Ok tt,
       {| fs := fs w; stdout := stdout w ++ [ErrorText e];
          requests_made := requests_made w ++ [url]; attempts := snd outcome;
          downloaded_rld_pdfs := downloaded_rld_pdfs w |})
  | Ok r =>
      if can_open_wb (fs w) path then
        (Ok tt,
         {| fs := <[path := File (content r)]> (<[path := File EmptyString]> (fs w));
            stdout := stdout w ++ [Text ("Writing to file: " +:+ path)];
            requests_made := requests_made w ++ [url]; attempts := snd outcome;
            downloaded_rld_pdfs := downloaded_rld_pdfs w |})
      else
        (Raise OSError,
         {| fs := fs w; stdout := stdout w;
            requests_made := requests_made w ++ [url]; attempts := snd outcome;
            downloaded_rld_pdfs := downloaded_rld_pdfs w |})
  end.
Proof.
  intros path outcome. unfold download_single_pdf, bind at 1, lift.
  cbn [py_split rbind]. rewrite url_filename_item. fold path.
  unfold try_except, bind at 1. rewrite session_get_outcome. fold outcome.
  pose proof (get_outcome_raises E http_session url (attempts w)) as Hraise.
  fold outcome in Hraise.
  destruct outcome as [[r|e] n']; cbn [fst snd] in *.
  - unfold open_wb_write, bind, print, raise. cbn [fs with_attempts with_requests_made].
    by destruct (can_open_wb (fs w) path).
  - destruct (Hraise e eq_refl) as [re ->]. by destruct re.
Qed.

(** C4. No exception of the requests library leaves [download_single_pdf]:
    when the GET raises one (an error status, a connection failure, a
    timeout or any other request exception), the exception is printed, no
    file is written and the call returns. A call makes at most 6 attempts
    of the transport, and exactly 6 (the first and 5 retries) when every
    attempt fails. *)
Theorem C4_download_single_pdf_absorbs (E : env) (url : value)
    (write_directory : string) (w : world) :
  let run := download_single_pdf E url write_directory w in
  (∀ e, fst run ≠ Raise (RequestsError e))
  ∧ (attempts (snd run) ≤ attempts w + 6)%nat
  ∧ (∀ u e w1, url = VStr u →
       session_get E http_session url (Some 5) w = (Raise e, w1) →
       run = (Ok tt, with_stdout (stdout w ++ [ErrorText e])%list w1)
       ∧ fs (snd run) = fs w)
  ∧ (∀ u status body, url = VStr u →
       transport E u (attempts w) = Response status body → 400 ≤ status < 600 →
       fst run = Ok tt ∧ fs (snd run) = fs w
       ∧ stdout (snd run) = (stdout w ++ [ErrorText (RequestsError HTTPError)])%list
       ∧ attempts (snd run) = S (attempts w))
  ∧ (∀ u, url = VStr u → (∀ k, ∃ e, transport E u k = Failure e true) →
       fst run = Ok tt ∧ fs (snd run) = fs w
       ∧ attempts (snd run) = (attempts w + 6)%nat).
Proof.
  intros run. subst run. destruct url as [n|u| |text];
    try (repeat split; (done || (cbn; lia))).
  rewrite download_single_pdf_string.
  pose proof (get_outcome_attempts E http_session u (attempts w)) as Hbound.
  cbn [retry_total http_session] in Hbound.
  split; [|split; [|split; [|split]]].
  - intros e. destruct (fst (get_outcome _ _ _ _)); [|done]. by case_match.
  - destruct (fst (get_outcome _ _ _ _)); [case_match|]; cbn [snd attempts]; lia.
  - intros u' e w1 [= <-] Hget. rewrite session_get_outcome in Hget.
    injection Hget as -> <-. done.
  - intros u' status body [= <-] Hresp Hstatus. unfold get_outcome.
    cbn [retry_total http_session send_outcome]. rewrite Hresp.
    cbn [assert_status_hook status_code andb fst snd].
    replace (400 <=? status) with true by lia. by replace (status <? 600) with true by lia.
  - intros u' [= <-] Hfail. unfold get_outcome.
    destruct (send_outcome_all_fail E u (retry_total http_session) (attempts w) Hfail)
      as [e ->].
    done.
Qed.

Lemma C4_download_single_pdf_absorbs_witness :
  let run :=
    download_single_pdf (offline (mkdate 2024 5 1) []) (VStr guidance_url)
      "2024-05-01-run-1" run_1_present in
  fst run = Ok tt ∧ fs (snd run) = fs run_1_present ∧ attempts (snd run) = 6%nat.
Proof.
  apply (C4_download_single_pdf_absorbs (offline (mkdate 2024 5 1) []) (VStr guidance_url)
           "2024-05-01-run-1" run_1_present) with (u := guidance_url); [done|].
  intros k. by exists ConnectionError.
Defined.

(** ** The download ledger *)

Lemma defaultdict_getitem_unseen key w :
  downloaded_rld_pdfs w !! key ≠ Some true →
  ∃ w0, defaultdict_getitem key w = (Ok false, w0)
        ∧ fs w0 = fs w ∧ stdout w0 = stdout w ∧ requests_made w0 = requests_made w
        ∧ attempts w0 = attempts w ∧ downloaded_rld_pdfs w0 !! key = Some false.
Proof.
  intros Hunseen. unfold defaultdict_getitem.
  destruct (downloaded_rld_pdfs w !! key) as [[|]|] eqn:Hkey; [done| |].
  - by exists w.
  - eexists. split; [done|]. cbn. by rewrite lookup_insert_eq.
Qed.

Lemma defaultdict_getitem_seen key w :
  downloaded_rld_pdfs w !! key = Some true → defaultdict_getitem key w = (Ok true, w).
Proof. intros Hseen. unfold defaultdict_getitem. by rewrite Hseen. Qed.

(** A call on a key already marked does nothing, in both variants. *)
Lemma common_download_seen E active_ingredient write_directory w :
  downloaded_rld_pdfs w !! dict_get RLD_KEY active_ingredient = Some true →
  common.download_specific_guidance_pdf E active_ingredient write_directory w = (Ok tt, w).
Proof.
  intros Hseen. unfold common.download_specific_guidance_pdf, bind.
  by rewrite (defaultdict_getitem_seen _ _ Hseen).
Qed.

Lemma find_updated_ais_download_seen E active_ingredient write_directory w :
  downloaded_rld_pdfs w !! dict_get RLD_KEY active_ingredient = Some true →
  find_updated_ais.download_specific_guidance_pdf E active_ingredient write_directory w
  = (Ok tt, w).
Proof.
  intros Hseen. unfold find_updated_ais.download_specific_guidance_pdf, bind.
  by rewrite (defaultdict_getitem_seen _ _ Hseen).
Qed.

(** The common.py variant on a key not yet marked, for a record whose URL
    is a string. *)
Lemma common_download_unseen E active_ingredient write_directory w url :
  let key := dict_get RLD_KEY active_ingredient in
  let path := write_directory +:+ "/" +:+ url_filename url in
  let outcome := get_outcome E http_session url (attempts w) in
  let run := common.download_specific_guidance_pdf E active_ingredient write_directory w in
  downloaded_rld_pdfs w !! key ≠ Some true →
  dict_get PDF_URL_KEY active_ingredient = VStr url →
  requests_made (snd run) = (requests_made w ++ [url])%list
  ∧ attempts (snd run) = snd outcome
  ∧ match fst outcome with
    | Raise e =>
        fst run = Raise (NameError "filename")
        ∧ downloaded_rld_pdfs (snd run) !! key = Some true
        ∧ fs (snd run) = fs w
    | Ok r =>
        if can_open_wb (fs w) path then
          fst run = Raise (NameError "filename")
          ∧ downloaded_rld_pdfs (snd run) !! key = Some true
          ∧ fs (snd run) = <[path := File (content r)]> (<[path := File EmptyString]> (fs w))
        else
          fst run = Raise OSError
          ∧ downloaded_rld_pdfs (snd run) !! key = Some false
          ∧ fs (snd run) = fs w
    end.
Proof.
  intros key path outcome run Hunseen Hurl.
  destruct run as [res w'] eqn:Hrun. subst run.
  unfold common.download_specific_guidance_pdf, bind at 1 in Hrun. fold key in Hrun.
  destruct (defaultdict_getitem_unseen key w Hunseen)
    as (w0 & Hget & Hfs & Hout & Hreq & Hatt & Hkey).
  rewrite Hget, Hurl in Hrun. cbn [negb] in Hrun. unfold bind at 1 in Hrun.
  rewrite download_single_pdf_string, Hatt, Hfs, Hreq in Hrun.
  fold outcome path in Hrun.
  destruct (fst outcome) as [r|e].
  - destruct (can_open_wb (fs w) path); injection Hrun as <- <-; cbn; [|done].
    by rewrite lookup_insert_eq.
  - injection Hrun as <- <-. cbn. by rewrite lookup_insert_eq.
Qed.

(** The find_updated_ais.py variant in the same situation: an exception of
    the GET leaves the call before the key is marked. *)
Lemma find_updated_ais_download_unseen E active_ingredient write_directory w url :
  let key := dict_get RLD_KEY active_ingredient in
  let path := write_directory +:+ "/" +:+ url_filename url in
  let outcome := get_outcome E default_session url (attempts w) in
  let run :=
    find_updated_ais.download_specific_guidance_pdf E active_ingredient write_directory w in
  downloaded_rld_pdfs w !! key ≠ Some true →
  dict_get PDF_URL_KEY active_ingredient = VStr url →
  requests_made (snd run) = (requests_made w ++ [url])%list
  ∧ attempts (snd run) = snd outcome
  ∧ match fst outcome with
    | Raise e =>
        fst run = Raise e
        ∧ downloaded_rld_pdfs (snd run) !! key = Some false
        ∧ fs (snd run) = fs w
    | Ok r =>
        if can_open_wb (fs w) path then
          fst run = Ok tt
          ∧ downloaded_rld_pdfs (snd run) !! key = Some true
          ∧ fs (snd run) = <[path := File (content r)]> (<[path := File EmptyString]> (fs w))
        else
          fst run = Raise OSError
          ∧ downloaded_rld_pdfs (snd run) !! key = Some false
          ∧ fs (snd run) = fs w
    end.
Proof.
  intros key path outcome run Hunseen Hurl.
  destruct run as [res w'] eqn:Hrun. subst run.
  unfold find_updated_ais.download_specific_guidance_pdf, bind at 1 in Hrun.
  fold key in Hrun.
  destruct (defaultdict_getitem_unseen key w Hunseen)
    as (w0 & Hget & Hfs & Hout & Hreq & Hatt & Hkey).
  rewrite Hget, Hurl in Hrun. cbn [negb] in Hrun. unfold bind at 1, lift in Hrun.
  cbn [py_split rbind] in Hrun. rewrite url_filename_item in Hrun. fold path in Hrun.
  unfold bind at 1 in Hrun. rewrite session_get_outcome, Hatt, Hreq in Hrun.
  fold outcome in Hrun.
  destruct (fst outcome) as [r|e]; [|by injection Hrun as <- <-].
  unfold open_wb_write, bind, ret, raise, defaultdict_setitem, print in Hrun.
  cbn [fs with_attempts with_requests_made] in Hrun. rewrite Hfs in Hrun.
  destruct (can_open_wb (fs w) path); injection Hrun as <- <-; cbn; [|done].
  by rewrite lookup_insert_eq, Hfs.
Qed.

(** A record whose URL is missing or not a string: the split of the URL
    raises before anything is requested, in both variants. *)
Lemma common_download_no_url E active_ingredient write_directory w :
  let key := dict_get RLD_KEY active_ingredient in
  let run := common.download_specific_guidance_pdf E active_ingredient write_directory w in
  downloaded_rld_pdfs w !! key ≠ Some true →
  (∀ url, dict_get PDF_URL_KEY active_ingredient ≠ VStr url) →
  fst run = Raise AttributeError
  ∧ requests_made (snd run) = requests_made w
  ∧ downloaded_rld_pdfs (snd run) !! key = Some false.
Proof.
  intros key run Hunseen Hurl.
  destruct run as [res w'] eqn:Hrun. subst run.
  unfold common.download_specific_guidance_pdf, bind at 1 in Hrun. fold key in Hrun.
  destruct (defaultdict_getitem_unseen key w Hunseen)
    as (w0 & Hget & Hfs & Hout & Hreq & Hatt & Hkey).
  rewrite Hget in Hrun. cbn [negb] in Hrun.
  destruct (dict_get PDF_URL_KEY active_ingredient) as [n|u| |text];
    [|by destruct (Hurl u)| |]; by injection Hrun as <- <-.
Qed.

Lemma find_updated_ais_download_no_url E active_ingredient write_directory w :
  let key := dict_get RLD_KEY active_ingredient in
  let run :=
    find_updated_ais.download_specific_guidance_pdf E active_ingredient write_directory w in
  downloaded_rld_pdfs w !! key ≠ Some true →
  (∀ url, dict_get PDF_URL_KEY active_ingredient ≠ VStr url) →
  fst run = Raise AttributeError
  ∧ requests_made (snd run) = requests_made w
  ∧ downloaded_rld_pdfs (snd run) !! key = Some false.
Proof.
  intros key run Hunseen Hurl.
  destruct run as [res w'] eqn:Hrun. subst run.
  unfold find_updated_ais.download_specific_guidance_pdf, bind at 1 in Hrun.
  fold key in Hrun.
  destruct (defaultdict_getitem_unseen key w Hunseen)
    as (w0 & Hget & Hfs & Hout & Hreq & Hatt & Hkey).
  rewrite Hget in Hrun. cbn [negb] in Hrun.
  destruct (dict_get PDF_URL_KEY active_ingredient) as [n|u| |text];
    [|by destruct (Hurl u)| |]; by injection Hrun as <- <-.
Qed.

(** C3, as amended. On a record whose RLD value is not yet marked in the
    ledger, the common.py variant of [download_specific_guidance_pdf]
    never returns normally. When the record's URL is a string and either
    the GET raises or the file can be opened for writing, the call issues
    the GET, marks the key in the ledger and then raises [NameError] for
    [filename]. *)
Theorem C3_unseen_key_name_error (E : env) (active_ingredient : gmap string value)
    (write_directory : string) (w : world) :
  let key := dict_get RLD_KEY active_ingredient in
  let run := common.download_specific_guidance_pdf E active_ingredient write_directory w in
  downloaded_rld_pdfs w !! key ≠ Some true →
  (∀ v, fst run ≠ Ok v)
  ∧ (∀ url, dict_get PDF_URL_KEY active_ingredient = VStr url →
       (∃ e w1, session_get E http_session (VStr url) (Some 5) w = (Raise e, w1))
       ∨ can_open_wb (fs w) (write_directory +:+ "/" +:+ url_filename url) = true →
       fst run = Raise (NameError "filename")
       ∧ requests_made (snd run) = (requests_made w ++ [url])%list
       ∧ downloaded_rld_pdfs (snd run) !! key = Some true).
Proof.
  intros key run Hunseen. split.
  - intros v.
    destruct (dict_get PDF_URL_KEY active_ingredient) as [n|u| |text] eqn:Hurl.
    2:{ destruct (common_download_unseen E active_ingredient write_directory w u Hunseen Hurl)
          as (_ & _ & Hcases).
        fold run in Hcases. destruct (fst (get_outcome _ _ _ _)).
        - destruct (can_open_wb _ _); destruct Hcases as [-> _]; done.
        - destruct Hcases as [-> _]; done. }
    all: destruct (common_download_no_url E active_ingredient write_directory w Hunseen)
           as [Hres _]; [intros u; by rewrite Hurl|]; fold run in Hres; by rewrite Hres.
  - intros url Hurl Hok.
    destruct (common_download_unseen E active_ingredient write_directory w url Hunseen Hurl)
      as (Hreq & _ & Hcases).
    fold run key in Hreq, Hcases. split; [|split; [done|]].
    + destruct Hok as [(e & w1 & Hget)|Hopen].
      * rewrite session_get_outcome in Hget. injection Hget as Hget _.
        rewrite Hget in Hcases. by destruct Hcases.
      * rewrite Hopen in Hcases. destruct (fst (get_outcome _ _ _ _)); by destruct Hcases.
    + destruct Hok as [(e & w1 & Hget)|Hopen].
      * rewrite session_get_outcome in Hget. injection Hget as Hget _.
        rewrite Hget in Hcases. by destruct Hcases as (_ & ? & _).
      * rewrite Hopen in Hcases.
        destruct (fst (get_outcome _ _ _ _)); by destruct Hcases as (_ & ? & _).
Qed.

Lemma C3_unseen_key_name_error_witness :
  let run :=
    common.download_specific_guidance_pdf (offline (mkdate 2024 5 1) [])
      (record_12345 (VStr "03/2024")) "2024-05-01-run-1" run_1_present in
  fst run = Raise (NameError "filename")
  ∧ requests_made (snd run) = [guidance_url]
  ∧ downloaded_rld_pdfs (snd run) !! VStr "12345 67890" = Some true.
Proof.
  refine (proj2 (C3_unseen_key_name_error (offline (mkdate 2024 5 1) [])
                   (record_12345 (VStr "03/2024")) "2024-05-01-run-1" run_1_present _)
            guidance_url _ _).
  - by vm_compute.
  - by vm_compute.
  - right. by vm_compute.
Defined.

(** The claim without the proviso on the URL fails: a record with no URL
    and an unmarked key raises [AttributeError], not [NameError], and
    neither issues a request nor marks the key. *)
Lemma C3_counterexample :
  ¬ (∀ (E : env) (active_ingredient : gmap string value) (write_directory : string)
       (w : world),
       let key := dict_get RLD_KEY active_ingredient in
       let run :=
         common.download_specific_guidance_pdf E active_ingredient write_directory w in
       downloaded_rld_pdfs w !! key ≠ Some true →
       (∃ name, fst run = Raise (NameError name))
       ∧ length (requests_made (snd run)) = S (length (requests_made w))
       ∧ downloaded_rld_pdfs (snd run) !! key = Some true).
Proof.
  intros Hclaim.
  destruct (Hclaim (offline (mkdate 2024 5 1) []) {[RLD_KEY := VStr "12345"]}
              "2024-05-01-run-1" run_1_present) as ([name Hname] & _); [by vm_compute|].
  vm_compute in Hname. discriminate.
Qed.

(** C2, as amended. Two records with the same raw RLD value, on a ledger
    in which that value is not yet marked, the URL of the first being a
    string: the two calls in sequence issue exactly one GET request, for
    that URL, in both variants; the key of the ledger is the raw value.
    In common.py the first call leaves the key marked whether the GET
    raised or returned a response (unless the file cannot be opened for
    writing, when [OSError] leaves the call first). In
    find_updated_ais.py it leaves the key marked when the GET returned a
    response, of any status, and the file was written; an exception of
    the GET leaves the call with the key unmarked. Once the key is
    marked, a call for the second record does nothing. *)
Theorem C2_dedup_by_raw_key (E : env) (first second : gmap string value)
    (write_directory : string) (w : world) (url : string) :
  let key := dict_get RLD_KEY first in
  let path := write_directory +:+ "/" +:+ url_filename url in
  dict_get RLD_KEY second = key →
  downloaded_rld_pdfs w !! key ≠ Some true →
  dict_get PDF_URL_KEY first = VStr url →
  (let once := common.download_specific_guidance_pdf E first write_directory w in
   let both :=
     (common.download_specific_guidance_pdf E first write_directory;;
      common.download_specific_guidance_pdf E second write_directory)%M w in
   requests_made (snd both) = (requests_made w ++ [url])%list
   ∧ (∀ e w1, session_get E http_session (VStr url) (Some 5) w = (Raise e, w1) →
        downloaded_rld_pdfs (snd once) !! key = Some true)
   ∧ (∀ r w1, session_get E http_session (VStr url) (Some 5) w = (Ok r, w1) →
        can_open_wb (fs w) path = true →
        downloaded_rld_pdfs (snd once) !! key = Some true)
   ∧ (downloaded_rld_pdfs (snd once) !! key = Some true →
        common.download_specific_guidance_pdf E second write_directory (snd once)
        = (Ok tt, snd once)))
  ∧ (let once := find_updated_ais.download_specific_guidance_pdf E first write_directory w in
     let both :=
       (find_updated_ais.download_specific_guidance_pdf E first write_directory;;
        find_updated_ais.download_specific_guidance_pdf E second write_directory)%M w in
     requests_made (snd both) = (requests_made w ++ [url])%list
     ∧ (∀ e w1, session_get E default_session (VStr url) None w = (Raise e, w1) →
          fst once = Raise e ∧ downloaded_rld_pdfs (snd once) !! key = Some false)
     ∧ (∀ r w1, session_get E default_session (VStr url) None w = (Ok r, w1) →
          can_open_wb (fs w) path = true →
          fst once = Ok tt ∧ downloaded_rld_pdfs (snd once) !! key = Some true
          ∧ fst both = Ok tt)
     ∧ (downloaded_rld_pdfs (snd once) !! key = Some true →
          find_updated_ais.download_specific_guidance_pdf E second write_directory (snd once)
          = (Ok tt, snd once))).
Proof.
  intros key path Hsame Hunseen Hurl. split.
  - intros once both.
    destruct (common_download_unseen E first write_directory w url Hunseen Hurl)
      as (Hreq & _ & Hcases).
    fold once key path in Hreq, Hcases.
    assert (Hseen : downloaded_rld_pdfs (snd once) !! key = Some true →
              common.download_specific_guidance_pdf E second write_directory (snd once)
              = (Ok tt, snd once)).
    { intros Hmarked. apply common_download_seen. by rewrite Hsame. }
    assert (Hboth : snd both = snd once).
    { subst both. unfold bind. fold once.
      destruct once as [[[]|e] w'] eqn:Honce; [|done]. exfalso.
      destruct (fst (get_outcome _ _ _ _)); [destruct (can_open_wb _ _)|];
        by destruct Hcases. }
    rewrite Hboth. split; [done|]. split; [|split; [|done]].
    + intros e w1 Hget. rewrite session_get_outcome in Hget. injection Hget as Hget _.
      rewrite Hget in Hcases. by destruct Hcases as (_ & ? & _).
    + intros r w1 Hget Hopen. rewrite session_get_outcome in Hget.
      injection Hget as Hget _. rewrite Hget, Hopen in Hcases.
      by destruct Hcases as (_ & ? & _).
  - intros once both.
    destruct (find_updated_ais_download_unseen E first write_directory w url Hunseen Hurl)
      as (Hreq & _ & Hcases).
    fold once key path in Hreq, Hcases.
    assert (Hseen : downloaded_rld_pdfs (snd once) !! key = Some true →
              find_updated_ais.download_specific_guidance_pdf E second write_directory
                (snd once) = (Ok tt, snd once)).
    { intros Hmarked. apply find_updated_ais_download_seen. by rewrite Hsame. }
    assert (Hboth : snd both = snd once ∧ (fst once = Ok tt → fst both = Ok tt)).
    { subst both. unfold bind. fold once.
      destruct once as [[[]|e] w'] eqn:Honce; [|done].
      cbn [fst snd] in *. rewrite Hseen; [done|].
      destruct (fst (get_outcome _ _ _ _)); [destruct (can_open_wb _ _)|];
        by destruct Hcases as (? & ? & _). }
    destruct Hboth as [Hboth Hok]. rewrite Hboth. split; [done|].
    split; [|split; [|done]].
    + intros e w1 Hget. rewrite session_get_outcome in Hget. injection Hget as Hget _.
      rewrite Hget in Hcases. by destruct Hcases as (? & ? & _).
    + intros r w1 Hget Hopen. rewrite session_get_outcome in Hget.
      injection Hget as Hget _. rewrite Hget, Hopen in Hcases.
      destruct Hcases as (? & ? & _). auto.
Qed.

Lemma C2_dedup_by_raw_key_witness :
  let E := online (mkdate 2024 5 1) [] 200 "%PDF-1.4" in
  let both :=
    (find_updated_ais.download_specific_guidance_pdf E (record_12345 (VStr "03/2024"))
       "2024-05-01-run-1";;
     find_updated_ais.download_specific_guidance_pdf E (record_12345 (VStr "04/2024"))
       "2024-05-01-run-1")%M run_1_present in
  requests_made (snd both) = [guidance_url] ∧ fst both = Ok tt.
Proof.
  intros E both.
  destruct (C2_dedup_by_raw_key E (record_12345 (VStr "03/2024"))
              (record_12345 (VStr "04/2024")) "2024-05-01-run-1" run_1_present guidance_url)
    as [_ (Hreq & _ & Hok & _)]; [by vm_compute|by vm_compute|by vm_compute|].
  split; [exact Hreq|].
  by destruct (Hok _ _ eq_refl eq_refl) as (_ & _ & Hboth).
Defined.

(** The claim for every ledger fails: when the raw RLD value is already
    marked, two calls on records that share it issue no request at all, in
    either variant. *)
Lemma C2_counterexample :
  ¬ (∀ (E : env) (first second : gmap string value) (write_directory : string) (w : world),
       dict_get RLD_KEY first = dict_get RLD_KEY second →
       let both :=
         (common.download_specific_guidance_pdf E first write_directory;;
          common.download_specific_guidance_pdf E second write_directory)%M w in
       length (requests_made (snd both)) = S (length (requests_made w)))
  ∧ ¬ (∀ (E : env) (first second : gmap string value) (write_directory : string)
         (w : world),
         dict_get RLD_KEY first = dict_get RLD_KEY second →
         let both :=
           (find_updated_ais.download_specific_guidance_pdf E first write_directory;;
            find_updated_ais.download_specific_guidance_pdf E second write_directory)%M w in
         length (requests_made (snd both)) = S (length (requests_made w))).
Proof.
  pose (w := with_downloaded_rld_pdfs {[VStr "12345 67890" := true]} run_1_present).
  split; intros Hclaim;
    specialize (Hclaim (online (mkdate 2024 5 1) [] 200 "%PDF-1.4")
                  (record_12345 (VStr "03/2024")) (record_12345 (VStr "04/2024"))
                  "2024-05-01-run-1" w eq_refl);
    vm_compute in Hclaim; discriminate.
Qed.

(** ** The order of the steps of [main] *)

Lemma get_rld_search_numbers_pure E w r w1 :
  get_rld_search_numbers E w = (r, w1) → w1 = w.
Proof.
  unfold get_rld_search_numbers, bind, lift, open_r_read, ret.
  destruct (list_item (argv E) 1) as [name|e]; [|by intros [= _ <-]].
  destruct (fs w !! name) as [[|text]|]; by intros [= _ <-].
Qed.

Lemma get_content_current_year_and_month_fs E w r w2 :
  get_content_current_year_and_month E w = (r, w2) → fs w2 = fs w.
Proof.
  unfold get_content_current_year_and_month, bind. rewrite session_get_outcome.
  destruct (fst (get_outcome _ _ _ _)) as [resp|e]; [|by intros [= _ <-]].
  destruct (parse_content_current (content resp)) as [[y m] [e|]].
  - unfold try_except, raise, print, ret.
    destruct e; cbn; by intros [= _ <-].
  - unfold ret. by intros [= _ <-].
Qed.

(** C10. [main] calls [create_output_directory] first, before the
    argument check and before the page is fetched. When the call makes the
    directory (nothing bears the first run name of the day that is not a
    directory), a run without the RLD file argument prints the message and
    returns without raising, and the only change it leaves in the file
    system is the new, empty run directory; so does a run that is stopped
    because the year or the month of the page could not be read, which
    ends in the exception of line 39. When a regular file bears that name,
    the run ends in the [FileExistsError] of [os.mkdir], whatever the
    arguments are: nothing is printed and no directory is made. *)
Theorem C10_directory_left_behind (E : env) (w : world) :
  let name n := directory_name_format (year (today E)) (month (today E)) (day (today E)) n in
  ∃ N : Z,
    1 ≤ N
    ∧ (∀ k, 1 ≤ k < N → fs w !! name k = Some Dir)
    ∧ fs w !! name N ≠ Some Dir
    ∧ (fs w !! name N = None →
         ∃ w0 : world,
           find_updated_ais.create_output_directory E w = (Ok (name N), w0)
           ∧ ((length (argv E) < 2)%nat →
                main E w
                = (Ok tt,
                   with_stdout
                     (stdout w0
                      ++ [Text "An input RLD identifiers file is required to use this script."])%list
                     w0)
                ∧ fs (snd (main E w)) = <[name N := Dir]> (fs w))
           ∧ (∀ rld_search_numbers w1 current_year current_month w2,
                (2 ≤ length (argv E))%nat →
                get_rld_search_numbers E w0 = (Ok rld_search_numbers, w1) →
                get_content_current_year_and_month E w1
                = (Ok (current_year, current_month), w2) →
                current_year = VNone ∨ current_month = VNone →
                main E w
                = (Raise (Exception_ "Could not identify content current year and month."),
                   w2)
                ∧ fs (snd (main E w)) = <[name N := Dir]> (fs w)))
    ∧ (∀ content : string,
         fs w !! name N = Some (File content) → main E w = (Raise FileExistsError, w)).
Proof.
  intros name.
  destruct (create_output_directory_outcome E w) as (N & HN & Hbelow & HNdir & Hcreate).
  change (∀ k, 1 ≤ k < N → fs w !! name k = Some Dir) in Hbelow.
  change (fs w !! name N ≠ Some Dir) in HNdir.
  change (directory_name_format _ _ _ N) with (name N) in Hcreate.
  exists N. split; [done|]. split; [done|]. split; [done|]. split.
  - intros HNone. rewrite HNone in Hcreate.
    eexists. split; [exact Hcreate|]. split.
    + intros Hargv. unfold main, bind, find_updated_ais.create_output_directory.
      rewrite Hcreate. rewrite bool_decide_eq_true_2 by done. unfold print. by cbn.
    + intros nums w1 y m w2 Hargv Hrld Hcur Hnone.
      assert (Hmain : main E w
                = (Raise (Exception_ "Could not identify content current year and month."),
                   w2)).
      { unfold main, bind, find_updated_ais.create_output_directory. rewrite Hcreate.
        rewrite bool_decide_eq_false_2 by lia. rewrite Hrld, Hcur.
        destruct Hnone as [->| ->]; [done|].
        rewrite (bool_decide_eq_true_2 (VNone = VNone)) by done.
        by rewrite orb_true_r. }
      rewrite Hmain. split; [done|]. cbn [snd].
      apply get_rld_search_numbers_pure in Hrld as ->.
      apply get_content_current_year_and_month_fs in Hcur. by rewrite Hcur.
  - intros content Hfile. rewrite Hfile in Hcreate.
    unfold main, bind, find_updated_ais.create_output_directory. by rewrite Hcreate.
Qed.

Lemma C10_directory_left_behind_witness :
  (let run := main (offline (mkdate 2024 5 1) ["find_updated_ais.py"]) run_1_present in
   fst run = Ok tt
   ∧ fs (snd run) = <["2024-05-01-run-2" := Dir]> (fs run_1_present))
  ∧ (let run :=
       main (online (mkdate 2024 5 1) ["find_updated_ais.py"; "rlds.txt"] 200 "<html></html>")
         rld_file_present in
     fst run = Raise (Exception_ "Could not identify content current year and month.")
     ∧ fs (snd run) = <["2024-05-01-run-1" := Dir]> (fs rld_file_present)).
Proof.
  split.
  - destruct (C10_directory_left_behind
                (offline (mkdate 2024 5 1) ["find_updated_ais.py"]) run_1_present)
      as (N & HN & Hbelow & Hnot & Hfree & _).
    assert (N = 2) as ->.
    { destruct (decide (N = 1)) as [->|]; [by destruct Hnot|].
      destruct (decide (N = 2)) as [|Hne]; [done|].
      specialize (Hbelow 2 ltac:(lia)). by vm_compute in Hbelow. }
    destruct (Hfree eq_refl) as (w0 & _ & Hshort & _).
    destruct Hshort as [Hmain Hfs]; [cbn; lia|].
    split; [by rewrite Hmain|exact Hfs].
  - destruct (C10_directory_left_behind
                (online (mkdate 2024 5 1) ["find_updated_ais.py"; "rlds.txt"] 200
                   "<html></html>") rld_file_present)
      as (N & HN & Hbelow & _ & Hfree & _).
    assert (N = 1) as ->.
    { destruct (decide (N = 1)) as [|Hne]; [done|].
      specialize (Hbelow 1 ltac:(lia)). by vm_compute in Hbelow. }
    destruct (Hfree eq_refl) as (w0 & Hcreate & _ & Hstopped).
    vm_compute in Hcreate. injection Hcreate as <-.
    destruct (Hstopped _ _ _ _ _ ltac:(cbn; lia) eq_refl eq_refl ltac:(by left))
      as [Hmain Hfs].
    split; [by rewrite Hmain|exact Hfs].
Defined.

(** A regular file under the first run name of the day: the run without
    the argument raises, prints nothing and leaves no directory. *)
Lemma C10_counterexample :
  let run := main (offline (mkdate 2024 5 1) ["find_updated_ais.py"]) run_1_is_a_file in
  fst run = Raise FileExistsError
  ∧ stdout (snd run) = []
  ∧ fs (snd run) = fs run_1_is_a_file
  ∧ ∀ path : string, fs (snd run) !! path ≠ Some Dir.
Proof.
  cbn zeta. split; [by vm_compute|]. split; [by vm_compute|]. split; [by vm_compute|].
  intros path Hdir.
  assert (Hfs : fs (snd (main (offline (mkdate 2024 5 1) ["find_updated_ais.py"])
                           run_1_is_a_file))
                = {["2024-05-01-run-1" := File "notes"]}) by by vm_compute.
  rewrite Hfs in Hdir. apply lookup_singleton_Some in Hdir as [_ Hdir]. discriminate.
Qed.

(** ** A whole run *)

(** The record "12345 67890" of March 2024, with "12345" in the RLD file
    and the page current as of February 2024: the record is of interest
    and tagged "str", one request is made for its URL after the one for
    the page, the file is written into the new run directory and the
    ledger marks the raw value. *)
Example end_to_end_scenario :
  let run := main one_record_run rld_file_present in
  ai_is_of_interest (record_12345 (VStr "03/2024")) (mkdate 2024 2 1) ["12345"]
  = Ok (true, "str")
  ∧ fst run = Ok tt
  ∧ requests_made (snd run) = [PSG_GENERIC_DRUG_DEVELOPMENT_URL; guidance_url]
  ∧ downloaded_rld_pdfs (snd run) = {[VStr "12345 67890" := true]}
  ∧ fs (snd run) !! "2024-05-01-run-1/PSG_012345.pdf" = Some (File index_page).
Proof. repeat split; by vm_compute. Qed.

(** * Further properties *)

(** ** Strings *)

(** The split of a string whose last character is the separator ends
    with an empty piece, and the split of one whose first character is the
    separator begins with the piece read so far. *)
Lemma split_from_char_last c s piece :
  last (split_from (String c EmptyString) (s +:+ String c EmptyString) 0 piece)
  = Some EmptyString.
Proof.
  revert piece. induction s as [|c' s IH]; intros piece.
  - change (EmptyString +:+ String c EmptyString) with (String c EmptyString).
    cbn [split_from]. by rewrite prefix_char, Ascii.eqb_refl.
  - rewrite string_app_cons. cbn [split_from]. rewrite prefix_char.
    destruct (Ascii.eqb c c'); cbn [String.length Nat.sub]; [|apply IH].
    rewrite last_cons, IH. done.
Qed.

Lemma str_contains_char_last c s :
  str_contains (String c EmptyString) (s +:+ String c EmptyString) = true.
Proof.
  induction s as [|c' s IH].
  - change (EmptyString +:+ String c EmptyString) with (String c EmptyString).
    cbn [str_contains]. by rewrite prefix_char, Ascii.eqb_refl.
  - rewrite string_app_cons. cbn [str_contains]. rewrite IH. apply orb_true_r.
Qed.

(** ** The RLD file *)

Lemma concat_empty_cons x l :
  String.concat EmptyString (x :: l) = x +:+ String.concat EmptyString l.
Proof. destruct l; [by cbn; rewrite string_app_nil_r|done]. Qed.

(** The lines of a text without carriage returns, put end to end, are the
    text. *)
Lemma readlines_from_concat s line :
  count_char CR s = 0%nat →
  String.concat EmptyString (readlines_from s line) = line +:+ s.
Proof.
  revert line. induction s as [|c s IH]; intros line Hcr.
  - cbn [readlines_from]. rewrite string_app_nil_r.
    case_bool_decide as Hline; [by subst line|done].
  - cbn [count_char] in Hcr. cbn [readlines_from].
    destruct (Ascii.eqb_spec c LF) as [->|Hlf].
    + rewrite concat_empty_cons, IH, string_app_assoc by (cbn in Hcr; lia). done.
    + destruct (Ascii.eqb_spec c CR) as [->|Hcr'].
      * rewrite Ascii.eqb_refl in Hcr. discriminate Hcr.
      * rewrite IH, string_app_assoc; [done|].
        destruct (Ascii.eqb CR c); [discriminate Hcr|done].
Qed.

(** X1. [get_rld_search_numbers] never changes the state of the run. On
    a readable file it returns one entry per line of the file, in order,
    each entry being the line without the white space at its two ends
    (the line end is part of it), so that no entry begins or ends with
    white space and stripping it again changes nothing; the lines of a
    file without carriage returns, put end to end, are the text of the
    file. Without a second command-line argument it raises [IndexError],
    and [OSError] when the path does not name a regular file. *)
Theorem X1_get_rld_search_numbers (E : env) (w : world) :
  snd (get_rld_search_numbers E w) = w
  ∧ (argv E !! 1%nat = None → fst (get_rld_search_numbers E w) = Raise IndexError)
  ∧ (∀ rld_file_name, argv E !! 1%nat = Some rld_file_name →
       (∀ text, fs w !! rld_file_name ≠ Some (File text)) →
       fst (get_rld_search_numbers E w) = Raise OSError)
  ∧ (∀ rld_file_name text, argv E !! 1%nat = Some rld_file_name →
       fs w !! rld_file_name = Some (File text) →
       ∃ rld_search_numbers,
         fst (get_rld_search_numbers E w) = Ok rld_search_numbers
         ∧ Forall2 (stripped_of is_whitespace) (readlines text) rld_search_numbers
         ∧ (count_char CR text = 0%nat → String.concat EmptyString (readlines text) = text)
         ∧ length rld_search_numbers = length (readlines text)
         ∧ ∀ entry : string, entry ∈ rld_search_numbers → str_strip entry = entry).
Proof.
  unfold get_rld_search_numbers, bind, lift, open_r_read, ret, list_item.
  destruct (argv E !! 1%nat) as [name|] eqn:Hargv.
  - destruct (fs w !! name) as [[|text]|] eqn:Hfile; cbn [fst snd];
      (split; [done|]); (split; [done|]); split.
    + done.
    + intros ? ? [= <-]. congruence.
    + intros ? Hname Hno. by destruct (Hno text); injection Hname as <-.
    + intros ? text' [= <-] Htext. rewrite Hfile in Htext. injection Htext as <-.
      eexists. split; [done|]. split; [|split; [|split; [by rewrite length_map|]]].
      * apply Forall2_fmap_r, Forall_Forall2_diag, Forall_forall.
        intros line _. apply str_strip_stripped.
      * intros Hcr. unfold readlines. by rewrite readlines_from_concat.
      * intros entry (line & -> & _)%list_elem_of_fmap. apply str_strip_idemp.
    + done.
    + intros ? ? [= <-]. congruence.
  - cbn [fst snd]. repeat split; done.
Qed.

Lemma X1_get_rld_search_numbers_witness :
  fst (get_rld_search_numbers (offline (mkdate 2024 5 1) ["find_updated_ais.py"; "rlds.txt"])
         two_line_rld_file)
  = Ok ["021234"; "N021235"].
Proof.
  destruct (X1_get_rld_search_numbers
              (offline (mkdate 2024 5 1) ["find_updated_ais.py"; "rlds.txt"])
              two_line_rld_file) as (_ & _ & _ & Hread).
  destruct (Hread "rlds.txt" _ eq_refl eq_refl) as (entries & Hentries & _).
  rewrite Hentries. vm_compute in Hentries. by injection Hentries as <-.
Defined.

(** ** More on the classification *)

Lemma rld_values_leading_space s :
  EmptyString ∈ rld_values_of (VStr (String " " s)).
Proof.
  unfold rld_values_of. cbn [str_contains]. rewrite prefix_char. cbn [Ascii.eqb orb].
  replace (Ascii.eqb " " " ") with true by done. cbn [orb].
  unfold str_split. cbn [split_from]. rewrite prefix_char.
  replace (Ascii.eqb " " " ") with true by done. cbn [map]. apply elem_of_cons. by left.
Qed.

Lemma rld_values_trailing_space s :
  EmptyString ∈ rld_values_of (VStr (s +:+ " ")).
Proof.
  unfold rld_values_of. rewrite str_contains_char_last.
  apply (list_elem_of_fmap_2' str_strip _ EmptyString); [|done].
  unfold str_split. pose proof (split_from_char_last " " s EmptyString) as Hlast.
  destruct (split_from " " (s +:+ " ") 0 EmptyString) as [|x l] using rev_ind; [done|].
  rewrite last_snoc in Hlast. injection Hlast as ->.
  apply elem_of_app. right. apply elem_of_cons. by left.
Qed.

(** X2. An empty entry in the interest list (an empty line of the RLD
    file gives one) matches every record whose raw RLD string begins or
    ends with a space: the split on single spaces yields an empty token
    there, which is kept. Such a record is of interest whenever its date
    parses. *)
Theorem X2_empty_entry_matches_padded_rld (active_ingredient : gmap string value)
    (current_content_updated_date : date) (rld_search_numbers : list string)
    (s : string) (d : date) :
  dict_get RLD_KEY active_ingredient = VStr (String " " s)
  ∨ dict_get RLD_KEY active_ingredient = VStr (s +:+ " ") →
  EmptyString ∈ rld_search_numbers →
  ai_updated_date_of (dict_get DATE_RECOMMENDED_KEY active_ingredient) = Ok d →
  ai_is_of_interest active_ingredient current_content_updated_date rld_search_numbers
  = Ok (true, "str")
  ∧ ∀ text, EmptyString ∈ map str_strip (readlines (String LF text)).
Proof.
  intros Hraw Hempty Hdate. split.
  - assert (Hmatch : any_of_interest (rld_values_of (dict_get RLD_KEY active_ingredient))
                       rld_search_numbers = true).
    { apply any_of_interest_true. exists EmptyString. split; [|done].
      destruct Hraw as [-> | ->];
        [apply rld_values_leading_space|apply rld_values_trailing_space]. }
    unfold ai_is_of_interest, ai_updated_since. rewrite Hmatch, Hdate. cbn.
    destruct Hraw as [-> | ->]; by destruct (date_ge _ _).
  - intros text. unfold readlines. cbn [readlines_from].
    replace (Ascii.eqb LF LF) with true by done. cbn [map]. apply elem_of_cons. by left.
Qed.

Lemma X2_empty_entry_matches_padded_rld_witness :
  ai_is_of_interest
    (<[RLD_KEY := VStr "021234 "]> (<[DATE_RECOMMENDED_KEY := VStr "03/2024"]> ∅))
    (mkdate 2024 2 1) [EmptyString]
  = Ok (true, "str").
Proof.
  refine (proj1 (X2_empty_entry_matches_padded_rld
                   (<[RLD_KEY := VStr "021234 "]> (<[DATE_RECOMMENDED_KEY := VStr "03/2024"]> ∅))
                   (mkdate 2024 2 1) [EmptyString] "021234" (mkdate 2024 3 1) _ _ _)).
  - right. by vm_compute.
  - apply elem_of_cons. by left.
  - by vm_compute.
Defined.

(** X3. The reference date has no part in the outcome of
    [ai_is_of_interest]: the call returns or raises the same for any two
    reference dates, and the flag it returns is [True] exactly when a token
    of the record is in the interest list. *)
Theorem X3_reference_date_is_ignored (active_ingredient : gmap string value)
    (rld_search_numbers : list string) (d1 d2 : date) :
  ai_is_of_interest active_ingredient d1 rld_search_numbers
  = ai_is_of_interest active_ingredient d2 rld_search_numbers
  ∧ ∀ (is_of_interest : bool) (rld_arg_type : string),
      ai_is_of_interest active_ingredient d1 rld_search_numbers
      = Ok (is_of_interest, rld_arg_type) →
      rld_arg_type = rld_arg_type_of (dict_get RLD_KEY active_ingredient)
      ∧ (is_of_interest = true
         ↔ ∃ t : string, t ∈ rld_values_of (dict_get RLD_KEY active_ingredient)
                         ∧ t ∈ rld_search_numbers).
Proof.
  unfold ai_is_of_interest, ai_updated_since.
  destruct (any_of_interest _ _) eqn:Hany; cbn [negb].
  - apply any_of_interest_true in Hany.
    destruct (ai_updated_date_of _) as [d|e]; cbn [rbind].
    + split; [by destruct (date_ge d d1), (date_ge d d2)|].
      intros b t. destruct (date_ge d d1); intros [= <- <-]; by split.
    + split; [done|]. intros b t. discriminate.
  - split; [done|]. intros b t [= <- <-]. split; [done|].
    split; [done|]. intros Hmatch%any_of_interest_true. congruence.
Qed.

Lemma X3_reference_date_is_ignored_witness :
  ai_is_of_interest (record_12345 (VStr "03/1999")) (mkdate 2024 2 1) ["67890"]
  = ai_is_of_interest (record_12345 (VStr "03/1999")) (mkdate 1990 1 1) ["67890"].
Proof.
  exact (proj1 (X3_reference_date_is_ignored (record_12345 (VStr "03/1999")) ["67890"]
                  (mkdate 2024 2 1) (mkdate 1990 1 1))).
Defined.

Lemma fits_c_int_spec n : fits_c_int n = true ↔ - 2 ^ 31 ≤ n < 2 ^ 31.
Proof. unfold fits_c_int. rewrite andb_true_iff, Z.leb_le, Z.ltb_lt. done. Qed.

Lemma date_of_values_ints y m d :
  datetime_date y m 1 = Ok d → date_of_values (VInt y) (VInt m) = Ok d.
Proof.
  intros Hdate. cbn [date_of_values].
  destruct (fits_c_int y) eqn:Hfits; [done|].
  unfold datetime_date in Hdate. rewrite Hfits in Hdate. discriminate.
Qed.

(** X4. A date whose month is outside 1..12 or whose year is outside
    1..9999 is refused by [datetime.date]: on a record with a token in the
    interest list the call never returns. It raises [ValueError], as for a
    date that does not parse, when both numbers fit a C [int] (from -2^31
    to 2^31-1), and [OverflowError] when one of them does not. *)
Theorem X4_date_out_of_range (active_ingredient : gmap string value)
    (current_content_updated_date : date) (rld_search_numbers : list string)
    (s month year : string) (m y : Z) :
  let run :=
    ai_is_of_interest active_ingredient current_content_updated_date rld_search_numbers in
  (∃ t : string, t ∈ rld_values_of (dict_get RLD_KEY active_ingredient)
                 ∧ t ∈ rld_search_numbers) →
  dict_get DATE_RECOMMENDED_KEY active_ingredient = VStr s →
  str_split "/" s = [month; year] → py_int month = Ok m → py_int year = Ok y →
  ¬ (1 ≤ m ≤ 12 ∧ 1 ≤ y ≤ 9999) →
  (- 2 ^ 31 ≤ y < 2 ^ 31 ∧ - 2 ^ 31 ≤ m < 2 ^ 31 → run = Raise ValueError)
  ∧ (¬ (- 2 ^ 31 ≤ y < 2 ^ 31 ∧ - 2 ^ 31 ≤ m < 2 ^ 31) → run = Raise OverflowError).
Proof.
  intros run Hmatch%any_of_interest_true Hdate Hsplit Hm Hy Hrange. subst run.
  unfold ai_is_of_interest, ai_updated_since, ai_updated_date_of.
  rewrite Hmatch, Hdate. cbn [negb py_split rbind]. rewrite Hsplit, Hy, Hm. cbn [rbind].
  unfold datetime_date. rewrite (fits_c_int_small 1) by lia. rewrite andb_true_r.
  pose proof (fits_c_int_spec y) as Hfy. pose proof (fits_c_int_spec m) as Hfm.
  split.
  - intros [Hyfits Hmfits].
    rewrite (proj2 Hfy Hyfits), (proj2 Hfm Hmfits). cbn [andb negb].
    destruct (1 <=? y) eqn:?, (y <=? 9999) eqn:?; cbn [andb negb]; try done.
    destruct (1 <=? m) eqn:?, (m <=? 12) eqn:?; cbn [andb negb]; try done. lia.
  - intros Hbig.
    destruct (fits_c_int y); [|done]. destruct (fits_c_int m); [|done].
    destruct Hbig. split; [by apply Hfy|by apply Hfm].
Qed.

Lemma X4_date_out_of_range_witness :
  ai_is_of_interest (record_12345 (VStr "13/2024")) (mkdate 2024 2 1) ["12345"]
  = Raise ValueError
  ∧ ai_is_of_interest (record_12345 (VStr "01/99999999999")) (mkdate 2024 2 1) ["12345"]
    = Raise OverflowError.
Proof.
  split.
  - apply (X4_date_out_of_range (record_12345 (VStr "13/2024")) (mkdate 2024 2 1) ["12345"]
             "13/2024" "13" "2024" 13 2024).
    + exists "12345". split; [by vm_compute; left|by left].
    + by vm_compute.
    + by vm_compute.
    + by vm_compute.
    + by vm_compute.
    + lia.
    + lia.
  - apply (X4_date_out_of_range (record_12345 (VStr "01/99999999999")) (mkdate 2024 2 1)
             ["12345"] "01/99999999999" "01" "99999999999" 1 99999999999).
    + exists "12345". split; [by vm_compute; left|by left].
    + by vm_compute.
    + by vm_compute.
    + by vm_compute.
    + by vm_compute.
    + lia.
    + lia.
Defined.

(** ** The page with the content-current date *)

Lemma split_from_absent sep s piece :
  str_contains sep s = false → split_from sep s 0 piece = [piece +:+ s].
Proof.
  revert piece. induction s as [|c s IH]; intros piece Habsent.
  - by rewrite string_app_nil_r.
  - cbn [str_contains] in Habsent. apply orb_false_elim in Habsent as [Hhere Hlater].
    cbn [split_from]. rewrite Hhere, (IH _ Hlater), string_app_assoc. done.
Qed.

Lemma str_split_absent sep s : str_contains sep s = false → str_split sep s = [s].
Proof. intros Habsent. unfold str_split. by rewrite split_from_absent. Qed.

(** The values [year] and [month] leave the [try] block with: both [None],
    both integers when nothing was raised, and otherwise the month still a
    string. Only [ValueError] and [IndexError] are raised in the block. *)
Lemma parse_content_current_shape resp_text :
  match parse_content_current resp_text with
  | (year, month, raised) =>
      (year = VNone ↔ month = VNone)
      ∧ (raised = None → ∃ y m, year = VInt y ∧ month = VInt m)
      ∧ (∀ e, raised = Some e →
           (e = ValueError ∨ e = IndexError)
           ∧ ((year = VNone ∧ month = VNone) ∨ ∃ s, month = VStr s))
  end.
Proof.
  unfold parse_content_current.
  repeat (case_match; try (repeat split; (done || (intros; simplify_eq; eauto))));
    simplify_eq; repeat split; try done; intros; simplify_eq; eauto using py_int_raise.
Qed.

(** X5. [get_content_current_year_and_month] issues one GET for the index
    page, with a single attempt and no retry, and changes neither the file
    system nor the ledger. The only exceptions that leave it are those of
    the request: what the parsing raises is caught. Whatever the status
    of the response, its text is parsed; the year is [None] exactly when
    the month is, and both are when the text does not contain "Content
    current as of", in which case the failure message is printed. *)
Theorem X5_content_current_page (E : env) (w : world) :
  let run := get_content_current_year_and_month E w in
  requests_made (snd run) = (requests_made w ++ [PSG_GENERIC_DRUG_DEVELOPMENT_URL])%list
  ∧ attempts (snd run) = S (attempts w)
  ∧ fs (snd run) = fs w
  ∧ downloaded_rld_pdfs (snd run) = downloaded_rld_pdfs w
  ∧ (∀ e retryable,
       transport E PSG_GENERIC_DRUG_DEVELOPMENT_URL (attempts w) = Failure e retryable →
       fst run = Raise (RequestsError e) ∧ stdout (snd run) = stdout w)
  ∧ (∀ status text,
       transport E PSG_GENERIC_DRUG_DEVELOPMENT_URL (attempts w) = Response status text →
       ∃ year month,
         fst run = Ok (year, month)
         ∧ (year = VNone ↔ month = VNone)
         ∧ (str_contains "Content current as of" text = false →
              year = VNone ∧ month = VNone
              ∧ stdout (snd run)
                = (stdout w ++ [Text "Failed to get content current year and month"])%list)).
Proof.
  intros run. subst run.
  unfold get_content_current_year_and_month, bind. rewrite session_get_outcome.
  unfold get_outcome. cbn [default_session retry_total send_outcome assert_status_hook].
  destruct (transport E PSG_GENERIC_DRUG_DEVELOPMENT_URL (attempts w))
    as [status text|e retryable] eqn:Hnet; cbn [fst snd andb content].
  - pose proof (parse_content_current_shape text) as Hshape.
    assert (Habsent : str_contains "Content current as of" text = false →
              parse_content_current text = (VNone, VNone, Some IndexError)).
    { intros Hno. unfold parse_content_current. by rewrite (str_split_absent _ _ Hno). }
    destruct (parse_content_current text) as [[year month] [e|]].
    + destruct Hshape as (Hnone & _ & Hraised).
      assert (Hrun : ∃ w',
                 try_except (raise e)
                   [(CValueError,
                     λ _, print (Text "Failed to get content current year and month"));
                    (CIndexError,
                     λ _, print (Text "Failed to get content current year and month"))]
                   (with_attempts (S (attempts w))
                      (with_requests_made
                         (requests_made w ++ [PSG_GENERIC_DRUG_DEVELOPMENT_URL]) w))
                 = (Ok tt, w')
                 ∧ requests_made w'
                   = (requests_made w ++ [PSG_GENERIC_DRUG_DEVELOPMENT_URL])%list
                 ∧ attempts w' = S (attempts w) ∧ fs w' = fs w
                 ∧ downloaded_rld_pdfs w' = downloaded_rld_pdfs w
                 ∧ stdout w'
                   = (stdout w ++ [Text "Failed to get content current year and month"])%list).
      { destruct (Hraised e eq_refl) as [[-> | ->] _]; by eexists. }
      destruct Hrun as (w' & -> & Hreq & Hatt & Hfs & Hled & Hout). cbn [fst snd ret].
      split; [done|]. split; [done|]. split; [done|]. split; [done|]. split; [done|].
      intros ? ? [= <- <-]. exists year, month. split; [done|]. split; [done|].
      intros Hno. specialize (Habsent Hno). by injection Habsent as -> ->.
    + cbn [fst snd ret].
      split; [done|]. split; [done|]. split; [done|]. split; [done|]. split; [done|].
      intros ? ? [= <- <-]. exists year, month. split; [done|]. split; [apply Hshape|].
      intros Hno. by specialize (Habsent Hno).
  - split; [done|]. split; [done|]. split; [done|]. split; [done|]. split; [|done].
    by intros ? ? [= <- <-].
Qed.

Lemma X5_content_current_page_witness :
  let run := get_content_current_year_and_month page_without_date rld_file_present in
  fst run = Ok (VNone, VNone)
  ∧ stdout (snd run) = [Text "Failed to get content current year and month"].
Proof.
  destruct (X5_content_current_page page_without_date rld_file_present)
    as (_ & _ & _ & _ & _ & Hresp).
  destruct (Hresp 404 "<html>Not found</html>" eq_refl)
    as (year & month & Hrun & _ & Habsent).
  destruct (Habsent eq_refl) as (-> & -> & Hout). split; [exact Hrun|exact Hout].
Defined.




(** ** The loop over the records *)

(** The name under which a URL is saved has no "/" in it. *)
Lemma url_filename_no_slash url : count_char "/" (url_filename url) = 0%nat.
Proof.
  unfold url_filename, str_split.
  pose proof (split_from_char_pieces "/" url EmptyString eq_refl) as Hpieces.
  destruct (last _) as [x|] eqn:Hlast; [|done].
  apply last_Some in Hlast as [l Hl]. rewrite Hl in Hpieces.
  rewrite Forall_app, Forall_singleton in Hpieces. by destruct Hpieces.
Qed.

Lemma follows_refl directory w : follows directory [] w w.
Proof.
  repeat split; try done. exists []. rewrite app_nil_r.
  repeat split; [done|cbn; lia|]. intros url Hurl. by apply elem_of_nil in Hurl.
Qed.

Lemma follows_cons directory active_ingredient rest w w1 w2 :
  follows directory [active_ingredient] w w1 → follows directory rest w1 w2 →
  follows directory (active_ingredient :: rest) w w2.
Proof.
  intros (Hled1 & (urls1 & Hreq1 & Hlen1 & Hatt1 & Hin1) & Hout1 & Hdir1)
         (Hled2 & (urls2 & Hreq2 & Hlen2 & Hatt2 & Hin2) & Hout2 & Hdir2).
  split; [auto|]. split; [|split].
  - exists (urls1 ++ urls2)%list. rewrite Hreq2, Hreq1, app_assoc, length_app.
    cbn [length] in *. repeat split; [lia|lia|].
    intros url [Hurl|Hurl]%elem_of_app.
    + destruct (Hin1 url Hurl) as (ai & Hai%list_elem_of_singleton & Hget).
      exists ai. split; [|done]. subst ai. apply elem_of_cons. by left.
    + destruct (Hin2 url Hurl) as (ai & Hai & Hget).
      exists ai. split; [|done]. apply elem_of_cons. by right.
  - intros path Hpath. by rewrite Hout2, Hout1.
  - auto.
Qed.

Lemma can_open_wb_not_dir f path : can_open_wb f path = true → f !! path ≠ Some Dir.
Proof.
  unfold can_open_wb. intros [_ Hnot]%andb_true_iff.
  apply negb_true_iff, bool_decide_eq_false in Hnot. done.
Qed.

(** One call of the find_updated_ais.py variant, whether it returns or
    raises. *)
Lemma find_updated_ais_download_follows E active_ingredient write_directory w :
  follows write_directory [active_ingredient] w
    (snd (find_updated_ais.download_specific_guidance_pdf E active_ingredient
            write_directory w)).
Proof.
  assert (Hsame : ∀ w' : world,
            fs w' = fs w → requests_made w' = requests_made w → attempts w' = attempts w →
            (∀ key, downloaded_rld_pdfs w !! key = Some true →
                    downloaded_rld_pdfs w' !! key = Some true) →
            follows write_directory [active_ingredient] w w').
  { intros w' Hfs Hreq Hatt Hled. split; [done|]. split; [|by rewrite Hfs].
    exists []. rewrite app_nil_r, Hatt. repeat split; [done|cbn; lia|cbn; lia|].
    intros url Hurl. by apply elem_of_nil in Hurl. }
  unfold find_updated_ais.download_specific_guidance_pdf, bind at 1, defaultdict_getitem.
  set (key := dict_get RLD_KEY active_ingredient).
  assert (Hmark : ∀ (b : bool) k,
            downloaded_rld_pdfs w !! key ≠ Some true →
            downloaded_rld_pdfs w !! k = Some true →
            <[key := b]> (downloaded_rld_pdfs w) !! k = Some true).
  { intros b k Hkey Hk. rewrite lookup_insert_ne; [done|]. intros <-. done. }
  destruct (downloaded_rld_pdfs w !! key) as [[|]|] eqn:Hkey; cbn [negb].
  - by apply Hsame.
  - destruct (dict_get PDF_URL_KEY active_ingredient) as [n|url| |text] eqn:Hurl;
      try (by apply Hsame).
    unfold bind at 1, lift. cbn [py_split rbind]. rewrite url_filename_item.
    unfold bind at 1. rewrite session_get_outcome.
    pose proof (get_outcome_attempts E default_session url (attempts w)) as Hatt.
    cbn [retry_total default_session] in Hatt.
    destruct (get_outcome E default_session url (attempts w)) as [[r|e] n'];
      cbn [fst snd] in *.
    + unfold open_wb_write, bind, ret, raise, defaultdict_setitem, print.
      cbn [fs with_attempts with_requests_made].
      destruct (can_open_wb (fs w) _) eqn:Hopen; cbn [fst snd].
      * split; [|split; [|split]].
        -- intros k Hk. cbn. apply Hmark; [congruence|done].
        -- exists [url]. cbn. repeat split; [lia|lia|].
           intros ? ->%list_elem_of_singleton. exists active_ingredient.
           split; [by apply list_elem_of_singleton|done].
        -- intros path Hpath. cbn. rewrite !lookup_insert_ne; [done| |];
             intros <-; apply Hpath; eexists; split; [done|apply url_filename_no_slash|
                                                      done|apply url_filename_no_slash].
        -- intros path Hpath. cbn. apply can_open_wb_not_dir in Hopen.
           rewrite !lookup_insert_ne; [done| |]; intros <-; done.
      * split; [done|]. split; [|done].
        exists [url]. cbn. repeat split; [lia|lia|].
        intros ? ->%list_elem_of_singleton. exists active_ingredient.
        split; [by apply list_elem_of_singleton|done].
    + split; [done|]. split; [|done].
      exists [url]. cbn. repeat split; [lia|lia|].
      intros ? ->%list_elem_of_singleton. exists active_ingredient.
      split; [by apply list_elem_of_singleton|done].
  - destruct (dict_get PDF_URL_KEY active_ingredient) as [n|url| |text] eqn:Hurl;
      try (apply Hsame; [done..|]; intros k Hk; cbn; apply Hmark; [congruence|done]).
    unfold bind at 1, lift. cbn [py_split rbind]. rewrite url_filename_item.
    unfold bind at 1. rewrite session_get_outcome.
    cbn [attempts requests_made with_downloaded_rld_pdfs].
    pose proof (get_outcome_attempts E default_session url (attempts w)) as Hatt.
    cbn [retry_total default_session] in Hatt.
    destruct (get_outcome E default_session url (attempts w)) as [[r|e] n'];
      cbn [fst snd] in *.
    + unfold open_wb_write, bind, ret, raise, defaultdict_setitem, print.
      cbn [fs with_attempts with_requests_made with_downloaded_rld_pdfs].
      destruct (can_open_wb (fs w) _) eqn:Hopen; cbn [fst snd].
      * split; [|split; [|split]].
        -- intros k Hk. cbn. rewrite insert_insert_eq. apply Hmark; [congruence|done].
        -- exists [url]. cbn. repeat split; [lia|lia|].
           intros ? ->%list_elem_of_singleton. exists active_ingredient.
           split; [by apply list_elem_of_singleton|done].
        -- intros path Hpath. cbn. rewrite !lookup_insert_ne; [done| |];
             intros <-; apply Hpath; eexists; split; [done|apply url_filename_no_slash|
                                                      done|apply url_filename_no_slash].
        -- intros path Hpath. cbn. apply can_open_wb_not_dir in Hopen.
           rewrite !lookup_insert_ne; [done| |]; intros <-; done.
      * split; [|split; [|done]].
        -- intros k Hk. cbn. apply Hmark; [congruence|done].
        -- exists [url]. cbn. repeat split; [lia|lia|].
           intros ? ->%list_elem_of_singleton. exists active_ingredient.
           split; [by apply list_elem_of_singleton|done].
    + split; [|split; [|done]].
      * intros k Hk. cbn. apply Hmark; [congruence|done].
      * exists [url]. cbn. repeat split; [lia|lia|].
        intros ? ->%list_elem_of_singleton. exists active_ingredient.
        split; [by apply list_elem_of_singleton|done].
Qed.

Lemma follows_same directory active_ingredients w w' :
  fs w' = fs w → requests_made w' = requests_made w → attempts w' = attempts w →
  (∀ key, downloaded_rld_pdfs w !! key = Some true →
          downloaded_rld_pdfs w' !! key = Some true) →
  follows directory active_ingredients w w'.
Proof.
  intros Hfs Hreq Hatt Hled. split; [done|]. split; [|by rewrite Hfs].
  exists []. rewrite app_nil_r, Hatt. repeat split; [done|cbn; lia|cbn; lia|].
  intros url Hurl. by apply elem_of_nil in Hurl.
Qed.

Lemma ai_is_of_interest_tag active_ingredient d rld_search_numbers b rld_type :
  ai_is_of_interest active_ingredient d rld_search_numbers = Ok (b, rld_type) →
  rld_type = rld_arg_type_of (dict_get RLD_KEY active_ingredient)
  ∧ b = any_of_interest (rld_values_of (dict_get RLD_KEY active_ingredient))
          rld_search_numbers.
Proof.
  unfold ai_is_of_interest, ai_updated_since.
  destruct (any_of_interest _ _); cbn [negb]; [|by intros [= <- <-]].
  destruct (ai_updated_date_of _) as [d'|e]; cbn [rbind]; [|done].
  destruct (date_ge d' d); by intros [= <- <-].
Qed.

(** The loop of [main] over the records, whether it ends or is left by
    an exception. *)
Lemma process_active_ingredients_follows E active_ingredients d rld_search_numbers
    directory_name t w :
  follows directory_name active_ingredients w
    (snd (process_active_ingredients E active_ingredients d rld_search_numbers
            directory_name t w)).
Proof.
  revert t w. induction active_ingredients as [|ai rest IH]; intros t w.
  - by apply follows_same.
  - cbn [process_active_ingredients]. unfold bind at 1, lift.
    destruct (ai_is_of_interest ai d rld_search_numbers) as [[b rld_type]|e];
      [|by apply follows_same].
    unfold bind at 1.
    pose proof (find_updated_ais_download_follows E ai directory_name w) as Hone.
    destruct b.
    + destruct (find_updated_ais.download_specific_guidance_pdf E ai directory_name w)
        as [[[]|e] w1]; cbn [snd] in Hone.
      * eapply follows_cons; [exact Hone|apply IH].
      * eapply follows_cons; [exact Hone|by apply follows_same].
    + unfold ret. eapply follows_cons; [by apply follows_same|apply IH].
Qed.

(** X7. The loop of [main] over the records, up to its end or to the
    exception that leaves it: a value marked in the ledger stays marked;
    the GET requests it issues are for URLs of the records, in order, at
    most one for each record, and each makes a single attempt (this
    variant never retries); the file system changes only at paths
    directly inside the run directory, and no directory is replaced. *)
Theorem X7_download_loop_effects (E : env) (active_ingredients : list (gmap string value))
    (current_updated_date : date) (rld_search_numbers : list string)
    (directory_name : string) (t : tally) (w : world) :
  let w' :=
    snd (process_active_ingredients E active_ingredients current_updated_date
           rld_search_numbers directory_name t w) in
  (∀ key, downloaded_rld_pdfs w !! key = Some true →
          downloaded_rld_pdfs w' !! key = Some true)
  ∧ (∃ urls, requests_made w' = (requests_made w ++ urls)%list
             ∧ (length urls ≤ length active_ingredients)%nat
             ∧ (attempts w' = attempts w + length urls)%nat
             ∧ ∀ url : string, url ∈ urls →
                 ∃ active_ingredient, active_ingredient ∈ active_ingredients
                   ∧ dict_get PDF_URL_KEY active_ingredient = VStr url)
  ∧ (∀ path,
       ¬ (∃ name, path = directory_name +:+ "/" +:+ name ∧ count_char "/" name = 0%nat) →
       fs w' !! path = fs w !! path)
  ∧ (∀ path, fs w !! path = Some Dir → fs w' !! path = Some Dir).
Proof.
  intros w'.
  destruct (process_active_ingredients_follows E active_ingredients current_updated_date
              rld_search_numbers directory_name t w) as (Hled & Hreq & Hout & Hdir).
  fold w' in Hled, Hreq, Hout, Hdir.
  split; [exact Hled|]. split; [exact Hreq|]. split; [exact Hout|exact Hdir].
Qed.

(** ** The tallies *)

Lemma count_tally_count t rld_type rld k :
  tally_count (count t rld_type rld) k
  = tally_count t k + (if decide (rld_type = k) then 1 else 0).
Proof.
  unfold tally_count, count. cbn [rld_type_counter].
  destruct (decide (rld_type = k)) as [->|Hne].
  - by rewrite lookup_insert_eq.
  - rewrite lookup_insert_ne by done. lia.
Qed.

Lemma count_tally_values t rld_type rld k :
  tally_values (count t rld_type rld) k
  = (tally_values t k ++ (if decide (rld_type = k) then [rld] else []))%list.
Proof.
  unfold tally_values, count. cbn [rld_type_lists].
  destruct (decide (rld_type = k)) as [->|Hne].
  - by rewrite lookup_insert_eq.
  - rewrite lookup_insert_ne by done. by rewrite app_nil_r.
Qed.

Lemma of_type_cons k ai rest :
  of_type k (ai :: rest)
  = if decide (rld_arg_type_of (dict_get RLD_KEY ai) = k)
    then ai :: of_type k rest else of_type k rest.
Proof. unfold of_type. by rewrite filter_cons. Qed.

Lemma of_type_lengths active_ingredients :
  (length (of_type "int" active_ingredients) + length (of_type "str" active_ingredients)
   + length (of_type "other" active_ingredients))%nat
  = length active_ingredients.
Proof.
  induction active_ingredients as [|ai rest IH]; [done|].
  rewrite !of_type_cons. cbn [length]. rewrite <-IH.
  destruct (dict_get RLD_KEY ai); cbn [rld_arg_type_of];
    repeat case_decide; try done; cbn [length]; lia.
Qed.

(** The tallies after the loop, tag by tag. *)
Lemma process_active_ingredients_tallies E active_ingredients current_updated_date
    rld_search_numbers directory_name t t' w w' :
  process_active_ingredients E active_ingredients current_updated_date rld_search_numbers
    directory_name t w = (Ok t', w') →
  (∀ k, tally_count t' k
        = tally_count t k + Z.of_nat (length (of_type k active_ingredients)))
  ∧ (∀ k, tally_values t' k
          = (tally_values t k ++ map (dict_get RLD_KEY) (of_type k active_ingredients))%list).
Proof.
  revert t w. induction active_ingredients as [|ai rest IH]; intros t w Hrun.
  - injection Hrun as <- _. split; intros k; [cbn; lia|by rewrite app_nil_r].
  - cbn [process_active_ingredients] in Hrun. unfold bind at 1, lift in Hrun.
    destruct (ai_is_of_interest ai current_updated_date rld_search_numbers)
      as [[b rld_type]|e] eqn:Hai; [|done].
    apply ai_is_of_interest_tag in Hai as [-> _].
    unfold bind at 1 in Hrun.
    destruct ((if b return M unit
               then find_updated_ais.download_specific_guidance_pdf E ai directory_name
               else ret tt) w) as [[[]|e] w1]; [|done].
    apply IH in Hrun as [Hcount Hvalues].
    split; intros k; rewrite of_type_cons.
    + rewrite Hcount, count_tally_count. case_decide; cbn [length]; lia.
    + rewrite Hvalues, count_tally_values. case_decide; [|by rewrite app_nil_r].
      by rewrite <-app_assoc.
Qed.

(** X8. When the loop of [main] over the records ends, each tally holds,
    for every tag, what it held before and the records of that tag: the
    counter has grown by their number and the list by their raw RLD
    values, in the order of the records, whether a record was of interest
    or not. The three counters together have grown by the number of
    records. *)
Theorem X8_tallies_cover_every_record (E : env)
    (active_ingredients : list (gmap string value)) (current_updated_date : date)
    (rld_search_numbers : list string) (directory_name : string) (t t' : tally)
    (w w' : world) :
  process_active_ingredients E active_ingredients current_updated_date rld_search_numbers
    directory_name t w = (Ok t', w') →
  (∀ k, tally_count t' k
        = tally_count t k + Z.of_nat (length (of_type k active_ingredients)))
  ∧ (∀ k, tally_values t' k
          = (tally_values t k ++ map (dict_get RLD_KEY) (of_type k active_ingredients))%list)
  ∧ tally_count t' "int" + tally_count t' "str" + tally_count t' "other"
    = tally_count t "int" + tally_count t "str" + tally_count t "other"
      + Z.of_nat (length active_ingredients).
Proof.
  intros Hrun.
  destruct (process_active_ingredients_tallies _ _ _ _ _ _ _ _ _ Hrun) as [Hcount Hvalues].
  split; [done|]. split; [done|].
  rewrite !Hcount, <-(of_type_lengths active_ingredients). lia.
Qed.

(** X9. Records none of which has a token in the interest list go
    through the loop without any effect on the state: nothing is
    requested, written, printed or marked, whatever their dates and URLs
    are, and the loop ends. *)
Theorem X9_records_of_no_interest (E : env) (active_ingredients : list (gmap string value))
    (current_updated_date : date) (rld_search_numbers : list string)
    (directory_name : string) (t : tally) (w : world) :
  (∀ active_ingredient, active_ingredient ∈ active_ingredients →
     ∀ token : string, token ∈ rld_values_of (dict_get RLD_KEY active_ingredient) →
       token ∉ rld_search_numbers) →
  ∃ t', process_active_ingredients E active_ingredients current_updated_date
          rld_search_numbers directory_name t w = (Ok t', w).
Proof.
  revert t. induction active_ingredients as [|ai rest IH]; intros t Hnone.
  - by eexists.
  - cbn [process_active_ingredients]. unfold bind at 1, lift.
    assert (Hai : any_of_interest (rld_values_of (dict_get RLD_KEY ai)) rld_search_numbers
                  = false).
    { apply any_of_interest_false. apply Hnone, elem_of_cons. by left. }
    unfold ai_is_of_interest. rewrite Hai. cbn [negb]. unfold bind at 1, ret.
    apply IH. intros ai' Hin. apply Hnone, elem_of_cons. by right.
Qed.

Lemma X9_records_of_no_interest_witness :
  ∃ t', process_active_ingredients (offline (mkdate 2024 5 1) [])
          [record_12345 (VStr "not a date"); record_12345 VNone] (mkdate 2024 2 1) ["99999"]
          "2024-05-01-run-1" {| rld_type_counter := ∅; rld_type_lists := ∅ |} run_1_present
        = (Ok t', run_1_present).
Proof.
  apply X9_records_of_no_interest.
  intros ai Hai token Htoken Hin.
  apply elem_of_cons in Hin as [->|Hin]; [|by apply elem_of_nil in Hin].
  apply elem_of_cons in Hai as [->|Hai];
    [|apply elem_of_cons in Hai as [->|Hai]; [|by apply elem_of_nil in Hai]];
    vm_compute in Htoken;
    (apply elem_of_cons in Htoken as [?|Htoken]; [done|]);
    (apply elem_of_cons in Htoken as [?|Htoken]; [done|]);
    by apply elem_of_nil in Htoken.
Defined.

Lemma X8_tallies_cover_every_record_witness :
  let run :=
    process_active_ingredients (online (mkdate 2024 5 1) [] 200 "%PDF-1.4")
      [record_12345 (VStr "03/2024"); {[RLD_KEY := VInt 21234]}] (mkdate 2024 2 1)
      ["12345"] "2024-05-01-run-1" {| rld_type_counter := ∅; rld_type_lists := ∅ |}
      run_1_present in
  ∃ t', fst run = Ok t'
        ∧ tally_count t' "str" = 1 ∧ tally_count t' "int" = 1
        ∧ tally_values t' "str" = [VStr "12345 67890"].
Proof.
  intros run. destruct run as [[t'|e] w'] eqn:Hrun; [|by vm_compute in Hrun].
  exists t'. split; [done|].
  destruct (X8_tallies_cover_every_record _ _ _ _ _ _ _ _ _ Hrun) as (Hcount & Hvalues & _).
  rewrite !Hcount, Hvalues. by vm_compute.
Defined.

(** ** More on the run directory *)

(** X10. When the first run name of the day that is not a directory is
    borne by a regular file, [create_output_directory] raises
    [FileExistsError] out of [os.mkdir]: no directory is made, nothing is
    printed and the file is left as it is. *)
Theorem X10_run_name_taken_by_file (E : env) (w : world) (N : Z) (content : string) :
  let name n := directory_name_format (year (today E)) (month (today E)) (day (today E)) n in
  1 ≤ N →
  (∀ k, 1 ≤ k < N → fs w !! name k = Some Dir) →
  fs w !! name N = Some (File content) →
  common.create_output_directory E w = (Raise FileExistsError, w).
Proof.
  intros name HN Hbelow Hfile.
  destruct (create_output_directory_outcome E w) as (N' & HN' & Hbelow' & Hnot & Hrun).
  change (∀ k, 1 ≤ k < N' → fs w !! name k = Some Dir) in Hbelow'.
  change (fs w !! name N' ≠ Some Dir) in Hnot.
  change (directory_name_format _ _ _ N') with (name N') in Hrun.
  assert (N' = N) as ->.
  { destruct (Z.lt_trichotomy N' N) as [Hlt|[Heq|Hgt]]; [|done|].
    - destruct Hnot. apply Hbelow. lia.
    - assert (fs w !! name N = Some Dir) by (apply Hbelow'; lia). congruence. }
  by rewrite Hfile in Hrun.
Qed.

Lemma X10_run_name_taken_by_file_witness :
  common.create_output_directory (offline (mkdate 2024 5 1) []) run_1_is_a_file
  = (Raise FileExistsError, run_1_is_a_file).
Proof.
  apply (X10_run_name_taken_by_file (offline (mkdate 2024 5 1) []) run_1_is_a_file 1 "notes").
  - lia.
  - intros k Hk. lia.
  - by vm_compute.
Defined.

(** X11. Two calls of [create_output_directory] in a row, on the same
    day: when the first call returns a name, the second never returns the
    same one. The directory the first call made is still there after the
    second, whether the second returns or raises; a name the second call
    returns is that of a directory it made, which nothing bore before the
    first call; and when the name with the next number was free before the
    first call, the second call makes the directory of that name. *)
Theorem X11_two_runs_two_directories (E : env) (w w1 : world) (directory_name : string) :
  let name n := directory_name_format (year (today E)) (month (today E)) (day (today E)) n in
  let second := common.create_output_directory E w1 in
  common.create_output_directory E w = (Ok directory_name, w1) →
  fst second ≠ Ok directory_name
  ∧ fs (snd second) !! directory_name = Some Dir
  ∧ (∀ second_name, fst second = Ok second_name →
       fs (snd second) !! second_name = Some Dir ∧ fs w !! second_name = None)
  ∧ (∀ N, directory_name = name N → fs w !! name (N + 1) = None →
       fst second = Ok (name (N + 1))).
Proof.
  intros name second Hfirst. subst second.
  destruct (create_output_directory_outcome E w) as (N & HN & Hbelow & Hnot & Hrun).
  change (∀ k, 1 ≤ k < N → fs w !! name k = Some Dir) in Hbelow.
  change (fs w !! name N ≠ Some Dir) in Hnot.
  change (directory_name_format _ _ _ N) with (name N) in Hrun.
  rewrite Hfirst in Hrun.
  destruct (fs w !! name N) as [nd|] eqn:HNone; [done|].
  injection Hrun as -> ->.
  set (w1 := with_stdout _ _).
  assert (Hfs1 : fs w1 = <[name N := Dir]> (fs w)) by done.
  destruct (create_output_directory_outcome E w1) as (M & HM & Hbelow1 & Hnot1 & Hrun1).
  change (∀ k, 1 ≤ k < M → fs w1 !! name k = Some Dir) in Hbelow1.
  change (fs w1 !! name M ≠ Some Dir) in Hnot1.
  change (directory_name_format _ _ _ M) with (name M) in Hrun1.
  assert (HMN : M ≠ N).
  { intros ->. apply Hnot1. by rewrite Hfs1, lookup_insert_eq. }
  assert (Hname : name M ≠ name N).
  { intros Heq. by apply directory_name_format_inj in Heq. }
  rewrite Hrun1. split; [|split; [|split]].
  - destruct (fs w1 !! name M); cbn [fst]; [done|]. intros [= Heq]. done.
  - destruct (fs w1 !! name M); cbn [snd fs with_stdout with_fs].
    + by rewrite Hfs1, lookup_insert_eq.
    + rewrite lookup_insert_ne by done. by rewrite Hfs1, lookup_insert_eq.
  - intros second_name. destruct (fs w1 !! name M) eqn:HM1; cbn [fst snd]; [done|].
    intros [= <-]. cbn [fs with_stdout with_fs]. split; [by rewrite lookup_insert_eq|].
    by rewrite Hfs1, lookup_insert_ne in HM1.
  - intros N' HN' Hnext. apply directory_name_format_inj in HN' as <-.
    assert (Hnext1 : fs w1 !! name (N + 1) = None).
    { rewrite Hfs1, lookup_insert_ne; [done|].
      intros Heq%directory_name_format_inj. lia. }
    assert (M = N + 1) as ->.
    { destruct (Z.lt_trichotomy M (N + 1)) as [Hlt|[Heq|Hgt]]; [|done|].
      - destruct Hnot1. rewrite Hfs1, lookup_insert_ne by done. apply Hbelow. lia.
      - assert (fs w1 !! name (N + 1) = Some Dir) by (apply Hbelow1; lia). congruence. }
    by rewrite Hnext1.
Qed.

Lemma X11_two_runs_two_directories_witness :
  let E := offline (mkdate 2024 5 1) [] in
  let w1 := snd (common.create_output_directory E run_5_is_a_file) in
  fst (common.create_output_directory E run_5_is_a_file) = Ok "2024-05-01-run-2"
  ∧ fst (common.create_output_directory E w1) = Ok "2024-05-01-run-3".
Proof.
  cbn zeta. split; [by vm_compute|].
  destruct (X11_two_runs_two_directories (offline (mkdate 2024 5 1) []) run_5_is_a_file
              (snd (common.create_output_directory (offline (mkdate 2024 5 1) [])
                      run_5_is_a_file))
              "2024-05-01-run-2") as (_ & _ & _ & Hnext); [by vm_compute|].
  exact (Hnext 2 eq_refl eq_refl).
Defined.

(** ** More on the retrieval *)

Lemma get_outcome_response E http url n status body :
  transport E url n = Response status body →
  get_outcome E http url n
  = if assert_status_hook http && (400 <=? status) && (status <? 600)
    then (Raise (RequestsError HTTPError), S n)
    else (Ok {| status_code := status; content := body |}, S n).
Proof.
  intros Hnet. unfold get_outcome.
  assert (Hsend : send_outcome E url (retry_total http) n
                  = (Ok {| status_code := status; content := body |}, S n)).
  { destruct (retry_total http); cbn [send_outcome]; by rewrite Hnet. }
  by rewrite Hsend.
Qed.

(** X12. [download_single_pdf] on a response that is not an error (status
    below 400 or from 600 on), with a path that can be opened: one
    attempt is made, the body is saved under the last segment of the URL,
    directly inside the directory given (the segment has no "/"),
    replacing what a file of that name held; the message is printed; no
    other path changes. *)
Theorem X12_download_single_pdf_saves (E : env) (url write_directory : string) (w : world)
    (status : Z) (body : string) :
  let path := write_directory +:+ "/" +:+ url_filename url in
  let run := download_single_pdf E (VStr url) write_directory w in
  transport E url (attempts w) = Response status body →
  ¬ 400 ≤ status < 600 →
  can_open_wb (fs w) path = true →
  fst run = Ok tt
  ∧ fs (snd run) !! path = Some (File body)
  ∧ (∀ other, other ≠ path → fs (snd run) !! other = fs w !! other)
  ∧ stdout (snd run) = (stdout w ++ [Text ("Writing to file: " +:+ path)])%list
  ∧ attempts (snd run) = S (attempts w)
  ∧ requests_made (snd run) = (requests_made w ++ [url])%list
  ∧ count_char "/" (url_filename url) = 0%nat.
Proof.
  intros path run Hnet Hstatus Hopen. subst run.
  rewrite download_single_pdf_string, (get_outcome_response _ _ _ _ _ _ Hnet).
  fold path. cbn [http_session assert_status_hook andb].
  assert ((400 <=? status) && (status <? 600) = false) as -> by
    (apply andb_false_iff; lia).
  cbn [fst snd content]. rewrite Hopen. cbn [fst snd fs stdout attempts requests_made].
  split; [done|]. split; [by rewrite lookup_insert_eq|]. split.
  - intros other Hother. by rewrite !lookup_insert_ne.
  - repeat split; try done. apply url_filename_no_slash.
Qed.

Lemma X12_download_single_pdf_saves_witness :
  let run :=
    download_single_pdf (online (mkdate 2024 5 1) [] 200 "%PDF-1.4") (VStr guidance_url)
      "2024-05-01-run-1" run_1_present in
  fst run = Ok tt
  ∧ fs (snd run) !! "2024-05-01-run-1/PSG_012345.pdf" = Some (File "%PDF-1.4").
Proof.
  destruct (X12_download_single_pdf_saves (online (mkdate 2024 5 1) [] 200 "%PDF-1.4")
              guidance_url "2024-05-01-run-1" run_1_present 200 "%PDF-1.4")
    as (Hok & Hfile & _); [done|lia|by vm_compute|].
  split; [exact Hok|exact Hfile].
Defined.

Lemma url_filename_trailing_slash url : url_filename (url +:+ "/") = EmptyString.
Proof.
  unfold url_filename, str_split. by rewrite split_from_char_last.
Qed.

Lemma can_open_wb_empty_name f directory :
  can_open_wb f (directory +:+ "/" +:+ EmptyString) = false.
Proof.
  unfold can_open_wb, str_split.
  change (directory +:+ "/" +:+ EmptyString) with (directory +:+ "/").
  rewrite split_from_char_last. cbn [default].
  rewrite (bool_decide_eq_true_2 (EmptyString ∈ [EmptyString; "."; ".."]));
    [done|apply elem_of_cons; by left].
Qed.

(** X13. A URL that ends in "/" has an empty last segment: when the
    response is not an error, the file cannot be opened under the name of
    the directory itself, and the [OSError] of [open], which no clause
    catches, leaves [download_single_pdf] after the request was made;
    nothing is written or printed. *)
Theorem X13_trailing_slash_raises (E : env) (url write_directory : string) (w : world)
    (status : Z) (body : string) :
  let run := download_single_pdf E (VStr (url +:+ "/")) write_directory w in
  transport E (url +:+ "/") (attempts w) = Response status body →
  ¬ 400 ≤ status < 600 →
  fst run = Raise OSError
  ∧ fs (snd run) = fs w ∧ stdout (snd run) = stdout w
  ∧ requests_made (snd run) = (requests_made w ++ [url +:+ "/"])%list.
Proof.
  intros run Hnet Hstatus. subst run.
  rewrite download_single_pdf_string, (get_outcome_response _ _ _ _ _ _ Hnet).
  cbn [http_session assert_status_hook andb].
  assert ((400 <=? status) && (status <? 600) = false) as -> by
    (apply andb_false_iff; lia).
  cbn [fst snd content]. rewrite url_filename_trailing_slash, can_open_wb_empty_name.
  done.
Qed.

Lemma X13_trailing_slash_raises_witness :
  fst (download_single_pdf (online (mkdate 2024 5 1) [] 200 "<html></html>")
         (VStr "https://www.accessdata.fda.gov/drugsatfda_docs/psg/") "2024-05-01-run-1"
         run_1_present)
  = Raise OSError.
Proof.
  refine (proj1 (X13_trailing_slash_raises (online (mkdate 2024 5 1) [] 200 "<html></html>")
                   "https://www.accessdata.fda.gov/drugsatfda_docs/psg" "2024-05-01-run-1"
                   run_1_present 200 "<html></html>" _ _)); [done|lia].
Defined.

(** X14. On an error response (status 400 to 599) for a record whose key
    is not yet marked, the two variants of
    [download_specific_guidance_pdf] part. The one of common.py writes
    nothing, and marks the key all the same before it raises [NameError].
    The one of find_updated_ais.py does not look at the status: when the
    file can be opened for writing, it saves the body of the error page
    under the name of the PDF, marks the key and returns; when it cannot
    (the directory is missing, for instance), the [OSError] of [open]
    leaves the call, nothing is written and the key is left [False]. *)
Theorem X14_error_page_saved_as_pdf (E : env) (active_ingredient : gmap string value)
    (write_directory url : string) (w : world) (status : Z) (body : string) :
  let key := dict_get RLD_KEY active_ingredient in
  let path := write_directory +:+ "/" +:+ url_filename url in
  let original :=
    find_updated_ais.download_specific_guidance_pdf E active_ingredient write_directory w in
  let adapted :=
    common.download_specific_guidance_pdf E active_ingredient write_directory w in
  downloaded_rld_pdfs w !! key ≠ Some true →
  dict_get PDF_URL_KEY active_ingredient = VStr url →
  transport E url (attempts w) = Response status body →
  400 ≤ status < 600 →
  (fst adapted = Raise (NameError "filename")
   ∧ fs (snd adapted) = fs w
   ∧ downloaded_rld_pdfs (snd adapted) !! key = Some true)
  ∧ (can_open_wb (fs w) path = true →
     fst original = Ok tt
     ∧ fs (snd original) !! path = Some (File body)
     ∧ downloaded_rld_pdfs (snd original) !! key = Some true)
  ∧ (can_open_wb (fs w) path = false →
     fst original = Raise OSError
     ∧ fs (snd original) = fs w
     ∧ downloaded_rld_pdfs (snd original) !! key = Some false).
Proof.
  intros key path original adapted Hunseen Hurl Hnet Hstatus. split.
  - destruct (common_download_unseen E active_ingredient write_directory w url
                Hunseen Hurl) as (_ & _ & Hcases).
    rewrite (get_outcome_response _ _ _ _ _ _ Hnet) in Hcases.
    cbn [http_session assert_status_hook andb] in Hcases.
    assert ((400 <=? status) && (status <? 600) = true) as Herr by
      (apply andb_true_iff; lia).
    rewrite Herr in Hcases. cbn [fst] in Hcases. fold adapted key in Hcases.
    destruct Hcases as (Hname & Hmark & Hfs). done.
  - destruct (find_updated_ais_download_unseen E active_ingredient write_directory w url
                Hunseen Hurl) as (_ & _ & Hcases).
    rewrite (get_outcome_response _ _ _ _ _ _ Hnet) in Hcases.
    cbn [default_session assert_status_hook andb fst content] in Hcases.
    fold path original key in Hcases.
    split; intros Hopen; rewrite Hopen in Hcases; destruct Hcases as (Hok & Hmark & Hfs).
    + rewrite Hfs, lookup_insert_eq. done.
    + done.
Qed.

Lemma X14_error_page_saved_as_pdf_witness :
  let E := online (mkdate 2024 5 1) [] 404 "<html>Not found</html>" in
  let saved :=
    find_updated_ais.download_specific_guidance_pdf E (record_12345 (VStr "03/2024"))
      "2024-05-01-run-1" run_1_present in
  let refused :=
    find_updated_ais.download_specific_guidance_pdf E (record_12345 (VStr "03/2024"))
      "2024-05-01-run-2" run_1_present in
  (fst saved = Ok tt
   ∧ fs (snd saved) !! "2024-05-01-run-1/PSG_012345.pdf"
     = Some (File "<html>Not found</html>")
   ∧ downloaded_rld_pdfs (snd saved) !! VStr "12345 67890" = Some true)
  ∧ (fst refused = Raise OSError
     ∧ fs (snd refused) = fs run_1_present
     ∧ downloaded_rld_pdfs (snd refused) !! VStr "12345 67890" = Some false).
Proof.
  split.
  - refine (proj1 (proj2 (X14_error_page_saved_as_pdf
                     (online (mkdate 2024 5 1) [] 404 "<html>Not found</html>")
                     (record_12345 (VStr "03/2024")) "2024-05-01-run-1" guidance_url
                     run_1_present 404 "<html>Not found</html>" _ _ _ _)) _);
      [by vm_compute|by vm_compute|done|lia|by vm_compute].
  - refine (proj2 (proj2 (X14_error_page_saved_as_pdf
                     (online (mkdate 2024 5 1) [] 404 "<html>Not found</html>")
                     (record_12345 (VStr "03/2024")) "2024-05-01-run-2" guidance_url
                     run_1_present 404 "<html>Not found</html>" _ _ _ _)) _);
      [by vm_compute|by vm_compute|done|lia|by vm_compute].
Defined.

(** ** download_all_pdfs.py *)

(** One call of [download_single_pdf], whether it returns or raises. *)
Lemma download_single_pdf_step E url write_directory w :
  let run := download_single_pdf E url write_directory w in
  match url with
  | VStr u =>
      requests_made (snd run) = (requests_made w ++ [u])%list
      ∧ (fst run = Ok tt ∨ fst run = Raise OSError)
  | _ => run = (Raise AttributeError, w)
  end
  ∧ (attempts w ≤ attempts (snd run) ≤ attempts w + 6)%nat
  ∧ downloaded_rld_pdfs (snd run) = downloaded_rld_pdfs w
  ∧ (∀ path, ¬ directly_inside write_directory path → fs (snd run) !! path = fs w !! path)
  ∧ (∀ path, fs w !! path = Some Dir → fs (snd run) !! path = Some Dir).
Proof.
  intros run. subst run.
  destruct url as [n|u| |text];
    try (unfold download_single_pdf, bind, lift; cbn [py_split rbind fst snd];
         repeat split; (done || lia)).
  rewrite download_single_pdf_string.
  pose proof (get_outcome_attempts E http_session u (attempts w)) as Hatt.
  cbn [retry_total http_session] in Hatt.
  destruct (get_outcome E http_session u (attempts w)) as [[r|e] n']; cbn [fst snd] in *.
  - destruct (can_open_wb (fs w) _) eqn:Hopen; cbn [fst snd fs attempts requests_made
                                                       downloaded_rld_pdfs].
    + split; [auto|]. split; [lia|]. split; [done|]. split.
      * intros path Hpath. rewrite !lookup_insert_ne; [done| |];
          intros <-; apply Hpath; eexists; split; [done|apply url_filename_no_slash|
                                                   done|apply url_filename_no_slash].
      * intros path Hpath. apply can_open_wb_not_dir in Hopen.
        rewrite !lookup_insert_ne; [done| |]; intros <-; done.
    + split; [auto|]. split; [lia|]. done.
  - cbn [fst snd fs attempts requests_made downloaded_rld_pdfs].
    split; [auto|]. split; [lia|]. done.
Qed.

Lemma download_active_ingredients_state E active_ingredients directory_name w :
  let w' := snd (download_all_pdfs.download_active_ingredients E active_ingredients
                   directory_name w) in
  (attempts w ≤ attempts w' ≤ attempts w + 6 * length active_ingredients)%nat
  ∧ downloaded_rld_pdfs w' = downloaded_rld_pdfs w
  ∧ (∀ path, ¬ directly_inside directory_name path → fs w' !! path = fs w !! path)
  ∧ (∀ path, fs w !! path = Some Dir → fs w' !! path = Some Dir).
Proof.
  revert w. induction active_ingredients as [|ai rest IH]; intros w.
  - cbn. repeat split; (done || lia).
  - cbn zeta.
    destruct (download_all_pdfs.download_active_ingredients E (ai :: rest) directory_name w)
      as [res w'] eqn:Hrun.
    cbn [download_all_pdfs.download_active_ingredients] in Hrun.
    unfold bind at 1, print in Hrun. unfold bind at 1 in Hrun.
    set (w0 := with_stdout _ w) in Hrun.
    destruct (download_single_pdf_step E (dict_get PDF_URL_KEY ai) directory_name w0)
      as (_ & Hatt & Hled & Hout & Hdir).
    change (attempts w0) with (attempts w) in Hatt.
    change (downloaded_rld_pdfs w0) with (downloaded_rld_pdfs w) in Hled.
    change (fs w0) with (fs w) in Hout, Hdir.
    destruct (download_single_pdf E (dict_get PDF_URL_KEY ai) directory_name w0)
      as [[[]|e] w1]; cbn [snd length] in *.
    + specialize (IH w1). rewrite Hrun in IH. cbn [snd] in IH.
      destruct IH as (Hatt' & Hled' & Hout' & Hdir').
      split; [lia|]. split; [congruence|]. split.
      * intros path Hpath. by rewrite Hout', Hout.
      * intros path Hpath. by apply Hdir', Hdir.
    + injection Hrun as _ <-. split; [lia|]. done.
Qed.

Lemma download_active_ingredients_result E active_ingredients directory_name w :
  let run := download_all_pdfs.download_active_ingredients E active_ingredients
               directory_name w in
  (fst run = Ok tt ∨ fst run = Raise AttributeError ∨ fst run = Raise OSError)
  ∧ (fst run = Ok tt →
       ∃ urls, map (dict_get PDF_URL_KEY) active_ingredients = map VStr urls
               ∧ requests_made (snd run) = (requests_made w ++ urls)%list).
Proof.
  revert w. induction active_ingredients as [|ai rest IH]; intros w.
  - cbn. split; [auto|]. intros _. exists []. by rewrite app_nil_r.
  - cbn zeta.
    destruct (download_all_pdfs.download_active_ingredients E (ai :: rest) directory_name w)
      as [res w'] eqn:Hrun.
    cbn [download_all_pdfs.download_active_ingredients] in Hrun.
    unfold bind at 1, print in Hrun. unfold bind at 1 in Hrun.
    set (w0 := with_stdout _ w) in Hrun.
    pose proof (download_single_pdf_step E (dict_get PDF_URL_KEY ai) directory_name w0)
      as [Hstep _].
    destruct (dict_get PDF_URL_KEY ai) as [n|u| |text] eqn:Hurl;
      try (rewrite Hstep in Hrun; injection Hrun as <- <-; cbn [fst snd];
           split; [auto|done]).
    destruct Hstep as [Hreq Hres].
    change (requests_made w0) with (requests_made w) in Hreq.
    destruct (download_single_pdf E (VStr u) directory_name w0) as [[[]|e] w1];
      cbn [fst snd] in *.
    + specialize (IH w1). rewrite Hrun in IH. cbn [fst snd] in IH.
      destruct IH as [Hkind Hok]. split; [done|]. intros Hres'.
      destruct (Hok Hres') as (urls & Hurls & Hreqs). exists (u :: urls).
      cbn [map]. rewrite Hurl, Hurls, Hreqs, Hreq, <-app_assoc. done.
    + injection Hrun as <- <-. split; [|done]. destruct Hres as [?|Hres]; [done|auto].
Qed.

(** X15. The loop of download_all_pdfs.py over the records keeps no
    ledger: when it ends, it has issued one GET for every record, in
    order, for the same URL as often as it occurs. The only exceptions
    that leave it are [AttributeError] (a record whose URL is not a string,
    which stops the loop at the first such record) and [OSError] (a file
    that cannot be opened); no request exception does. It makes at most
    6 attempts for each record, and changes the file system only at paths
    directly inside the directory, never replacing a directory. *)
Theorem X15_download_all_records (E : env) (active_ingredients : list (gmap string value))
    (directory_name : string) (w : world) :
  let run := download_all_pdfs.download_active_ingredients E active_ingredients
               directory_name w in
  (fst run = Ok tt ∨ fst run = Raise AttributeError ∨ fst run = Raise OSError)
  ∧ (fst run = Ok tt →
       ∃ urls, map (dict_get PDF_URL_KEY) active_ingredients = map VStr urls
               ∧ requests_made (snd run) = (requests_made w ++ urls)%list)
  ∧ (∀ active_ingredient rest,
       active_ingredients = active_ingredient :: rest →
       (∀ url, dict_get PDF_URL_KEY active_ingredient ≠ VStr url) →
       fst run = Raise AttributeError ∧ requests_made (snd run) = requests_made w)
  ∧ (attempts (snd run) ≤ attempts w + 6 * length active_ingredients)%nat
  ∧ downloaded_rld_pdfs (snd run) = downloaded_rld_pdfs w
  ∧ (∀ path,
       ¬ (∃ name, path = directory_name +:+ "/" +:+ name ∧ count_char "/" name = 0%nat) →
       fs (snd run) !! path = fs w !! path)
  ∧ (∀ path, fs w !! path = Some Dir → fs (snd run) !! path = Some Dir).
Proof.
  intros run.
  destruct (download_active_ingredients_result E active_ingredients directory_name w)
    as [Hkind Hok].
  destruct (download_active_ingredients_state E active_ingredients directory_name w)
    as (Hatt & Hled & Hout & Hdir).
  fold run in Hkind, Hok, Hatt, Hled, Hout, Hdir.
  split; [exact Hkind|]. split; [exact Hok|]. split; [|split; [lia|done]].
  intros ai rest -> Hurl. clear Hkind Hok Hatt Hled Hout Hdir.
  destruct run as [res w'] eqn:Hrun. subst run.
  cbn [download_all_pdfs.download_active_ingredients] in Hrun.
  unfold bind at 1, print in Hrun. unfold bind at 1 in Hrun.
  destruct (dict_get PDF_URL_KEY ai) as [n|u| |text];
    [|by destruct (Hurl u)| |]; by injection Hrun as <- <-.
Qed.

Lemma X15_download_all_records_witness :
  let run :=
    download_all_pdfs.download_active_ingredients (online (mkdate 2024 5 1) [] 200 "%PDF-1.4")
      [record_12345 (VStr "03/2024"); record_12345 (VStr "04/2024")] "2024-05-01-run-1"
      run_1_present in
  fst run = Ok tt ∧ requests_made (snd run) = [guidance_url; guidance_url].
Proof.
  intros run.
  assert (Hok : fst run = Ok tt) by by vm_compute.
  split; [exact Hok|].
  destruct (X15_download_all_records (online (mkdate 2024 5 1) [] 200 "%PDF-1.4")
              [record_12345 (VStr "03/2024"); record_12345 (VStr "04/2024")]
              "2024-05-01-run-1" run_1_present) as (_ & Hreq & _).
  destruct (Hreq Hok) as (urls & Hurls & Hmade). fold run in Hmade. rewrite Hmade.
  destruct urls as [|u1 [|u2 [|u3 urls]]]; try discriminate Hurls.
  vm_compute in Hurls. by injection Hurls as <- <-.
Defined.

(** ** The letter pages *)

Lemma find_updated_ais_read_pages E letters active_ingredients w :
  let run := find_updated_ais.read_active_ingredients E letters active_ingredients w in
  fs (snd run) = fs w ∧ requests_made (snd run) = requests_made w
  ∧ attempts (snd run) = attempts w
  ∧ downloaded_rld_pdfs (snd run) = downloaded_rld_pdfs w
  ∧ ((∀ letter : string, letter ∈ letters →
        ∃ psg_tables, read_html E (PSG_WITH_LETTER_URL letter) = Ok psg_tables) →
     fst run
     = Ok (active_ingredients
           ++ concat (map (λ letter, concat (tables_of E letter)) letters))%list
     ∧ stdout (snd run) = (stdout w ++ looking_at letters)%list).
Proof.
  revert active_ingredients w. induction letters as [|letter rest IH]; intros acc w.
  - cbn. rewrite !app_nil_r. done.
  - cbn zeta.
    destruct (find_updated_ais.read_active_ingredients E (letter :: rest) acc w)
      as [res w'] eqn:Hrun.
    cbn [find_updated_ais.read_active_ingredients] in Hrun.
    unfold bind at 1, print in Hrun. unfold bind at 1, lift in Hrun.
    unfold tables_of at 1. cbn [map concat looking_at].
    destruct (read_html E (PSG_WITH_LETTER_URL letter)) as [psg_tables|e] eqn:Hpage.
    + specialize (IH (acc ++ concat psg_tables)%list (with_stdout
        (stdout w ++ [Text ("Looking at active ingredients beginning with " +:+ letter)]) w)).
      rewrite Hrun in IH. cbn [fst snd fs requests_made attempts downloaded_rld_pdfs
                                stdout with_stdout] in IH.
      destruct IH as (Hfs & Hreq & Hatt & Hled & Hok). cbn [fst snd].
      split; [done|]. split; [done|]. split; [done|]. split; [done|].
      intros Hall. destruct Hok as [-> ->].
      { intros l Hl. apply Hall, elem_of_cons. by right. }
      fold (looking_at rest). by rewrite <-!app_assoc.
    + injection Hrun as <- <-. cbn [fst snd fs requests_made attempts downloaded_rld_pdfs
                                    with_stdout].
      split; [done|]. split; [done|]. split; [done|]. split; [done|].
      intros Hall. destruct (Hall letter) as [psg_tables Hpage'];
        [apply elem_of_cons; by left|congruence].
Qed.

Lemma download_all_pdfs_read_pages E letters active_ingredients w :
  let run := download_all_pdfs.read_active_ingredients E letters active_ingredients w in
  fs (snd run) = fs w ∧ requests_made (snd run) = requests_made w
  ∧ attempts (snd run) = attempts w
  ∧ downloaded_rld_pdfs (snd run) = downloaded_rld_pdfs w
  ∧ ((∀ letter : string, letter ∈ letters →
        ∃ first_table others,
          read_html E (PSG_WITH_LETTER_URL letter) = Ok (first_table :: others)) →
     fst run
     = Ok (active_ingredients
           ++ concat (map (λ letter, default [] (head (tables_of E letter))) letters))%list
     ∧ stdout (snd run) = (stdout w ++ looking_at letters)%list).
Proof.
  revert active_ingredients w. induction letters as [|letter rest IH]; intros acc w.
  - cbn. rewrite !app_nil_r. done.
  - cbn zeta.
    destruct (download_all_pdfs.read_active_ingredients E (letter :: rest) acc w)
      as [res w'] eqn:Hrun.
    cbn [download_all_pdfs.read_active_ingredients] in Hrun.
    unfold bind at 1, print in Hrun. unfold bind at 1, lift in Hrun.
    unfold tables_of at 1. cbn [map concat looking_at].
    destruct (read_html E (PSG_WITH_LETTER_URL letter)) as [[|first others]|e] eqn:Hpage.
    + injection Hrun as <- <-. cbn [fst snd fs requests_made attempts downloaded_rld_pdfs
                                    with_stdout].
      split; [done|]. split; [done|]. split; [done|]. split; [done|].
      intros Hall. destruct (Hall letter) as (first & others & Hpage');
        [apply elem_of_cons; by left|congruence].
    + unfold bind at 1 in Hrun. cbn [list_item lookup list_lookup] in Hrun.
      specialize (IH (acc ++ first)%list (with_stdout
        (stdout w ++ [Text ("Looking at active ingredients beginning with " +:+ letter)]) w)).
      rewrite Hrun in IH. cbn [fst snd fs requests_made attempts downloaded_rld_pdfs
                                stdout with_stdout] in IH.
      destruct IH as (Hfs & Hreq & Hatt & Hled & Hok). cbn [fst snd].
      split; [done|]. split; [done|]. split; [done|]. split; [done|].
      intros Hall. destruct Hok as [-> ->].
      { intros l Hl. apply Hall, elem_of_cons. by right. }
      fold (looking_at rest). cbn [head default]. by rewrite <-!app_assoc.
    + injection Hrun as <- <-. cbn [fst snd fs requests_made attempts downloaded_rld_pdfs
                                    with_stdout].
      split; [done|]. split; [done|]. split; [done|]. split; [done|].
      intros Hall. destruct (Hall letter) as (first & others & Hpage');
        [apply elem_of_cons; by left|congruence].
Qed.

(** X16. Reading the letter pages changes nothing but the standard
    output, in both programs. When every page yields tables,
    find_updated_ais.py collects the records of all the tables of every
    page, in the order of the letters and of the tables, and prints one
    line for each letter; download_all_pdfs.py collects the records of the
    first table of every page only. *)
Theorem X16_letter_pages (E : env) (letters : list string)
    (active_ingredients : list (gmap string value)) (w : world) :
  let every := find_updated_ais.read_active_ingredients E letters active_ingredients w in
  let first := download_all_pdfs.read_active_ingredients E letters active_ingredients w in
  (∀ letter : string, letter ∈ letters →
     ∃ first_table others,
       read_html E (PSG_WITH_LETTER_URL letter) = Ok (first_table :: others)) →
  fst every
  = Ok (active_ingredients
        ++ concat (map (λ letter, concat (tables_of E letter)) letters))%list
  ∧ fst first
    = Ok (active_ingredients
          ++ concat (map (λ letter, default [] (head (tables_of E letter))) letters))%list
  ∧ stdout (snd every) = (stdout w ++ looking_at letters)%list
  ∧ stdout (snd first) = (stdout w ++ looking_at letters)%list
  ∧ fs (snd every) = fs w ∧ fs (snd first) = fs w
  ∧ requests_made (snd every) = requests_made w
  ∧ requests_made (snd first) = requests_made w.
Proof.
  intros every first Hpages.
  destruct (find_updated_ais_read_pages E letters active_ingredients w)
    as (Hfs & Hreq & _ & _ & Hok).
  destruct (download_all_pdfs_read_pages E letters active_ingredients w)
    as (Hfs' & Hreq' & _ & _ & Hok').
  fold every in Hfs, Hreq, Hok. fold first in Hfs', Hreq', Hok'.
  destruct Hok as [Hres Hout].
  { intros letter Hl. destruct (Hpages letter Hl) as (t & others & Hpage). by eexists. }
  destruct (Hok' Hpages) as [Hres' Hout'].
  repeat split; done.
Qed.

Lemma X16_letter_pages_witness :
  fst (find_updated_ais.read_active_ingredients two_tables_on_a_page ["A"] [] run_1_present)
  = Ok [record_12345 (VStr "03/2024"); {[RLD_KEY := VInt 21234]}]
  ∧ fst (download_all_pdfs.read_active_ingredients two_tables_on_a_page ["A"] []
           run_1_present)
    = Ok [record_12345 (VStr "03/2024")].
Proof.
  destruct (X16_letter_pages two_tables_on_a_page ["A"] [] run_1_present)
    as (Hevery & Hfirst & _).
  { intros letter _. by eexists _, _. }
  split; [exact Hevery|exact Hfirst].
Defined.

(** ** Whole runs and the file system *)

Lemma find_updated_ais_main_after_directory E w directory_name w0 :
  find_updated_ais.create_output_directory E w = (Ok directory_name, w0) →
  let w' := snd (find_updated_ais.main E w) in
  (∀ path, ¬ directly_inside directory_name path → fs w' !! path = fs w0 !! path)
  ∧ (∀ path, fs w0 !! path = Some Dir → fs w' !! path = Some Dir).
Proof.
  intros Hcreate. cbn zeta.
  destruct (find_updated_ais.main E w) as [res w'] eqn:Hmain. cbn [snd].
  unfold find_updated_ais.main, bind at 1 in Hmain. rewrite Hcreate in Hmain.
  case_bool_decide as Hargv; [by injection Hmain as _ <-|].
  unfold bind at 1 in Hmain.
  destruct (get_rld_search_numbers E w0) as [[rld_search_numbers|e] w1] eqn:Hrld;
    apply get_rld_search_numbers_pure in Hrld as ->; [|by injection Hmain as _ <-].
  unfold bind at 1 in Hmain.
  destruct (get_content_current_year_and_month E w0) as [[[year month]|e] w2] eqn:Hcur;
    apply get_content_current_year_and_month_fs in Hcur; [|injection Hmain as _ <-;
                                                           by rewrite Hcur].
  destruct (bool_decide (year = VNone) || bool_decide (month = VNone));
    [injection Hmain as _ <-; by rewrite Hcur|].
  unfold bind at 1, lift in Hmain.
  destruct (date_of_values year month) as [current_updated_date|e];
    [|injection Hmain as _ <-; by rewrite Hcur].
  unfold bind at 1, print in Hmain. unfold bind at 1 in Hmain. unfold bind at 1 in Hmain.
  unfold bind at 1 in Hmain.
  set (w3 := with_downloaded_rld_pdfs ∅ _) in Hmain.
  assert (Hfs3 : fs w3 = fs w0) by (subst w3; cbn; exact Hcur).
  pose proof (find_updated_ais_read_pages E ascii_uppercase [] w3) as (Hfs4 & _).
  destruct (find_updated_ais.read_active_ingredients E ascii_uppercase [] w3)
    as [[active_ingredients|e] w4]; cbn [snd] in Hfs4;
    [|injection Hmain as _ <-; by rewrite Hfs4, Hfs3].
  unfold bind at 1 in Hmain.
  pose proof (process_active_ingredients_follows E active_ingredients current_updated_date
                rld_search_numbers directory_name
                {| rld_type_counter := ∅; rld_type_lists := ∅ |} w4)
    as (_ & _ & Hout & Hdir).
  rewrite Hfs4, Hfs3 in Hout, Hdir.
  destruct (process_active_ingredients E active_ingredients current_updated_date
              rld_search_numbers directory_name _ w4) as [[t|e] w5]; cbn [snd] in *;
    [|by injection Hmain as _ <-].
  unfold bind, print in Hmain. injection Hmain as _ <-. done.
Qed.

Lemma download_all_pdfs_main_after_directory E w directory_name w0 :
  common.create_output_directory E w = (Ok directory_name, w0) →
  let w' := snd (download_all_pdfs.main E w) in
  (∀ path, ¬ directly_inside directory_name path → fs w' !! path = fs w0 !! path)
  ∧ (∀ path, fs w0 !! path = Some Dir → fs w' !! path = Some Dir).
Proof.
  intros Hcreate. cbn zeta.
  destruct (download_all_pdfs.main E w) as [res w'] eqn:Hmain. cbn [snd].
  unfold download_all_pdfs.main, bind at 1 in Hmain. rewrite Hcreate in Hmain.
  unfold bind at 1 in Hmain.
  pose proof (download_all_pdfs_read_pages E ascii_uppercase [] w0) as (Hfs1 & _).
  destruct (download_all_pdfs.read_active_ingredients E ascii_uppercase [] w0)
    as [[active_ingredients|e] w1]; cbn [snd] in Hfs1;
    [|injection Hmain as _ <-; by rewrite Hfs1].
  pose proof (download_active_ingredients_state E active_ingredients directory_name w1)
    as (_ & _ & Hout & Hdir).
  rewrite Hmain in Hout, Hdir. cbn [snd] in Hout, Hdir. by rewrite Hfs1 in Hout, Hdir.
Qed.

(** X17. A whole run of either program, however it ends, changes the
    file system only by making its run directory, the one of today's date
    with the smallest number from 1 on that is not yet a directory, and by
    writing files directly inside it: every other path holds what it held,
    and every directory is still a directory. *)
Theorem X17_runs_stay_in_their_directory (E : env) (w : world) :
  ∃ N : Z,
    let directory_name :=
      directory_name_format (year (today E)) (month (today E)) (day (today E)) N in
    let unchanged (w' : world) :=
      (∀ path, path ≠ directory_name →
         ¬ (∃ name, path = directory_name +:+ "/" +:+ name ∧ count_char "/" name = 0%nat) →
         fs w' !! path = fs w !! path)
      ∧ (∀ path, fs w !! path = Some Dir → fs w' !! path = Some Dir) in
    1 ≤ N
    ∧ (∀ k, 1 ≤ k < N →
         fs w !! directory_name_format (year (today E)) (month (today E)) (day (today E)) k
         = Some Dir)
    ∧ fs w !! directory_name ≠ Some Dir
    ∧ unchanged (snd (find_updated_ais.main E w))
    ∧ unchanged (snd (download_all_pdfs.main E w)).
Proof.
  destruct (create_output_directory_outcome E w) as (N & HN & Hbelow & Hnot & Hcreate).
  exists N. cbn zeta. split; [done|]. split; [done|]. split; [done|].
  set (directory_name := directory_name_format _ _ _ N) in *.
  destruct (fs w !! directory_name) as [nd|] eqn:Hname.
  - assert (Hsame : ∀ main : M unit,
              (main = find_updated_ais.main E ∨ main = download_all_pdfs.main E) →
              snd (main w) = w).
    { intros main [-> | ->].
      - unfold find_updated_ais.main, find_updated_ais.create_output_directory, bind.
        by rewrite Hcreate.
      - unfold download_all_pdfs.main, bind. by rewrite Hcreate. }
    rewrite !Hsame by auto. done.
  - set (w0 := with_stdout _ _) in Hcreate.
    assert (Hfs0 : fs w0 = <[directory_name := Dir]> (fs w)) by done.
    destruct (find_updated_ais_main_after_directory E w directory_name w0 Hcreate)
      as [Hout Hdir].
    destruct (download_all_pdfs_main_after_directory E w directory_name w0 Hcreate)
      as [Hout' Hdir'].
    rewrite Hfs0 in Hout, Hdir, Hout', Hdir'.
    assert (Hkeep : ∀ path, fs w !! path = Some Dir →
                            <[directory_name := Dir]> (fs w) !! path = Some Dir).
    { intros path Hpath. rewrite lookup_insert_ne; [done|]. intros <-. congruence. }
    repeat split.
    + intros path Hpath Hin. rewrite Hout by done. by rewrite lookup_insert_ne.
    + intros path Hpath. by apply Hdir, Hkeep.
    + intros path Hpath Hin. rewrite Hout' by done. by rewrite lookup_insert_ne.
    + intros path Hpath. by apply Hdir', Hkeep.
Qed.

Lemma get_content_current_year_and_month_requests E w r w2 :
  get_content_current_year_and_month E w = (r, w2) →
  requests_made w2 = (requests_made w ++ [PSG_GENERIC_DRUG_DEVELOPMENT_URL])%list.
Proof.
  unfold get_content_current_year_and_month, bind. rewrite session_get_outcome.
  destruct (fst (get_outcome _ _ _ _)) as [resp|e]; [|by intros [= _ <-]].
  destruct (parse_content_current (content resp)) as [[y m] [e|]].
  - unfold try_except, raise, print, ret.
    destruct e; cbn; by intros [= _ <-].
  - unfold ret. by intros [= _ <-].
Qed.

Lemma find_updated_ais_read_pages_raise E letters active_ingredients w :
  (∃ (letter : string) e, letter ∈ letters
                          ∧ read_html E (PSG_WITH_LETTER_URL letter) = Raise e) →
  ∃ e, fst (find_updated_ais.read_active_ingredients E letters active_ingredients w)
       = Raise e.
Proof.
  revert active_ingredients w. induction letters as [|letter rest IH];
    intros acc w (bad & e & Hin & Hbad).
  - by apply elem_of_nil in Hin.
  - cbn [find_updated_ais.read_active_ingredients]. unfold bind at 1, print.
    unfold bind at 1, lift.
    destruct (read_html E (PSG_WITH_LETTER_URL letter)) as [psg_tables|e'] eqn:Hpage;
      [|by eexists].
    apply IH. exists bad, e. split; [|done].
    apply elem_of_cons in Hin as [->|?]; [congruence|done].
Qed.

Lemma download_all_pdfs_read_pages_raise E letters active_ingredients w :
  (∃ (letter : string) e, letter ∈ letters
                          ∧ read_html E (PSG_WITH_LETTER_URL letter) = Raise e) →
  ∃ e, fst (download_all_pdfs.read_active_ingredients E letters active_ingredients w)
       = Raise e.
Proof.
  revert active_ingredients w. induction letters as [|letter rest IH];
    intros acc w (bad & e & Hin & Hbad).
  - by apply elem_of_nil in Hin.
  - cbn [download_all_pdfs.read_active_ingredients]. unfold bind at 1, print.
    unfold bind at 1, lift.
    destruct (read_html E (PSG_WITH_LETTER_URL letter)) as [[|first others]|e'] eqn:Hpage;
      [by eexists| |by eexists].
    unfold bind at 1. cbn [list_item lookup list_lookup].
    apply IH. exists bad, e. split; [|done].
    apply elem_of_cons in Hin as [->|?]; [congruence|done].
Qed.

(** X18. Both programs read the pages of all 26 letters before the first
    download. When the scraper raises on the page of any letter, the run
    ends in an exception with no PDF requested: find_updated_ais.py has
    then requested the index page only, download_all_pdfs.py nothing, and
    the run directory made at the start is left empty. *)
Theorem X18_page_failure_before_any_download (E : env) (w w0 w1 w2 : world)
    (directory_name letter : string) (rld_search_numbers : list string)
    (current_year current_month : Z) (current_updated_date : date) (e : exn) :
  common.create_output_directory E w = (Ok directory_name, w0) →
  letter ∈ ascii_uppercase →
  read_html E (PSG_WITH_LETTER_URL letter) = Raise e →
  (∃ e', fst (download_all_pdfs.main E w) = Raise e')
  ∧ requests_made (snd (download_all_pdfs.main E w)) = requests_made w
  ∧ fs (snd (download_all_pdfs.main E w)) = fs w0
  ∧ ((2 ≤ length (argv E))%nat →
     get_rld_search_numbers E w0 = (Ok rld_search_numbers, w1) →
     get_content_current_year_and_month E w1
     = (Ok (VInt current_year, VInt current_month), w2) →
     datetime_date current_year current_month 1 = Ok current_updated_date →
     (∃ e', fst (find_updated_ais.main E w) = Raise e')
     ∧ requests_made (snd (find_updated_ais.main E w))
       = (requests_made w ++ [PSG_GENERIC_DRUG_DEVELOPMENT_URL])%list
     ∧ fs (snd (find_updated_ais.main E w)) = fs w0).
Proof.
  intros Hcreate Hletter Hpage.
  assert (Hreq0 : requests_made w0 = requests_made w).
  { pose proof (create_output_directory_outcome E w) as (N & _ & _ & _ & Hrun).
    rewrite Hcreate in Hrun. destruct (fs w !! _); [done|]. by injection Hrun as _ ->. }
  assert (Hall : (∃ e', fst (download_all_pdfs.main E w) = Raise e')
                 ∧ requests_made (snd (download_all_pdfs.main E w)) = requests_made w
                 ∧ fs (snd (download_all_pdfs.main E w)) = fs w0).
  { destruct (download_all_pdfs.main E w) as [res w'] eqn:Hmain. cbn [fst snd].
    unfold download_all_pdfs.main, bind at 1 in Hmain. rewrite Hcreate in Hmain.
    unfold bind at 1 in Hmain.
    pose proof (download_all_pdfs_read_pages E ascii_uppercase [] w0) as (Hfs & Hreq & _).
    destruct (download_all_pdfs_read_pages_raise E ascii_uppercase [] w0) as [e' Hraise];
      [by exists letter, e|].
    destruct (download_all_pdfs.read_active_ingredients E ascii_uppercase [] w0)
      as [[ais|e''] w3]; cbn [fst snd] in *; [done|].
    injection Hmain as <- <-. split; [by eexists|]. split; congruence. }
  destruct Hall as (Hraise & Hreq & Hfs). split; [done|]. split; [done|]. split; [done|].
  intros Hargv Hrld Hcur Hdate.
  destruct (find_updated_ais.main E w) as [res w'] eqn:Hmain. cbn [fst snd].
  unfold find_updated_ais.main, find_updated_ais.create_output_directory, bind at 1 in Hmain.
  rewrite Hcreate in Hmain. rewrite bool_decide_eq_false_2 in Hmain by lia.
  unfold bind at 1 in Hmain. rewrite Hrld in Hmain.
  unfold bind at 1 in Hmain. rewrite Hcur in Hmain.
  cbn [bool_decide decide_rel orb] in Hmain.
  rewrite !bool_decide_eq_false_2 in Hmain by done. cbn [orb] in Hmain.
  unfold bind at 1, lift in Hmain. rewrite (date_of_values_ints _ _ _ Hdate) in Hmain.
  unfold bind at 1, print in Hmain. unfold bind at 1 in Hmain. unfold bind at 1 in Hmain.
  unfold bind at 1 in Hmain.
  set (w3 := with_downloaded_rld_pdfs ∅ _) in Hmain.
  apply get_rld_search_numbers_pure in Hrld as ->.
  assert (Hfs3 : fs w3 = fs w0).
  { subst w3. cbn. by apply get_content_current_year_and_month_fs in Hcur. }
  assert (Hreq3 : requests_made w3
                  = (requests_made w ++ [PSG_GENERIC_DRUG_DEVELOPMENT_URL])%list).
  { subst w3. cbn. apply get_content_current_year_and_month_requests in Hcur.
    by rewrite Hcur, Hreq0. }
  pose proof (find_updated_ais_read_pages E ascii_uppercase [] w3) as (Hfs4 & Hreq4 & _).
  destruct (find_updated_ais_read_pages_raise E ascii_uppercase [] w3) as [e' Hraise'];
    [by exists letter, e|].
  destruct (find_updated_ais.read_active_ingredients E ascii_uppercase [] w3)
    as [[ais|e''] w4]; cbn [fst snd] in *; [done|].
  injection Hmain as <- <-. split; [by eexists|]. split; congruence.
Qed.

Lemma X18_page_failure_before_any_download_witness :
  fst (find_updated_ais.main (no_pages ["find_updated_ais.py"; "rlds.txt"]) rld_file_present)
  = Raise ValueError
  ∧ requests_made
      (snd (find_updated_ais.main (no_pages ["find_updated_ais.py"; "rlds.txt"])
              rld_file_present))
    = [PSG_GENERIC_DRUG_DEVELOPMENT_URL].
Proof.
  pose (E := no_pages ["find_updated_ais.py"; "rlds.txt"]).
  destruct (X18_page_failure_before_any_download E rld_file_present
              (snd (common.create_output_directory E rld_file_present))
              (snd (common.create_output_directory E rld_file_present))
              (snd (get_content_current_year_and_month E
                      (snd (common.create_output_directory E rld_file_present))))
              "2024-05-01-run-1" "A" ["12345"] 2024 2 (mkdate 2024 2 1) ValueError)
    as (_ & _ & _ & Hmain); [by vm_compute|apply elem_of_cons; by left|done|].
  destruct Hmain as (_ & Hreq & _); [cbn; lia|by vm_compute|by vm_compute|by vm_compute|].
  split; [by vm_compute|exact Hreq].
Defined.

(** ** One download for each raw RLD value *)

Lemma find_updated_ais_download_once E active_ingredient write_directory w :
  let key := dict_get RLD_KEY active_ingredient in
  let run :=
    find_updated_ais.download_specific_guidance_pdf E active_ingredient write_directory w in
  (downloaded_rld_pdfs w !! key = Some true → run = (Ok tt, w))
  ∧ (downloaded_rld_pdfs w !! key ≠ Some true →
     (requests_made (snd run) = requests_made w ∧ ∃ e, fst run = Raise e)
     ∨ ∃ url, dict_get PDF_URL_KEY active_ingredient = VStr url
              ∧ requests_made (snd run) = (requests_made w ++ [url])%list
              ∧ (fst run = Ok tt → downloaded_rld_pdfs (snd run) !! key = Some true)).
Proof.
  intros key run. split; [apply find_updated_ais_download_seen|].
  intros Hunseen.
  destruct (dict_get PDF_URL_KEY active_ingredient) as [n|url| |text] eqn:Hurl.
  2:{ right. exists url. split; [done|].
      destruct (find_updated_ais_download_unseen E active_ingredient write_directory w url
                  Hunseen Hurl) as (Hreq & _ & Hcases).
      fold run key in Hreq, Hcases. split; [done|]. intros Hok.
      destruct (fst (get_outcome _ _ _ _)); [destruct (can_open_wb _ _)|];
        destruct Hcases as (Hres & Hmark & _); congruence. }
  all: left;
    destruct (find_updated_ais_download_no_url E active_ingredient write_directory w Hunseen)
      as (Hres & Hreq & _); [intros u; by rewrite Hurl|];
    fold run in Hres, Hreq; split; [done|by eexists].
Qed.

Local Ltac nothing_fetched :=
  exists [], []; cbn [map]; rewrite app_nil_r;
  split; [apply sublist_nil_l|]; split; [done|]; split; [done|];
  split; [apply NoDup_nil_2|];
  split; [by intros ? ?%elem_of_nil|by intros ? ? ? ?%elem_of_nil].

(** X19. In the loop of [main] over the records, the GET requests are
    issued for records of interest that have pairwise different raw RLD
    values, none of them marked in the ledger before the loop, in the
    order of the records: no raw RLD value is requested twice. When the
    loop ends, every one of these values is marked. *)
Theorem X19_one_request_for_each_raw_value (E : env)
    (active_ingredients : list (gmap string value)) (current_updated_date : date)
    (rld_search_numbers : list string) (directory_name : string) (t : tally) (w : world) :
  let run :=
    process_active_ingredients E active_ingredients current_updated_date
      rld_search_numbers directory_name t w in
  ∃ (fetched : list (gmap string value)) (urls : list string),
    fetched `sublist_of` active_ingredients
    ∧ map (dict_get PDF_URL_KEY) fetched = map VStr urls
    ∧ requests_made (snd run) = (requests_made w ++ urls)%list
    ∧ NoDup (map (dict_get RLD_KEY) fetched)
    ∧ (∀ active_ingredient, active_ingredient ∈ fetched →
         downloaded_rld_pdfs w !! dict_get RLD_KEY active_ingredient ≠ Some true
         ∧ ∃ token : string,
             token ∈ rld_values_of (dict_get RLD_KEY active_ingredient)
             ∧ token ∈ rld_search_numbers)
    ∧ (∀ t', fst run = Ok t' →
         ∀ active_ingredient, active_ingredient ∈ fetched →
           downloaded_rld_pdfs (snd run) !! dict_get RLD_KEY active_ingredient = Some true).
Proof.
  revert t w. induction active_ingredients as [|ai rest IH]; intros t w; cbn zeta.
  - cbn [process_active_ingredients]. unfold ret. cbn [fst snd]. nothing_fetched.
  - destruct (process_active_ingredients E (ai :: rest) current_updated_date
                rld_search_numbers directory_name t w) as [res w'] eqn:Hrun.
    cbn [fst snd]. cbn [process_active_ingredients] in Hrun.
    unfold bind at 1, lift in Hrun.
    destruct (ai_is_of_interest ai current_updated_date rld_search_numbers)
      as [[b rld_type]|e] eqn:Hai; [|injection Hrun as <- <-; nothing_fetched].
    apply ai_is_of_interest_tag in Hai as [-> Hb].
    unfold bind at 1 in Hrun.
    set (t1 := count t _ _) in Hrun.
    destruct b.
    + symmetry in Hb. apply any_of_interest_true in Hb.
      destruct (find_updated_ais_download_once E ai directory_name w) as [Hseen Hunseen].
      pose proof (find_updated_ais_download_follows E ai directory_name w) as [Hmono _].
      destruct (decide (downloaded_rld_pdfs w !! dict_get RLD_KEY ai = Some true))
        as [Hmarked|Hunmarked].
      * rewrite (Hseen Hmarked) in Hrun.
        specialize (IH t1 w). rewrite Hrun in IH. cbn [fst snd] in IH.
        destruct IH as (fetched & urls & Hsub & Hurls & Hreq & Hnodup & Hwhy & Hdone).
        exists fetched, urls. split; [by apply sublist_cons|done].
      * destruct (Hunseen Hunmarked) as [[Hreq1 [e He]]|(url & Hurl & Hreq1 & Hmark1)].
        -- destruct (find_updated_ais.download_specific_guidance_pdf E ai directory_name w)
             as [[[]|e'] w1]; cbn [fst snd] in *; [done|].
           injection Hrun as <- <-. rewrite <-Hreq1. nothing_fetched.
        -- destruct (find_updated_ais.download_specific_guidance_pdf E ai directory_name w)
             as [[[]|e'] w1]; cbn [fst snd] in *.
           ++ specialize (Hmark1 eq_refl).
              pose proof (process_active_ingredients_follows E rest current_updated_date
                            rld_search_numbers directory_name t1 w1) as [Hmono' _].
              specialize (IH t1 w1). rewrite Hrun in IH, Hmono'. cbn [fst snd] in IH, Hmono'.
              destruct IH as (fetched & urls & Hsub & Hurls & Hreq & Hnodup & Hwhy & Hdone).
              exists (ai :: fetched), (url :: urls). cbn [map].
              split; [by apply sublist_skip|]. split; [by rewrite Hurl, Hurls|].
              split; [by rewrite Hreq, Hreq1, <-app_assoc|]. split; [|split].
              ** apply NoDup_cons. split; [|done].
                 intros (ai' & Hkey & Hin)%list_elem_of_fmap.
                 destruct (Hwhy ai' Hin) as [Hnot _]. apply Hnot. by rewrite <-Hkey.
              ** intros ai' [->|Hin]%elem_of_cons; [done|].
                 destruct (Hwhy ai' Hin) as [Hnot Htoken]. split; [|done].
                 intros Hwas. by apply Hnot, Hmono.
              ** intros t' Hres ai' [->|Hin]%elem_of_cons; [by apply Hmono'|].
                 by apply (Hdone t').
           ++ injection Hrun as <- <-. exists [ai], [url]. cbn [map]. rewrite Hurl.
              split; [apply sublist_skip, sublist_nil_l|]. split; [done|].
              split; [done|]. split; [apply NoDup_singleton|]. split; [|done].
              intros ai' ->%list_elem_of_singleton. done.
    + unfold ret in Hrun.
      specialize (IH t1 w). rewrite Hrun in IH. cbn [fst snd] in IH.
      destruct IH as (fetched & urls & Hsub & Hurls & Hreq & Hnodup & Hwhy & Hdone).
      exists fetched, urls. split; [by apply sublist_cons|done].
Qed.

Lemma X19_one_request_for_each_raw_value_witness :
  requests_made
    (snd (process_active_ingredients (online (mkdate 2024 5 1) [] 200 "%PDF-1.4")
            [record_12345 (VStr "03/2024"); record_12345 (VStr "04/2024")]
            (mkdate 2024 2 1) ["12345"] "2024-05-01-run-1"
            {| rld_type_counter := ∅; rld_type_lists := ∅ |} run_1_present))
  = [guidance_url].
Proof.
  destruct (X19_one_request_for_each_raw_value (online (mkdate 2024 5 1) [] 200 "%PDF-1.4")
              [record_12345 (VStr "03/2024"); record_12345 (VStr "04/2024")]
              (mkdate 2024 2 1) ["12345"] "2024-05-01-run-1"
              {| rld_type_counter := ∅; rld_type_lists := ∅ |} run_1_present)
    as (fetched & urls & _ & _ & Hreq & _).
  rewrite Hreq. by vm_compute in Hreq.
Defined.

(** ** Retries *)

Lemma send_outcome_retry E url retries n k status body :
  (k ≤ retries)%nat →
  (∀ i, (i < k)%nat → ∃ e, transport E url (n + i) = Failure e true) →
  transport E url (n + k) = Response status body →
  send_outcome E url retries n
  = (Ok {| status_code := status; content := body |}, S (n + k)).
Proof.
  revert retries n. induction k as [|k IH]; intros retries n Hk Hfail Hnet.
  - rewrite Nat.add_0_r in *. destruct retries; cbn [send_outcome]; by rewrite Hnet.
  - destruct retries as [|retries]; [lia|]. cbn [send_outcome].
    destruct (Hfail 0%nat) as [e He]; [lia|]. rewrite Nat.add_0_r in He. rewrite He.
    rewrite (IH retries (S n)); [f_equal; lia|lia| |].
    + intros i Hi. destruct (Hfail (S i)) as [e' He']; [lia|].
      exists e'. by replace (S n + i)%nat with (n + S i)%nat by lia.
    + by replace (S n + k)%nat with (n + S k)%nat by lia.
Qed.

(** X20. The session of common.py retries: when up to 5 attempts in a row
    fail in a way the retry policy accepts and the next one is answered
    with a status that is no error, [download_single_pdf] has issued a
    single GET, made of one attempt more than the failures, and goes on
    with that answer: when the file can be opened for writing, it saves
    the body of the answer and prints the message and no exception; when
    it cannot, the [OSError] of [open] leaves the call and nothing is
    written or printed. On the same network the
    [download_specific_guidance_pdf] of find_updated_ais.py, which uses the
    plain [requests.get], gives up at the first failure: the exception
    leaves it after one attempt and nothing is written. *)
Theorem X20_retries_until_answered (E : env) (url write_directory : string) (w : world)
    (k : nat) (status : Z) (body : string) :
  let path := write_directory +:+ "/" +:+ url_filename url in
  let run := download_single_pdf E (VStr url) write_directory w in
  (k ≤ 5)%nat →
  (∀ i, (i < k)%nat → ∃ e, transport E url (attempts w + i) = Failure e true) →
  transport E url (attempts w + k) = Response status body →
  ¬ 400 ≤ status < 600 →
  (requests_made (snd run) = (requests_made w ++ [url])%list
   ∧ attempts (snd run) = S (attempts w + k)
   ∧ (can_open_wb (fs w) path = true →
      fst run = Ok tt
      ∧ fs (snd run) !! path = Some (File body)
      ∧ stdout (snd run) = (stdout w ++ [Text ("Writing to file: " +:+ path)])%list)
   ∧ (can_open_wb (fs w) path = false →
      fst run = Raise OSError ∧ fs (snd run) = fs w ∧ stdout (snd run) = stdout w))
  ∧ ∀ active_ingredient : gmap string value,
      let run' :=
        find_updated_ais.download_specific_guidance_pdf E active_ingredient
          write_directory w in
      (0 < k)%nat →
      dict_get PDF_URL_KEY active_ingredient = VStr url →
      downloaded_rld_pdfs w !! dict_get RLD_KEY active_ingredient ≠ Some true →
      (∃ e, fst run' = Raise (RequestsError e))
      ∧ fs (snd run') = fs w
      ∧ attempts (snd run') = S (attempts w)
      ∧ downloaded_rld_pdfs (snd run') !! dict_get RLD_KEY active_ingredient = Some false.
Proof.
  intros path run Hk Hfail Hnet Hstatus. split.
  - subst run. rewrite download_single_pdf_string. unfold get_outcome.
    rewrite (send_outcome_retry E url (retry_total http_session) (attempts w) k status body
               Hk Hfail Hnet).
    cbn [http_session assert_status_hook andb status_code].
    assert ((400 <=? status) && (status <? 600) = false) as -> by
      (apply andb_false_iff; lia).
    fold path. cbn [fst snd content].
    destruct (can_open_wb (fs w) path); cbn [fst snd fs stdout attempts requests_made].
    + split; [done|]. split; [done|]. split; [|done].
      intros _. by rewrite lookup_insert_eq.
    + split; [done|]. split; [done|]. split; [done|]. done.
  - intros ai run' Hpos Hurl Hunseen.
    destruct (find_updated_ais_download_unseen E ai write_directory w url Hunseen Hurl)
      as (_ & Hatt & Hcases).
    fold run' in Hatt, Hcases.
    destruct (Hfail 0%nat Hpos) as [e He]. rewrite Nat.add_0_r in He.
    unfold get_outcome in Hatt, Hcases.
    cbn [default_session retry_total send_outcome] in Hatt, Hcases.
    rewrite He in Hatt, Hcases. cbn [fst snd] in Hatt, Hcases.
    destruct Hcases as (Hres & Hmark & Hfs). split; [by exists e|done].
Qed.

Lemma X20_retries_until_answered_witness :
  let run :=
    download_single_pdf (two_failures 200 "%PDF-1.4") (VStr guidance_url)
      "2024-05-01-run-1" run_1_present in
  fst run = Ok tt
  ∧ fs (snd run) !! "2024-05-01-run-1/PSG_012345.pdf" = Some (File "%PDF-1.4")
  ∧ attempts (snd run) = 3%nat.
Proof.
  destruct (X20_retries_until_answered (two_failures 200 "%PDF-1.4") guidance_url
              "2024-05-01-run-1" run_1_present 2 200 "%PDF-1.4")
    as [(_ & Hatt & Hsaved & _) _]; [lia| |done|lia|].
  - intros [|[|i]] Hi; [by exists ConnectionError..|lia].
  - destruct Hsaved as (Hok & Hfile & _); [by vm_compute|].
    split; [exact Hok|]. split; [exact Hfile|exact Hatt].
Defined.

(** ** The report of find_updated_ais.py *)

Lemma find_updated_ais_read_pages_ok E letters active_ingredients w records :
  fst (find_updated_ais.read_active_ingredients E letters active_ingredients w) = Ok records →
  records
  = (active_ingredients ++ concat (map (λ letter, concat (tables_of E letter)) letters))%list.
Proof.
  intros Hok.
  destruct (find_updated_ais_read_pages E letters active_ingredients w)
    as (_ & _ & _ & _ & Hall).
  destruct Hall as [Hres _]; [|congruence].
  intros letter Hin.
  destruct (read_html E (PSG_WITH_LETTER_URL letter)) as [psg_tables|e] eqn:Hpage;
    [by eexists|].
  destruct (find_updated_ais_read_pages_raise E letters active_ingredients w) as [e' He'];
    [by exists letter, e|congruence].
Qed.

(** X21. A run of find_updated_ais.py with the file argument that ends
    without an exception ends with the report, and the report is about
    all the records of all the tables of the 26 letter pages, of interest
    or not, downloaded or not: each count is the number of records whose
    raw RLD value has the tag, each list holds these raw values in the
    order of the pages, and the three counts add up to the number of
    records. *)
Theorem X21_report_covers_every_record (E : env) (w : world) :
  let run := find_updated_ais.main E w in
  let records := concat (map (λ letter, concat (tables_of E letter)) ascii_uppercase) in
  (2 ≤ length (argv E))%nat →
  fst run = Ok tt →
  (∃ before, stdout (snd run) = (before ++ report records)%list)
  ∧ (length (of_type "int" records) + length (of_type "str" records)
     + length (of_type "other" records))%nat = length records.
Proof.
  intros run records Hargv Hok. split; [|apply of_type_lengths].
  subst run. destruct (find_updated_ais.main E w) as [res w'] eqn:Hmain.
  cbn [fst snd] in *. subst res.
  unfold find_updated_ais.main, bind at 1 in Hmain.
  destruct (find_updated_ais.create_output_directory E w) as [[directory_name|e] w0];
    [|done].
  rewrite bool_decide_eq_false_2 in Hmain by lia.
  unfold bind at 1 in Hmain.
  destruct (get_rld_search_numbers E w0) as [[rld_search_numbers|e] w1]; [|done].
  unfold bind at 1 in Hmain.
  destruct (get_content_current_year_and_month E w1) as [[[year month]|e] w2]; [|done].
  destruct (bool_decide (year = VNone) || bool_decide (month = VNone)); [done|].
  unfold bind at 1, lift in Hmain.
  destruct (date_of_values year month) as [current_updated_date|e]; [|done].
  unfold bind at 1, print in Hmain. unfold bind at 1 in Hmain. unfold bind at 1 in Hmain.
  unfold bind at 1 in Hmain.
  set (w3 := with_downloaded_rld_pdfs ∅ _) in Hmain.
  pose proof (find_updated_ais_read_pages_ok E ascii_uppercase [] w3) as Hrecords.
  destruct (find_updated_ais.read_active_ingredients E ascii_uppercase [] w3)
    as [[active_ingredients|e] w4]; [|done].
  specialize (Hrecords active_ingredients eq_refl). cbn [app] in Hrecords.
  fold records in Hrecords. subst active_ingredients.
  unfold bind at 1 in Hmain.
  destruct (process_active_ingredients E records current_updated_date rld_search_numbers
              directory_name _ w4) as [[t|e] w5] eqn:Hloop; [|done].
  apply process_active_ingredients_tallies in Hloop as [Hcount Hvalues].
  unfold tally_count in Hcount. unfold tally_values in Hvalues.
  cbn [rld_type_counter rld_type_lists] in Hcount, Hvalues.
  unfold bind, print in Hmain. injection Hmain as <-.
  cbn [stdout with_stdout]. rewrite !Hcount, !Hvalues, !lookup_empty. cbn [default app].
  rewrite !Z.add_0_l, <-!app_assoc. cbn [app]. by eexists.
Qed.

Lemma X21_report_covers_every_record_witness :
  ∃ before,
    stdout (snd (find_updated_ais.main one_record_run rld_file_present))
    = (before
       ++ [Formatted "\nRLD int count: {}" [VInt 0];
           Formatted "RLD string count: {}" [VInt 1];
           Formatted "RLD other count: {}" [VInt 0];
           Formatted "\nRLD int list: {}" [];
           Formatted "\nRLD string list: {}" [VStr "12345 67890"];
           Formatted "RLD other list: {}" []])%list.
Proof.
  destruct (X21_report_covers_every_record one_record_run rld_file_present)
    as [[before Hout] _]; [cbn; lia|by vm_compute|].
  exists before. rewrite Hout. by vm_compute.
Defined.
